(** * BumpBox ESP32-CAM firmware: capture-and-classify pipeline

    A shallow embedding of [esp32/bumpbox_camera/src/main.cpp] and the
    properties of its capture pipeline.

    The firmware talks to hardware and to libraries (camera driver, heap,
    HTTP client, Wi-Fi, GPIO, serial port).  Every such call is an entry of
    an event log kept in the [World]; what the outside answers is read from
    input tapes held in the same [World], so that a run of the firmware is a
    function of the initial world.  Unbounded [while] loops take fuel; a run
    that exhausts it ends in [Diverge], an out-of-bounds [memcpy] in
    [Crash]. *)

From Stdlib Require Import ZArith List String Ascii Bool Lia.
From Stdlib Require Import Strings.Byte.
Import ListNotations.
Open Scope Z_scope.

#[local] Set Warnings "-register-all".
#[local] Set Warnings "-automation".

(* ================================================================== *)
(** * Configuration constants *)
(* ================================================================== *)

Definition CR : ascii := "013"%char.
Definition LF : ascii := "010"%char.
Definition DQ : ascii := "034"%char.

(** String concatenation, written [+s+] to stay clear of list append. *)
Infix "+s+" := String.append (at level 60, right associativity).

Definition chr (c : ascii) : string := String c EmptyString.
Definition nl : string := chr LF.
Definition crlf : string := String CR (String LF EmptyString).

Definition WIFI_SSID : string := "YOUR_WIFI_SSID".
Definition WIFI_PASSWORD : string := "YOUR_WIFI_PASSWORD".

Definition SERVER_URL : string :=
  "http://bumpbox-env-1.eba-43hmmxwt.ap-southeast-1.elasticbeanstalk.com/detect-object".
Definition USE_MOCK : bool := false.

Definition BUTTON_PIN : Z := 13.
Definition FLASH_LED_PIN : Z := 4.
Definition STATUS_LED_PIN : Z := 33.

Definition PWDN_GPIO_NUM : Z := 32.
Definition RESET_GPIO_NUM : Z := -1.
Definition XCLK_GPIO_NUM : Z := 0.
Definition SIOD_GPIO_NUM : Z := 26.
Definition SIOC_GPIO_NUM : Z := 27.
Definition Y9_GPIO_NUM : Z := 35.
Definition Y8_GPIO_NUM : Z := 34.
Definition Y7_GPIO_NUM : Z := 39.
Definition Y6_GPIO_NUM : Z := 36.
Definition Y5_GPIO_NUM : Z := 21.
Definition Y4_GPIO_NUM : Z := 19.
Definition Y3_GPIO_NUM : Z := 18.
Definition Y2_GPIO_NUM : Z := 5.
Definition VSYNC_GPIO_NUM : Z := 25.
Definition HREF_GPIO_NUM : Z := 23.
Definition PCLK_GPIO_NUM : Z := 22.

Inductive framesize_t := FRAMESIZE_VGA | FRAMESIZE_SVGA.
Inductive fb_location_t := CAMERA_FB_IN_PSRAM | CAMERA_FB_IN_DRAM.
Inductive pixformat_t := PIXFORMAT_JPEG.
Inductive camera_grab_mode_t := CAMERA_GRAB_LATEST.

Definition LEDC_CHANNEL_0 : Z := 0.
Definition LEDC_TIMER_0 : Z := 0.
Definition GAINCEILING_8X : Z := 2.

Definition FRAME_SIZE : framesize_t := FRAMESIZE_VGA.
Definition JPEG_QUALITY : Z := 12.

Definition DEBOUNCE_MS : Z := 300.
Definition WIFI_TIMEOUT_MS : Z := 15000.
Definition HTTP_TIMEOUT_MS : Z := 15000.
Definition FLASH_WARMUP_MS : Z := 150.

(** [size_t] and [unsigned long] are 32 bits wide on the ESP32. *)
Definition SIZE_MOD : Z := 2 ^ 32.
Definition size_t_wrap (z : Z) : Z := z mod SIZE_MOD.
Definition ulong_sub (a b : Z) : Z := (a - b) mod SIZE_MOD.

(** [int] is 32 bits wide. *)
Definition INT_MIN : Z := - 2 ^ 31.
Definition INT_MAX : Z := 2 ^ 31 - 1.

(* ================================================================== *)
(** * Data *)
(* ================================================================== *)

Inductive PinLevel := LOW | HIGH.
Inductive PinMode := INPUT_PULLUP | OUTPUT.

Definition level_eqb (a b : PinLevel) : bool :=
  match a, b with
  | LOW, LOW | HIGH, HIGH => true
  | _, _ => false
  end.

(** The driver's frame buffer.  [buf] carries its own length, which is the
    struct's [len] field. *)
Record camera_fb_t := mk_fb {
  buf : list byte;
  width : Z;
  height : Z
}.

Definition len (fb : camera_fb_t) : Z := Z.of_nat (List.length (buf fb)).

Record camera_config_t := mk_config {
  ledc_channel : Z;
  ledc_timer : Z;
  pin_d0 : Z; pin_d1 : Z; pin_d2 : Z; pin_d3 : Z;
  pin_d4 : Z; pin_d5 : Z; pin_d6 : Z; pin_d7 : Z;
  pin_xclk : Z; pin_pclk : Z; pin_vsync : Z; pin_href : Z;
  pin_sccb_sda : Z; pin_sccb_scl : Z; pin_pwdn : Z; pin_reset : Z;
  xclk_freq_hz : Z;
  pixel_format : pixformat_t;
  grab_mode : camera_grab_mode_t;
  frame_size : framesize_t;
  jpeg_quality : Z;
  fb_count : Z;
  fb_location : fb_location_t
}.

Inductive wl_status_t :=
| WL_IDLE_STATUS
| WL_NO_SSID_AVAIL
| WL_SCAN_COMPLETED
| WL_CONNECTED
| WL_CONNECT_FAILED
| WL_CONNECTION_LOST
| WL_DISCONNECTED
| WL_NO_SHIELD.

Definition is_connected (st : wl_status_t) : bool :=
  match st with WL_CONNECTED => true | _ => false end.

(** What the HTTP client gets back for one POST: the return code of
    [HTTPClient::POST] (the HTTP status, or a negative client error) and the
    payload [getString] would read. *)
Record HttpReply := mk_reply {
  reply_code : Z;
  reply_payload : string
}.

(** ** ArduinoJson documents

    The JSON library is not part of the repository; a parsed document is a
    value of [JsonValue], and the parser itself is a field of [Env]. *)

Inductive JsonValue :=
| JNull
| JBool (b : bool)
| JInt (z : Z)
| JFloat (literal : string)
| JString (s : string)
| JArray (items : list JsonValue)
| JObject (members : list (string * JsonValue)).

Inductive DeserializationError :=
| DeserOk
| EmptyInput
| IncompleteInput
| InvalidInput
| NoMemory
| TooDeep.

Definition is_error (e : DeserializationError) : bool :=
  match e with DeserOk => false | _ => true end.

Definition c_str (e : DeserializationError) : string :=
  match e with
  | DeserOk => "Ok"
  | EmptyInput => "EmptyInput"
  | IncompleteInput => "IncompleteInput"
  | InvalidInput => "InvalidInput"
  | NoMemory => "NoMemory"
  | TooDeep => "TooDeep"
  end.

Fixpoint find_member (key : string) (ms : list (string * JsonValue))
  : option JsonValue :=
  match ms with
  | [] => None
  | (k, v) :: rest => if String.eqb k key then Some v else find_member key rest
  end.

(** [doc[key]] and [obj[key]]: the member, or an unbound variant ([None])
    when the receiver is not an object or has no such key. *)
Definition member (v : option JsonValue) (key : string) : option JsonValue :=
  match v with
  | Some (JObject ms) => find_member key ms
  | _ => None
  end.

(** [JsonObject det = variant]: the object, or a null object. *)
Definition as_JsonObject (v : option JsonValue) : option JsonValue :=
  match v with
  | Some (JObject ms) => Some (JObject ms)
  | _ => None
  end.

(** [variant | default] at the three types the firmware uses: the value when
    the variant holds one of that type, the default otherwise. *)
Definition or_bool (v : option JsonValue) (d : bool) : bool :=
  match v with
  | Some (JBool b) => b
  | _ => d
  end.

Definition or_cstr (v : option JsonValue) (d : string) : string :=
  match v with
  | Some (JString s) => s
  | _ => d
  end.

Definition or_int (v : option JsonValue) (d : Z) : Z :=
  match v with
  | Some (JInt z) => if (INT_MIN <=? z) && (z <=? INT_MAX) then z else d
  | _ => d
  end.

(* ================================================================== *)
(** * Events, environment and world *)
(* ================================================================== *)

(** Arguments of a [printf]. *)
Inductive PArg :=
| AStr (s : string)
| ANum (z : Z).

Inductive Event :=
| ESerialBegin (baud : Z)
| ESerialPrint (s : string)
| ESerialPrintln (s : string)
| ESerialPrintf (fmt : string) (args : list PArg)
| ESerialAvailable (pending : bool)
| ESerialRead (c : option ascii)
| EPinMode (pin : Z) (mode : PinMode)
| EDigitalWrite (pin : Z) (v : PinLevel)
| EDigitalRead (pin : Z) (v : PinLevel)
| EDelay (ms : Z)
| EMillis (t : Z)
| EWiFiMode
| EWiFiBegin (ssid pass : string)
| EWiFiStatus (st : wl_status_t)
| EPsramFound (found : bool)
| ECameraInit (cfg : camera_config_t) (err : Z)
| ESensorGet (present : bool)
| ESensorSet (setting : string) (value : Z)
| EFbGet (fb : option camera_fb_t)
| EFbReturn (fb : camera_fb_t)
| EPsMalloc (size : Z) (ok : bool)
| EFree
| EHttpBegin (url : string)
| EHttpSetTimeout (ms : Z)
| EHttpAddHeader (name value : string)
| EHttpPost (body : list byte) (code : Z)
| EHttpGetString (payload : string)
| EHttpEnd.

(** What does not change during a run: the board and the libraries. *)
Record Env := mk_env {
  psramFound : bool;
  esp_camera_init : camera_config_t -> Z;
  esp_camera_sensor_get : bool;
  deserializeJson : string -> DeserializationError * JsonValue;
  errorToString : Z -> string;
  heap_junk : nat -> byte;
  localIP : string
}.

Definition ESP_OK : Z := 0.

(** The state of a run.  [log] is newest first.  The [_in] fields are the
    answers the outside will give, in order, to the calls that ask. *)
Record World := mk_world {
  log : list Event;
  pins : Z -> PinLevel;
  clock : Z;
  lastButtonPress : Z;
  serial_rx : list ascii;
  cam_in : nat -> option camera_fb_t;
  heap_in : nat -> bool;
  http_in : nat -> HttpReply;
  wifi_in : nat -> wl_status_t;
  gpio_in : nat -> PinLevel
}.

(** The log in the order things happened. *)
Definition trace (w : World) : list Event := rev (log w).

Definition shift {A} (s : nat -> A) : nat -> A := fun n => s (S n).

(* ================================================================== *)
(** * The run monad *)
(* ================================================================== *)

Inductive Res (A : Type) :=
| Done (a : A) (w : World)
| Diverge (w : World)
| Crash (w : World).
Arguments Done {A} a w.
Arguments Diverge {A} w.
Arguments Crash {A} w.

Definition M (A : Type) : Type := World -> Res A.

Definition ret {A} (a : A) : M A := fun w => Done a w.

Definition bind {A B} (m : M A) (k : A -> M B) : M B :=
  fun w =>
    match m w with
    | Done a w' => k a w'
    | Diverge w' => Diverge w'
    | Crash w' => Crash w'
    end.

Declare Scope run_scope.
Delimit Scope run_scope with run.
Notation "x <- m ;; k" := (bind m (fun x => k))
  (at level 61, m at next level, right associativity) : run_scope.
Notation "m ;; k" := (bind m (fun _ => k))
  (at level 61, right associativity) : run_scope.
Open Scope run_scope.

Definition world_of {A} (r : Res A) : World :=
  match r with
  | Done _ w => w
  | Diverge w => w
  | Crash w => w
  end.

Definition out_of_fuel {A} : M A := fun w => Diverge w.
Definition out_of_bounds {A} : M A := fun w => Crash w.

(** ** Primitive steps *)

Definition emit (e : Event) : M unit := fun w =>
  Done tt (mk_world (e :: log w) (pins w) (clock w) (lastButtonPress w)
             (serial_rx w) (cam_in w) (heap_in w) (http_in w) (wifi_in w)
             (gpio_in w)).

Definition set_pin (pin : Z) (v : PinLevel) : M unit := fun w =>
  Done tt (mk_world (log w) (fun p => if p =? pin then v else pins w p)
             (clock w) (lastButtonPress w) (serial_rx w) (cam_in w)
             (heap_in w) (http_in w) (wifi_in w) (gpio_in w)).

Definition advance (ms : Z) : M unit := fun w =>
  Done tt (mk_world (log w) (pins w) (clock w + ms) (lastButtonPress w)
             (serial_rx w) (cam_in w) (heap_in w) (http_in w) (wifi_in w)
             (gpio_in w)).

Definition set_lastButtonPress (t : Z) : M unit := fun w =>
  Done tt (mk_world (log w) (pins w) (clock w) t (serial_rx w) (cam_in w)
             (heap_in w) (http_in w) (wifi_in w) (gpio_in w)).

Definition get_lastButtonPress : M Z := fun w => Done (lastButtonPress w) w.

Definition next_cam : M (option camera_fb_t) := fun w =>
  Done (cam_in w 0%nat)
       (mk_world (log w) (pins w) (clock w) (lastButtonPress w) (serial_rx w)
          (shift (cam_in w)) (heap_in w) (http_in w) (wifi_in w) (gpio_in w)).

Definition next_heap : M bool := fun w =>
  Done (heap_in w 0%nat)
       (mk_world (log w) (pins w) (clock w) (lastButtonPress w) (serial_rx w)
          (cam_in w) (shift (heap_in w)) (http_in w) (wifi_in w) (gpio_in w)).

Definition next_http : M HttpReply := fun w =>
  Done (http_in w 0%nat)
       (mk_world (log w) (pins w) (clock w) (lastButtonPress w) (serial_rx w)
          (cam_in w) (heap_in w) (shift (http_in w)) (wifi_in w) (gpio_in w)).

Definition next_wifi : M wl_status_t := fun w =>
  Done (wifi_in w 0%nat)
       (mk_world (log w) (pins w) (clock w) (lastButtonPress w) (serial_rx w)
          (cam_in w) (heap_in w) (http_in w) (shift (wifi_in w)) (gpio_in w)).

Definition next_gpio : M PinLevel := fun w =>
  Done (gpio_in w 0%nat)
       (mk_world (log w) (pins w) (clock w) (lastButtonPress w) (serial_rx w)
          (cam_in w) (heap_in w) (http_in w) (wifi_in w) (shift (gpio_in w))).

Definition peek_rx : M (list ascii) := fun w => Done (serial_rx w) w.

Definition set_rx (rx : list ascii) : M unit := fun w =>
  Done tt (mk_world (log w) (pins w) (clock w) (lastButtonPress w) rx
             (cam_in w) (heap_in w) (http_in w) (wifi_in w) (gpio_in w)).

Definition get_clock : M Z := fun w => Done (clock w) w.

(* ================================================================== *)
(** * The Arduino, driver and library calls the firmware makes *)
(* ================================================================== *)

Definition Serial_begin (baud : Z) : M unit := emit (ESerialBegin baud).
Definition Serial_print (s : string) : M unit := emit (ESerialPrint s).
Definition Serial_println (s : string) : M unit := emit (ESerialPrintln s).
Definition Serial_printf (fmt : string) (args : list PArg) : M unit :=
  emit (ESerialPrintf fmt args).

Definition Serial_available : M bool :=
  rx <- peek_rx ;;
  let pending := match rx with [] => false | _ :: _ => true end in
  emit (ESerialAvailable pending) ;;
  ret pending.

Definition Serial_read : M (option ascii) :=
  rx <- peek_rx ;;
  match rx with
  | [] => emit (ESerialRead None) ;; ret None
  | c :: rest => set_rx rest ;; emit (ESerialRead (Some c)) ;; ret (Some c)
  end.

Definition pinMode (pin : Z) (mode : PinMode) : M unit := emit (EPinMode pin mode).

Definition digitalWrite (pin : Z) (v : PinLevel) : M unit :=
  set_pin pin v ;; emit (EDigitalWrite pin v).

Definition digitalRead (pin : Z) : M PinLevel :=
  v <- next_gpio ;; emit (EDigitalRead pin v) ;; ret v.

(** Time passes in [delay] only. *)
Definition delay (ms : Z) : M unit := advance ms ;; emit (EDelay ms).

Definition millis : M Z :=
  t <- get_clock ;;
  let now := t mod SIZE_MOD in
  emit (EMillis now) ;; ret now.

Definition WiFi_mode_STA : M unit := emit EWiFiMode.
Definition WiFi_begin (ssid pass : string) : M unit := emit (EWiFiBegin ssid pass).
Definition WiFi_status : M wl_status_t :=
  st <- next_wifi ;; emit (EWiFiStatus st) ;; ret st.

Definition esp_camera_fb_get : M (option camera_fb_t) :=
  fb <- next_cam ;; emit (EFbGet fb) ;; ret fb.

Definition esp_camera_fb_return (fb : camera_fb_t) : M unit := emit (EFbReturn fb).

(** [ps_malloc]: [None] is the null pointer; a fresh block holds whatever
    was in memory. *)
Definition ps_malloc (env : Env) (size : Z) : M (option (list byte)) :=
  ok <- next_heap ;;
  emit (EPsMalloc size ok) ;;
  ret (if ok then Some (map (heap_junk env) (seq 0 (Z.to_nat size))) else None).

Definition free : M unit := emit EFree.

(** [memcpy(dst + off, src, n)] on a block [dst]; writing past the end of
    [dst] or reading past the end of [src] is undefined behaviour. *)
Definition memcpy (dst : list byte) (off : Z) (src : list byte) (n : Z)
  : M (list byte) :=
  if (off + n <=? Z.of_nat (List.length dst)) && (n <=? Z.of_nat (List.length src))
  then ret (firstn (Z.to_nat off) dst ++ firstn (Z.to_nat n) src
              ++ skipn (Z.to_nat (off + n)) dst)
  else out_of_bounds.

Definition strlen (s : string) : Z := Z.of_nat (String.length s).

Definition http_begin (url : string) : M unit := emit (EHttpBegin url).
Definition http_setTimeout (ms : Z) : M unit := emit (EHttpSetTimeout ms).
Definition http_addHeader (name value : string) : M unit :=
  emit (EHttpAddHeader name value).
Definition http_POST (body : list byte) (size : Z) : M HttpReply :=
  r <- next_http ;;
  emit (EHttpPost (firstn (Z.to_nat size) body) (reply_code r)) ;;
  ret r.
Definition http_getString (r : HttpReply) : M string :=
  emit (EHttpGetString (reply_payload r)) ;; ret (reply_payload r).
Definition http_end : M unit := emit EHttpEnd.

(** Loops. *)
Fixpoint for_upto (n : nat) (i : Z) (body : Z -> M unit) : M unit :=
  match n with
  | O => ret tt
  | S n' => body i ;; for_upto n' (i + 1) body
  end.

(** [for (int i = 0; i < times; i++) body] *)
Definition for_int (times : Z) (body : Z -> M unit) : M unit :=
  for_upto (Z.to_nat times) 0 body.

Fixpoint while_do (fuel : nat) (cond : M bool) (body : M unit) : M unit :=
  match fuel with
  | O => out_of_fuel
  | S fuel' =>
      c <- cond ;;
      if c then body ;; while_do fuel' cond body else ret tt
  end.

(* ================================================================== *)
(** * The firmware *)
(* ================================================================== *)

(** ** LED helpers *)

Definition flashLED (times durationMs : Z) : M unit :=
  for_int times (fun i =>
    digitalWrite FLASH_LED_PIN HIGH ;;
    delay durationMs ;;
    digitalWrite FLASH_LED_PIN LOW ;;
    if i <? times - 1 then delay durationMs else ret tt).

Definition blinkError (times : Z) : M unit :=
  for_int times (fun _ =>
    digitalWrite STATUS_LED_PIN LOW ;;
    delay 150 ;;
    digitalWrite STATUS_LED_PIN HIGH ;;
    delay 150).

(** ** Wi-Fi *)

Fixpoint connectWiFi_wait (fuel : nat) (start : Z) : M bool :=
  match fuel with
  | O => out_of_fuel
  | S fuel' =>
      st <- WiFi_status ;;
      if is_connected st then ret true
      else
        now <- millis ;;
        if ulong_sub now start >? WIFI_TIMEOUT_MS then
          Serial_println (nl +s+ "[WiFi] Connection timed out!") ;;
          Serial_println "[WiFi] Check SSID/password. ESP32 only supports 2.4GHz WiFi." ;;
          blinkError 3 ;;
          ret false
        else
          delay 500 ;;
          Serial_print "." ;;
          connectWiFi_wait fuel' start
  end.

(** The loop of [connectWiFi] answers [false] where the source returns from
    inside it. *)
Definition connectWiFi (env : Env) (fuel : nat) : M unit :=
  Serial_print "[WiFi] Connecting to " ;;
  Serial_println WIFI_SSID ;;
  WiFi_mode_STA ;;
  WiFi_begin WIFI_SSID WIFI_PASSWORD ;;
  start <- millis ;;
  connected <- connectWiFi_wait fuel start ;;
  if connected then
    Serial_println EmptyString ;;
    Serial_print "[WiFi] Connected! IP: " ;;
    Serial_println (localIP env)
  else ret tt.

(** ** Camera *)

Definition initCamera (env : Env) : M bool :=
  emit (EPsramFound (psramFound env)) ;;
  config <-
    (if psramFound env then
       Serial_println "[Camera] PSRAM found — using double buffer" ;;
       ret (mk_config LEDC_CHANNEL_0 LEDC_TIMER_0
              Y2_GPIO_NUM Y3_GPIO_NUM Y4_GPIO_NUM Y5_GPIO_NUM
              Y6_GPIO_NUM Y7_GPIO_NUM Y8_GPIO_NUM Y9_GPIO_NUM
              XCLK_GPIO_NUM PCLK_GPIO_NUM VSYNC_GPIO_NUM HREF_GPIO_NUM
              SIOD_GPIO_NUM SIOC_GPIO_NUM PWDN_GPIO_NUM RESET_GPIO_NUM
              20000000 PIXFORMAT_JPEG CAMERA_GRAB_LATEST
              FRAME_SIZE JPEG_QUALITY 2 CAMERA_FB_IN_PSRAM)
     else
       Serial_println "[Camera] No PSRAM — using reduced settings" ;;
       ret (mk_config LEDC_CHANNEL_0 LEDC_TIMER_0
              Y2_GPIO_NUM Y3_GPIO_NUM Y4_GPIO_NUM Y5_GPIO_NUM
              Y6_GPIO_NUM Y7_GPIO_NUM Y8_GPIO_NUM Y9_GPIO_NUM
              XCLK_GPIO_NUM PCLK_GPIO_NUM VSYNC_GPIO_NUM HREF_GPIO_NUM
              SIOD_GPIO_NUM SIOC_GPIO_NUM PWDN_GPIO_NUM RESET_GPIO_NUM
              20000000 PIXFORMAT_JPEG CAMERA_GRAB_LATEST
              FRAMESIZE_SVGA 14 1 CAMERA_FB_IN_DRAM)) ;;
  let err := esp_camera_init env config in
  emit (ECameraInit config err) ;;
  if negb (err =? ESP_OK) then
    Serial_printf ("[Camera] Init failed (0x%x)" +s+ nl) [ANum err] ;;
    Serial_println "[Camera] Fix: ensure 5V power supply. Try adding a capacitor." ;;
    ret false
  else
    emit (ESensorGet (esp_camera_sensor_get env)) ;;
    (if esp_camera_sensor_get env then
       emit (ESensorSet "brightness" 1) ;;
       emit (ESensorSet "whitebal" 1) ;;
       emit (ESensorSet "awb_gain" 1) ;;
       emit (ESensorSet "aec2" 1) ;;
       emit (ESensorSet "ae_level" 1) ;;
       emit (ESensorSet "gainceiling" GAINCEILING_8X)
     else ret tt) ;;
    Serial_println "[Camera] Ready!" ;;
    ret true.

(** ** JSON parsing *)

Definition parseResponse (env : Env) (response : string) : M unit :=
  let '(err, parsed) := deserializeJson env response in
  let doc := Some parsed in
  if is_error err then
    Serial_print "[JSON] Parse error: " ;;
    Serial_println (c_str err) ;;
    Serial_println response
  else if negb (or_bool (member doc "success") false) then
    Serial_printf ("[Result] Server error: %s" +s+ nl)
      [AStr (or_cstr (member doc "error") "Unknown")]
  else
    let det := as_JsonObject (member doc "detection") in
    let label := or_cstr (member det "label") "Unknown" in
    let category := or_cstr (member det "category") "Unknown" in
    let minPrice := or_int (member det "minPrice") 0 in
    let maxPrice := or_int (member det "maxPrice") 0 in
    let confidence := or_int (member det "confidence") 0 in
    Serial_println EmptyString ;;
    Serial_println "========== DETECTION RESULT ==========" ;;
    Serial_printf ("  Item:       %s" +s+ nl) [AStr label] ;;
    Serial_printf ("  Category:   %s" +s+ nl) [AStr category] ;;
    Serial_printf ("  Price:      $%d - $%d" +s+ nl) [ANum minPrice; ANum maxPrice] ;;
    Serial_printf ("  Confidence: %d%%" +s+ nl) [ANum confidence] ;;
    Serial_println "======================================" ;;
    Serial_println EmptyString.

(** ** HTTP POST *)

Definition boundary : string := "----BumpBoxESP32Boundary".

Definition bodyStart : string :=
  "--" +s+ boundary +s+ crlf +s+
  "Content-Disposition: form-data; name=" +s+ chr DQ +s+ "image" +s+ chr DQ +s+
  "; filename=" +s+ chr DQ +s+ "capture.jpg" +s+ chr DQ +s+ crlf +s+
  "Content-Type: image/jpeg" +s+ crlf +s+ crlf.

Definition bodyEnd : string := crlf +s+ "--" +s+ boundary +s+ "--" +s+ crlf.

Definition sendToServer (env : Env) (imageData : list byte) (imageLen : Z)
  : M bool :=
  let url := if USE_MOCK then SERVER_URL +s+ "?mock=true" else SERVER_URL in
  let totalLen := size_t_wrap (strlen bodyStart + imageLen + strlen bodyEnd) in
  Serial_printf ("[HTTP] Body: %u bytes (image: %u)" +s+ nl)
    [ANum totalLen; ANum imageLen] ;;
  allocated <- ps_malloc env totalLen ;;
  match allocated with
  | None =>
      Serial_println "[HTTP] Memory allocation failed!" ;;
      ret false
  | Some body =>
      let offset := 0 in
      body <- memcpy body offset (list_byte_of_string bodyStart) (strlen bodyStart) ;;
      let offset := size_t_wrap (offset + strlen bodyStart) in
      body <- memcpy body offset imageData imageLen ;;
      let offset := size_t_wrap (offset + imageLen) in
      body <- memcpy body offset (list_byte_of_string bodyEnd) (strlen bodyEnd) ;;
      http_begin url ;;
      http_setTimeout HTTP_TIMEOUT_MS ;;
      http_addHeader "Content-Type" ("multipart/form-data; boundary=" +s+ boundary) ;;
      Serial_printf ("[HTTP] POST %s" +s+ nl) [AStr url] ;;
      reply <- http_POST body totalLen ;;
      let code := reply_code reply in
      free ;;
      if code =? 200 then
        resp <- http_getString reply ;;
        http_end ;;
        parseResponse env resp ;;
        ret true
      else
        (if code >? 0 then
           payload <- http_getString reply ;;
           Serial_printf ("[HTTP] Server returned %d: %s" +s+ nl)
             [ANum code; AStr payload]
         else
           Serial_printf ("[HTTP] Request failed: %s" +s+ nl)
             [AStr (errorToString env code)]) ;;
        http_end ;;
        ret false
  end.

(** ** Capture and send *)

Definition captureAndSend (env : Env) : M unit :=
  Serial_println (nl +s+ "---------- CAPTURE ----------") ;;
  digitalWrite FLASH_LED_PIN HIGH ;;
  delay FLASH_WARMUP_MS ;;
  fb <- esp_camera_fb_get ;;
  (match fb with
   | Some stale => esp_camera_fb_return stale
   | None => ret tt
   end) ;;
  fb <- esp_camera_fb_get ;;
  digitalWrite FLASH_LED_PIN LOW ;;
  match fb with
  | None =>
      Serial_println "[Camera] Capture failed!" ;;
      blinkError 5
  | Some fb =>
      Serial_printf ("[Camera] %u bytes (%ux%u)" +s+ nl)
        [ANum (len fb); ANum (width fb); ANum (height fb)] ;;
      if len fb >? 1000000 then
        Serial_println "[Camera] Image exceeds 1MB server limit!" ;;
        esp_camera_fb_return fb ;;
        blinkError 4
      else
        ok <- sendToServer env (buf fb) (len fb) ;;
        esp_camera_fb_return fb ;;
        if ok then flashLED 2 100 else blinkError 5
  end.

(** ** Setup and loop *)

Definition setup (env : Env) (fuel : nat) : M unit :=
  Serial_begin 115200 ;;
  delay 1000 ;;
  Serial_println EmptyString ;;
  Serial_println "========================================" ;;
  Serial_println "  BumpBox ESP32-CAM v1.0" ;;
  Serial_println "  Smart Locker Camera System" ;;
  Serial_println "----------------------------------------" ;;
  Serial_println "  Trigger: button (GPIO 13) or type 'c'" ;;
  Serial_println "========================================" ;;
  Serial_println EmptyString ;;
  pinMode BUTTON_PIN INPUT_PULLUP ;;
  pinMode FLASH_LED_PIN OUTPUT ;;
  pinMode STATUS_LED_PIN OUTPUT ;;
  digitalWrite FLASH_LED_PIN LOW ;;
  digitalWrite STATUS_LED_PIN HIGH ;;
  ready <- initCamera env ;;
  (if negb ready then
     Serial_println "[FATAL] Camera init failed. Halting." ;;
     while_do fuel (ret true) (blinkError 3 ;; delay 2000)
   else ret tt) ;;
  connectWiFi env fuel ;;
  Serial_println ("[Ready] Waiting for trigger..." +s+ nl).

Definition is_capture_command (c : option ascii) : bool :=
  match c with
  | Some ch => Ascii.eqb ch "c"%char || Ascii.eqb ch "C"%char
  | None => false
  end.

Definition loop (env : Env) (fuel : nat) : M unit :=
  let trigger := false in
  button <- digitalRead BUTTON_PIN ;;
  trigger <-
    (if level_eqb button LOW then
       now <- millis ;;
       last <- get_lastButtonPress ;;
       if ulong_sub now last >? DEBOUNCE_MS then
         now <- millis ;;
         set_lastButtonPress now ;;
         Serial_println "[Trigger] Button pressed" ;;
         ret true
       else ret trigger
     else ret trigger) ;;
  pending <- Serial_available ;;
  trigger <-
    (if pending then
       cmd <- Serial_read ;;
       while_do fuel Serial_available (Serial_read ;; ret tt) ;;
       if is_capture_command cmd then
         Serial_println "[Trigger] Serial command" ;;
         ret true
       else ret trigger
     else ret trigger) ;;
  (if trigger then
     st <- WiFi_status ;;
     (if negb (is_connected st) then
        Serial_println "[WiFi] Reconnecting..." ;;
        connectWiFi env fuel
      else ret tt) ;;
     st <- WiFi_status ;;
     if is_connected st then captureAndSend env
     else
       Serial_println "[Error] No WiFi — cannot send image" ;;
       blinkError 3
   else ret tt) ;;
  delay 50.

(** The Arduino core calls [setup] once and then [loop] for ever. *)
Fixpoint loop_forever (env : Env) (fuel : nat) (rounds : nat) : M unit :=
  match rounds with
  | O => out_of_fuel
  | S rounds' => loop env fuel ;; loop_forever env fuel rounds'
  end.

Definition sketch (env : Env) (fuel : nat) : M unit :=
  setup env fuel ;; loop_forever env fuel fuel.

(* ================================================================== *)
(** * Observations on runs *)
(* ================================================================== *)

(** [returns r Q]: the run [r] came back, with a value and a world that
    satisfy [Q]. *)
Definition returns {A} (r : Res A) (Q : A -> World -> Prop) : Prop :=
  match r with
  | Done a w' => Q a w'
  | _ => False
  end.

(** The value a run came back with, if it did. *)
Definition returned {A} (r : Res A) : option A :=
  match r with
  | Done a _ => Some a
  | _ => None
  end.

(** ** Classes of events *)

Definition is_serial_out (e : Event) : bool :=
  match e with
  | ESerialPrint _ | ESerialPrintln _ | ESerialPrintf _ _ => true
  | _ => false
  end.

Definition is_camera_event (e : Event) : bool :=
  match e with
  | EFbGet _ | EFbReturn _ => true
  | _ => false
  end.

Definition is_acquisition (e : Event) : bool :=
  match e with
  | EFbGet (Some _) => true
  | _ => false
  end.

Definition is_release (e : Event) : bool :=
  match e with
  | EFbReturn _ => true
  | _ => false
  end.

Definition is_upload_event (e : Event) : bool :=
  match e with
  | EPsMalloc _ _ | EFree | EHttpBegin _ | EHttpSetTimeout _ | EHttpAddHeader _ _
  | EHttpPost _ _ | EHttpGetString _ | EHttpEnd => true
  | _ => false
  end.

Definition is_connectivity_check (e : Event) : bool :=
  match e with
  | EWiFiStatus _ => true
  | _ => false
  end.

Definition is_trigger_poll (e : Event) : bool :=
  match e with
  | EDigitalRead _ _ | ESerialAvailable _ | ESerialRead _ => true
  | _ => false
  end.

(** Events of the Wi-Fi connection phase. *)
Definition is_wifi_phase_event (e : Event) : bool :=
  match e with
  | ESerialPrint _ | ESerialPrintln _ | EWiFiMode | EWiFiBegin _ _
  | EWiFiStatus _ | EMillis _ | EDelay _ => true
  | EDigitalWrite pin _ => pin =? STATUS_LED_PIN
  | _ => false
  end.

Definition acquisitions (tr : list Event) : nat := List.length (filter is_acquisition tr).
Definition releases (tr : list Event) : nat := List.length (filter is_release tr).

(** [p] happens somewhere before [q] in [tr]. *)
Fixpoint occurs_before (p q : Event -> bool) (tr : list Event) : bool :=
  match tr with
  | [] => false
  | e :: rest => (p e && existsb q rest) || occurs_before p q rest
  end.

(** ** What the procedures write, as lists of events *)

(** The multipart body: header, image bytes, closing boundary. *)
Definition encode (imageData : list byte) : list byte :=
  list_byte_of_string bodyStart ++ imageData ++ list_byte_of_string bodyEnd.

Definition detection_report (label category : string)
    (minPrice maxPrice confidence : Z) : list Event :=
  [ ESerialPrintln EmptyString;
    ESerialPrintln "========== DETECTION RESULT ==========";
    ESerialPrintf ("  Item:       %s" +s+ nl) [AStr label];
    ESerialPrintf ("  Category:   %s" +s+ nl) [AStr category];
    ESerialPrintf ("  Price:      $%d - $%d" +s+ nl) [ANum minPrice; ANum maxPrice];
    ESerialPrintf ("  Confidence: %d%%" +s+ nl) [ANum confidence];
    ESerialPrintln "======================================";
    ESerialPrintln EmptyString ].

Definition parse_failure_report (err : DeserializationError) (raw : string)
  : list Event :=
  [ ESerialPrint "[JSON] Parse error: "; ESerialPrintln (c_str err);
    ESerialPrintln raw ].

Definition server_error_report (message : string) : list Event :=
  [ ESerialPrintf ("[Result] Server error: %s" +s+ nl) [AStr message] ].

Definition parse_output (env : Env) (response : string) : list Event :=
  let '(err, parsed) := deserializeJson env response in
  let doc := Some parsed in
  if is_error err then parse_failure_report err response
  else if negb (or_bool (member doc "success") false) then
    server_error_report (or_cstr (member doc "error") "Unknown")
  else
    let det := as_JsonObject (member doc "detection") in
    detection_report (or_cstr (member det "label") "Unknown")
      (or_cstr (member det "category") "Unknown")
      (or_int (member det "minPrice") 0)
      (or_int (member det "maxPrice") 0)
      (or_int (member det "confidence") 0).

Definition server_url : string :=
  if USE_MOCK then SERVER_URL +s+ "?mock=true" else SERVER_URL.

(** The request [sendToServer] sets up and posts. *)
Definition post_output (imageData : list byte) (code : Z) : list Event :=
  [ EHttpBegin server_url;
    EHttpSetTimeout HTTP_TIMEOUT_MS;
    EHttpAddHeader "Content-Type" ("multipart/form-data; boundary=" +s+ boundary);
    ESerialPrintf ("[HTTP] POST %s" +s+ nl) [AStr server_url];
    EHttpPost (encode imageData) code;
    EFree ].

(** What [sendToServer] does with the reply. *)
Definition reply_output (env : Env) (reply : HttpReply) : list Event :=
  if reply_code reply =? 200 then
    [ EHttpGetString (reply_payload reply); EHttpEnd ]
    ++ parse_output env (reply_payload reply)
  else if reply_code reply >? 0 then
    [ EHttpGetString (reply_payload reply);
      ESerialPrintf ("[HTTP] Server returned %d: %s" +s+ nl)
        [ANum (reply_code reply); AStr (reply_payload reply)];
      EHttpEnd ]
  else
    [ ESerialPrintf ("[HTTP] Request failed: %s" +s+ nl)
        [AStr (errorToString env (reply_code reply))];
      EHttpEnd ].

(** The events of [sendToServer], in order, given whether the allocation
    succeeds and what the server replies. *)
Definition upload_output (env : Env) (imageData : list byte) (allocated : bool)
    (reply : HttpReply) : list Event :=
  let n := Z.of_nat (List.length imageData) in
  let totalLen := strlen bodyStart + n + strlen bodyEnd in
  ESerialPrintf ("[HTTP] Body: %u bytes (image: %u)" +s+ nl) [ANum totalLen; ANum n]
  :: EPsMalloc totalLen allocated
  :: (if allocated then
        post_output imageData (reply_code reply) ++ reply_output env reply
      else [ ESerialPrintln "[HTTP] Memory allocation failed!" ]).

Definition upload_result (allocated : bool) (reply : HttpReply) : bool :=
  allocated && (reply_code reply =? 200).

(** The world after [sendToServer] wrote [tr]: one answer of the heap is
    used, and one of the server if the allocation succeeded. *)
Definition after_upload (tr : list Event) (w : World) : World :=
  mk_world (rev tr ++ log w) (pins w) (clock w) (lastButtonPress w) (serial_rx w)
    (cam_in w) (shift (heap_in w))
    (if heap_in w 0%nat then shift (http_in w) else http_in w)
    (wifi_in w) (gpio_in w).

Definition log_more (tr : list Event) (w : World) : World :=
  mk_world (tr ++ log w) (pins w) (clock w) (lastButtonPress w) (serial_rx w)
    (cam_in w) (heap_in w) (http_in w) (wifi_in w) (gpio_in w).

Definition blink_cycle : list Event :=
  [ EDigitalWrite STATUS_LED_PIN LOW; EDelay 150;
    EDigitalWrite STATUS_LED_PIN HIGH; EDelay 150 ].

(** What [blinkError times] writes. *)
Fixpoint blink_output (times : nat) : list Event :=
  match times with
  | O => []
  | S n => blink_cycle ++ blink_output n
  end.

(** What [flashLED 2 100] writes. *)
Definition success_flashes : list Event :=
  [ EDigitalWrite FLASH_LED_PIN HIGH; EDelay 100; EDigitalWrite FLASH_LED_PIN LOW;
    EDelay 100;
    EDigitalWrite FLASH_LED_PIN HIGH; EDelay 100; EDigitalWrite FLASH_LED_PIN LOW ].

Definition discard_output (stale : option camera_fb_t) : list Event :=
  match stale with
  | Some fb => [EFbReturn fb]
  | None => []
  end.

(** What [captureAndSend] does once the fresh frame is in hand and the
    flash is off. *)
Definition process_output (env : Env) (w : World) (fresh : option camera_fb_t)
  : list Event :=
  match fresh with
  | None => ESerialPrintln "[Camera] Capture failed!" :: blink_output 5
  | Some fb =>
      ESerialPrintf ("[Camera] %u bytes (%ux%u)" +s+ nl)
        [ANum (len fb); ANum (width fb); ANum (height fb)]
      :: (if len fb >? 1000000 then
            [ ESerialPrintln "[Camera] Image exceeds 1MB server limit!";
              EFbReturn fb ] ++ blink_output 4
          else
            upload_output env (buf fb) (heap_in w 0%nat) (http_in w 0%nat)
            ++ [ EFbReturn fb ]
            ++ (if upload_result (heap_in w 0%nat) (http_in w 0%nat)
                then success_flashes else blink_output 5))
  end.

(** The events of [captureAndSend], in order. *)
Definition capture_output (env : Env) (w : World) : list Event :=
  [ ESerialPrintln (nl +s+ "---------- CAPTURE ----------");
    EDigitalWrite FLASH_LED_PIN HIGH;
    EDelay FLASH_WARMUP_MS;
    EFbGet (cam_in w 0%nat) ]
  ++ discard_output (cam_in w 0%nat)
  ++ [ EFbGet (cam_in w 1%nat); EDigitalWrite FLASH_LED_PIN LOW ]
  ++ process_output env w (cam_in w 1%nat).

(** What the halting loop of [setup] writes in [rounds] rounds. *)
Fixpoint halt_signal (rounds : nat) : list Event :=
  match rounds with
  | O => []
  | S n => blink_output 3 ++ [EDelay 2000] ++ halt_signal n
  end.

(** What [setup] writes before it initialises the camera. *)
Definition boot_output : list Event :=
  [ ESerialBegin 115200;
    EDelay 1000;
    ESerialPrintln EmptyString;
    ESerialPrintln "========================================";
    ESerialPrintln "  BumpBox ESP32-CAM v1.0";
    ESerialPrintln "  Smart Locker Camera System";
    ESerialPrintln "----------------------------------------";
    ESerialPrintln "  Trigger: button (GPIO 13) or type 'c'";
    ESerialPrintln "========================================";
    ESerialPrintln EmptyString;
    EPinMode BUTTON_PIN INPUT_PULLUP;
    EPinMode FLASH_LED_PIN OUTPUT;
    EPinMode STATUS_LED_PIN OUTPUT;
    EDigitalWrite FLASH_LED_PIN LOW;
    EDigitalWrite STATUS_LED_PIN HIGH ].

(* ================================================================== *)
(** * Sample inputs *)
(* ================================================================== *)

(** A four-byte frame (JPEG start and end markers). *)
Definition sample_frame : camera_fb_t := mk_fb [xff; xd8; xff; xd9] 640 480.

(** A frame one byte over the limit. *)
Definition oversized_frame : camera_fb_t :=
  mk_fb (repeat x00 (N.to_nat 1000001)) 640 480.

Definition mug_document : JsonValue :=
  JObject [ ("success", JBool true);
            ("detection",
             JObject [ ("label", JString "Mug");
                       ("category", JString "Kitchenware");
                       ("minPrice", JInt 5);
                       ("maxPrice", JInt 15);
                       ("confidence", JInt 92) ]) ]%string.

Definition rejected_document : JsonValue :=
  JObject [ ("success", JBool false);
            ("error", JString "no object detected") ]%string.

Definition bare_success_document : JsonValue :=
  JObject [ ("success", JBool true) ]%string.

(** A stand-in for the JSON parser: four texts it knows, anything else is
    cut short. *)
Definition sample_parser (text : string) : DeserializationError * JsonValue :=
  if String.eqb text "mug" then (DeserOk, mug_document)
  else if String.eqb text "rejected" then (DeserOk, rejected_document)
  else if String.eqb text "bare" then (DeserOk, bare_success_document)
  else (IncompleteInput, JNull).

Definition sample_env : Env :=
  mk_env true (fun _ => ESP_OK) true sample_parser
    (fun _ => "connection refused"%string) (fun _ => x00) "192.168.1.50".

(** A board whose camera does not initialise. *)
Definition dead_camera_env : Env :=
  mk_env true (fun _ => 261) true sample_parser
    (fun _ => "connection refused"%string) (fun _ => x00) "192.168.1.50".

(** A world one second after boot: the camera gives [stale] and then
    [fresh], the heap has room, the server answers [reply], the Wi-Fi
    reports [status], the button reads [button] and [rx] waits on the serial
    line. *)
Definition sample_world (stale fresh : option camera_fb_t) (reply : HttpReply)
    (status : wl_status_t) (button : PinLevel) (rx : list ascii) : World :=
  mk_world [] (fun _ => LOW) 1000 0 rx
    (fun n => match n with O => stale | _ => fresh end)
    (fun _ => true) (fun _ => reply) (fun _ => status) (fun _ => button).

Definition ready_world (reply : HttpReply) : World :=
  sample_world (Some sample_frame) (Some sample_frame) reply WL_CONNECTED HIGH [].

Definition oversized_world : World :=
  sample_world (Some sample_frame) (Some oversized_frame) (mk_reply 200 "mug")
    WL_CONNECTED HIGH [].

(** The button is pressed and the Wi-Fi is up. *)
Definition pressed_world : World :=
  sample_world (Some sample_frame) (Some sample_frame) (mk_reply 200 "mug")
    WL_CONNECTED LOW [].

(** The server answers 500 with a text; the connection is refused. *)
Definition http_error_world : World := ready_world (mk_reply 500 "Internal Server Error").
Definition refused_world : World := ready_world (mk_reply (-1) EmptyString).

Definition start_world : World := ready_world (mk_reply 200 "mug").

(** What [loop] does once it knows whether it was triggered. *)
Definition handle_trigger (env : Env) (fuel : nat) (trigger : bool) : M unit :=
  if trigger then
    st <- WiFi_status ;;
    (if negb (is_connected st) then
       Serial_println "[WiFi] Reconnecting..." ;;
       connectWiFi env fuel
     else ret tt) ;;
    st <- WiFi_status ;;
    if is_connected st then captureAndSend env
    else
      Serial_println "[Error] No WiFi — cannot send image" ;;
      blinkError 3
  else ret tt.

Definition is_wifi_event (e : Event) : bool :=
  match e with
  | EWiFiMode | EWiFiBegin _ _ | EWiFiStatus _ => true
  | _ => false
  end.

(** Neither the camera's frames, nor the upload, nor the trigger inputs,
    nor the Wi-Fi are touched. *)
Definition pipeline_idle (e : Event) : bool :=
  negb (is_camera_event e || is_upload_event e || is_trigger_poll e
        || is_wifi_event e).

(* ================================================================== *)
(** * Further observations *)
(* ================================================================== *)

(** What [flashLED times durationMs] writes: [times] pulses, with a pause
    between two pulses and none after the last. *)
Fixpoint flash_output (times : nat) (durationMs : Z) : list Event :=
  match times with
  | O => []
  | S O =>
      [ EDigitalWrite FLASH_LED_PIN HIGH; EDelay durationMs;
        EDigitalWrite FLASH_LED_PIN LOW ]
  | S n =>
      [ EDigitalWrite FLASH_LED_PIN HIGH; EDelay durationMs;
        EDigitalWrite FLASH_LED_PIN LOW; EDelay durationMs ]
      ++ flash_output n durationMs
  end.

(** No input was read: only the log, the clock and the output pins of a run
    may differ. *)
Definition same_inputs (w w' : World) : Prop :=
  lastButtonPress w' = lastButtonPress w /\
  serial_rx w' = serial_rx w /\
  cam_in w' = cam_in w /\ heap_in w' = heap_in w /\
  http_in w' = http_in w /\ wifi_in w' = wifi_in w /\
  gpio_in w' = gpio_in w.


(** The lines [connectWiFi] writes when it gives up. *)
Definition timeout_report : list Event :=
  [ ESerialPrintln (nl +s+ "[WiFi] Connection timed out!");
    ESerialPrintln "[WiFi] Check SSID/password. ESP32 only supports 2.4GHz WiFi." ].

(** The lines [connectWiFi] writes when the Wi-Fi is up. *)
Definition connected_report (env : Env) : list Event :=
  [ ESerialPrintln EmptyString;
    ESerialPrint "[WiFi] Connected! IP: ";
    ESerialPrintln (localIP env) ].

(** The number of connectivity checks among some events. *)
Definition polls (tr : list Event) : nat :=
  List.length (filter is_connectivity_check tr).

(** The inputs other than the Wi-Fi are where they were. *)
Definition same_inputs_but_wifi (w w' : World) : Prop :=
  lastButtonPress w' = lastButtonPress w /\
  serial_rx w' = serial_rx w /\
  cam_in w' = cam_in w /\ heap_in w' = heap_in w /\
  http_in w' = http_in w /\ gpio_in w' = gpio_in w.

(** How the wait loop of [connectWiFi] ends after [n] polls of a Wi-Fi that
    answered as [wifi]: connected on the last poll, or not connected on any
    and timed out. *)
Definition wait_outcome (connected : bool) (n : nat) (k : Z) (tr : list Event)
    (w w' : World) : Prop :=
  if connected then
    clock w' = clock w + 500 * (Z.of_nat n - 1) /\
    (forall p, pins w' p = pins w p) /\
    exists before, tr = before ++ [EWiFiStatus WL_CONNECTED]
  else
    Z.of_nat n = Z.max 1 (32 - k) /\
    clock w' = clock w + 500 * (Z.of_nat n - 1) + 900 /\
    (forall p, p <> STATUS_LED_PIN -> pins w' p = pins w p) /\
    pins w' STATUS_LED_PIN = HIGH /\
    exists before, tr = before ++ timeout_report ++ blink_output 3.

(** What [connectWiFi] writes before it starts to wait. *)
Definition connect_preamble (now : Z) : list Event :=
  [ ESerialPrint "[WiFi] Connecting to "; ESerialPrintln WIFI_SSID;
    EWiFiMode; EWiFiBegin WIFI_SSID WIFI_PASSWORD; EMillis now ].

(** A Wi-Fi that is never up. *)
Definition offline_world : World :=
  sample_world (Some sample_frame) (Some sample_frame) (mk_reply 200 "mug")
    WL_DISCONNECTED LOW [].

(** A Wi-Fi that comes up on the fourth poll. *)
Definition waking_world : World :=
  mk_world [] (fun _ => LOW) 1000 0 []
    (fun _ => Some sample_frame) (fun _ => true) (fun _ => mk_reply 200 "mug")
    (fun n => if (n <? 3)%nat then WL_DISCONNECTED else WL_CONNECTED)
    (fun _ => HIGH).

(** The button reads pressed, more than [DEBOUNCE_MS] after the last
    accepted press (on the 32-bit clock). *)
Definition press_accepted (w : World) : bool :=
  level_eqb (gpio_in w 0%nat) LOW
  && (ulong_sub (clock w mod SIZE_MOD) (lastButtonPress w) >? DEBOUNCE_MS).

(** The first character waiting on the serial line is [c] or [C]. *)
Definition command_given (w : World) : bool :=
  is_capture_command (hd_error (serial_rx w)).

(** Reading the inputs and the clock, and waiting. *)
Definition is_idle_event (e : Event) : bool :=
  match e with
  | EDigitalRead _ _ | ESerialAvailable _ | ESerialRead _ | EMillis _
  | EDelay _ => true
  | _ => false
  end.

(** The button is pressed 200 ms after the last accepted press. *)
Definition bouncing_world : World :=
  mk_world [] (fun _ => LOW) 1000 800 []
    (fun _ => Some sample_frame) (fun _ => true) (fun _ => mk_reply 200 "mug")
    (fun _ => WL_CONNECTED) (fun _ => LOW).

(** The line [cat] waits on the serial port. *)
Definition typed_world : World :=
  sample_world (Some sample_frame) (Some sample_frame) (mk_reply 200 "mug")
    WL_CONNECTED HIGH ["c"; "a"; "t"]%char.

(** How often an event of the class [p] occurs. *)
Definition occurrences (p : Event -> bool) (tr : list Event) : nat :=
  List.length (filter p tr).

(** A block was obtained from [ps_malloc]. *)
Definition is_allocation (e : Event) : bool :=
  match e with
  | EPsMalloc _ true => true
  | _ => false
  end.

Definition is_free (e : Event) : bool :=
  match e with
  | EFree => true
  | _ => false
  end.

Definition is_http_begin (e : Event) : bool :=
  match e with
  | EHttpBegin _ => true
  | _ => false
  end.

Definition is_http_end (e : Event) : bool :=
  match e with
  | EHttpEnd => true
  | _ => false
  end.

Definition is_post (e : Event) : bool :=
  match e with
  | EHttpPost _ _ => true
  | _ => false
  end.

(** The line [sendToServer] starts with, and its request for memory. *)
Definition allocation_output (imageLen : Z) (allocated : bool) : list Event :=
  let totalLen := size_t_wrap (strlen bodyStart + imageLen + strlen bodyEnd) in
  [ ESerialPrintf ("[HTTP] Body: %u bytes (image: %u)" +s+ nl)
      [ANum totalLen; ANum imageLen];
    EPsMalloc totalLen allocated ].

(** The heap has no room. *)
Definition exhausted_world : World :=
  mk_world [] (fun _ => LOW) 1000 0 []
    (fun _ => Some sample_frame) (fun _ => false) (fun _ => mk_reply 200 "mug")
    (fun _ => WL_CONNECTED) (fun _ => HIGH).

(** The sensor gives a stale frame and then nothing. *)
Definition blind_world : World :=
  sample_world (Some sample_frame) None (mk_reply 200 "mug") WL_CONNECTED HIGH [].

(** The server answers 200 with a document that says it failed. *)
Definition rejecting_world : World := ready_world (mk_reply 200 "rejected").

(** A setting of the sensor is written. *)
Definition is_sensor_set (e : Event) : bool :=
  match e with
  | ESensorSet _ _ => true
  | _ => false
  end.

Definition is_camera_init (e : Event) : bool :=
  match e with
  | ECameraInit _ _ => true
  | _ => false
  end.

(** Neither the camera's frames, nor the upload, nor the trigger inputs are
    touched. *)
Definition outside_pipeline (e : Event) : bool :=
  negb (is_camera_event e || is_upload_event e || is_trigger_poll e).

(** What [loop] does before it knows whether it was triggered: it reads the
    button, the clock and the serial line, and says what triggered it. *)
Definition is_trigger_phase_event (e : Event) : bool :=
  match e with
  | EDigitalRead _ _ | ESerialAvailable _ | ESerialRead _ | EMillis _
  | ESerialPrintln _ => true
  | _ => false
  end.

(** The world [loop] is in once it has polled its triggers in [w]. *)
Definition polled (w w1 : World) : Prop :=
  w1 = mk_world (log w1) (pins w) (clock w)
         (if press_accepted w then clock w mod SIZE_MOD else lastButtonPress w)
         [] (cam_in w) (heap_in w) (http_in w) (wifi_in w) (shift (gpio_in w)).

(** The button is pressed and the Wi-Fi is down for good. *)
Definition pressed_offline_world : World :=
  sample_world (Some sample_frame) (Some sample_frame) (mk_reply 200 "mug")
    WL_DISCONNECTED LOW [].

(** The characters that calls of [Serial.read] returned, in order. *)
Fixpoint serial_reads (tr : list Event) : list ascii :=
  match tr with
  | [] => []
  | ESerialRead (Some c) :: rest => c :: serial_reads rest
  | _ :: rest => serial_reads rest
  end.

(** A connection to the access point is started. *)
Definition is_wifi_begin (e : Event) : bool :=
  match e with
  | EWiFiBegin _ _ => true
  | _ => false
  end.

(** What the wait loop of [connectWiFi] does: it asks for the status, reads
    the clock, waits, prints, and blinks the status LED. *)
Definition is_wifi_wait_event (e : Event) : bool :=
  match e with
  | ESerialPrint _ | ESerialPrintln _ | EWiFiStatus _ | EMillis _ | EDelay _ =>
      true
  | EDigitalWrite pin _ => pin =? STATUS_LED_PIN
  | _ => false
  end.

(* ================================================================== *)
(** * Reasoning about runs *)
(* ================================================================== *)

Lemma returns_ex {A} (r : Res A) (Q : A -> World -> Prop) :
  returns r Q <-> exists a w', r = Done a w' /\ Q a w'.
Proof.
  split.
  - destruct r; simpl; try tauto. intros H. eauto.
  - intros (a & w' & -> & H). exact H.
Qed.

Lemma returns_seq {A B} (r : Res A) (k : A -> World -> Res B)
    (Q : B -> World -> Prop) :
  returns r (fun a w' => returns (k a w') Q) ->
  returns (match r with
           | Done a w' => k a w'
           | Diverge w' => Diverge w'
           | Crash w' => Crash w'
           end) Q.
Proof. destruct r; simpl; tauto. Qed.

Lemma returns_weaken {A} (r : Res A) (P Q : A -> World -> Prop) :
  returns r P -> (forall a w', P a w' -> Q a w') -> returns r Q.
Proof. destruct r; simpl; auto. Qed.

Lemma trace_log_more tr w : trace (log_more tr w) = trace w ++ rev tr.
Proof. unfold trace, log_more; simpl. apply rev_app_distr. Qed.

(** Run the program of a goal [returns (m w) Q] as far as it goes; the
    procedures that have a lemma of their own stay folded. *)
Ltac exec :=
  match goal with
  | |- returns ?lhs _ =>
      let r := eval lazy -[rev app len buf width height String.append
                           Z.of_nat List.length Z.gtb Z.eqb Z.modulo Z.add
                           ulong_sub SIZE_MOD WIFI_TIMEOUT_MS DEBOUNCE_MS
                           upload_output upload_result parse_output encode
                           sendToServer captureAndSend connectWiFi_wait
                           connectWiFi while_do initCamera]
               in lhs in
      change lhs with r
  end.

(** Two lists of events are the same up to the bracketing of appends. *)
Ltac same_trace :=
  unfold trace;
  cbn [log rev app discard_output blink_output blink_cycle success_flashes
       halt_signal boot_output];
  rewrite ?rev_app_distr, ?rev_involutive;
  cbn [rev app]; rewrite <- ?app_assoc; cbn [app]; reflexivity.

(** ** Assembling the body *)

Lemma length_list_byte_of_string (s : string) :
  List.length (list_byte_of_string s) = String.length s.
Proof.
  unfold list_byte_of_string. rewrite length_map.
  induction s as [|c s IH]; simpl; [reflexivity | now rewrite IH].
Qed.

Lemma bytes_strlen (s : string) :
  Z.of_nat (List.length (list_byte_of_string s)) = strlen s.
Proof. unfold strlen. now rewrite length_list_byte_of_string. Qed.

Lemma strlen_bodyStart : strlen bodyStart = 126.
Proof. reflexivity. Qed.

Lemma strlen_bodyEnd : strlen bodyEnd = 32.
Proof. reflexivity. Qed.

Lemma length_encode (imageData : list byte) :
  Z.of_nat (List.length (encode imageData))
  = strlen bodyStart + Z.of_nat (List.length imageData) + strlen bodyEnd.
Proof.
  unfold encode. rewrite !length_app, !Nat2Z.inj_add, !bytes_strlen. lia.
Qed.

Lemma fits_size_t (n : Z) :
  0 <= n <= 1000000 -> strlen bodyStart + n + strlen bodyEnd < SIZE_MOD.
Proof. rewrite strlen_bodyStart, strlen_bodyEnd. unfold SIZE_MOD. lia. Qed.

Lemma overwrite_head {A} (h blk : list A) :
  firstn 0 blk ++ firstn (List.length h) h ++ skipn (List.length h) blk
  = h ++ skipn (List.length h) blk.
Proof. simpl. now rewrite firstn_all. Qed.

Lemma overwrite_at {A} (pre src blk : list A) :
  firstn (List.length pre) (pre ++ blk)
    ++ firstn (List.length src) src
    ++ skipn (List.length pre + List.length src) (pre ++ blk)
  = (pre ++ src) ++ skipn (List.length src) blk.
Proof.
  rewrite firstn_app, firstn_all, Nat.sub_diag, firstn_O, app_nil_r.
  rewrite firstn_all.
  rewrite skipn_app.
  rewrite (skipn_all2 pre) by lia.
  replace (List.length pre + List.length src - List.length pre)%nat
    with (List.length src) by lia.
  simpl. now rewrite app_assoc.
Qed.

Lemma memcpy_ok (dst : list byte) (off : Z) (src : list byte) (n : Z) (w : World) :
  0 <= off -> 0 <= n ->
  off + n <= Z.of_nat (List.length dst) -> n <= Z.of_nat (List.length src) ->
  memcpy dst off src n w
  = Done (firstn (Z.to_nat off) dst ++ firstn (Z.to_nat n) src
            ++ skipn (Z.to_nat (off + n)) dst) w.
Proof.
  intros Hoff Hn Hd Hs. unfold memcpy.
  destruct (off + n <=? _) eqn:E1; [|apply Z.leb_gt in E1; lia].
  destruct (n <=? _) eqn:E2; [|apply Z.leb_gt in E2; lia].
  reflexivity.
Qed.

(** The three copies of [sendToServer] fill a block of the right size with
    header, image and footer, whatever the block held. *)
Lemma assemble {B} (blk h img f : list byte) (k : list byte -> M B) (w : World) :
  Z.of_nat (List.length blk)
  = Z.of_nat (List.length h) + Z.of_nat (List.length img) + Z.of_nat (List.length f) ->
  Z.of_nat (List.length blk) < SIZE_MOD ->
  (body <- memcpy blk 0 h (Z.of_nat (List.length h)) ;;
   body <- memcpy body (size_t_wrap (0 + Z.of_nat (List.length h))) img
             (Z.of_nat (List.length img)) ;;
   body <- memcpy body
             (size_t_wrap (size_t_wrap (0 + Z.of_nat (List.length h))
                           + Z.of_nat (List.length img)))
             f (Z.of_nat (List.length f)) ;;
   k body) w
  = k (h ++ img ++ f) w.
Proof.
  intros Hlen Hfit.
  assert (W1 : size_t_wrap (0 + Z.of_nat (List.length h)) = Z.of_nat (List.length h)).
  { unfold size_t_wrap. rewrite Z.mod_small; lia. }
  rewrite W1.
  assert (W2 : size_t_wrap (Z.of_nat (List.length h) + Z.of_nat (List.length img))
               = Z.of_nat (List.length h + List.length img)).
  { unfold size_t_wrap. rewrite Z.mod_small; lia. }
  rewrite W2.
  unfold bind at 1. rewrite memcpy_ok by lia.
  rewrite Z.add_0_l, Nat2Z.id. change (Z.to_nat 0) with 0%nat.
  rewrite (overwrite_head h blk).
  unfold bind at 1. rewrite memcpy_ok; rewrite ?length_app, ?length_skipn; try lia.
  rewrite <- Nat2Z.inj_add, !Nat2Z.id.
  rewrite (overwrite_at h img).
  unfold bind at 1. rewrite memcpy_ok; rewrite ?length_app, ?length_skipn; try lia.
  rewrite <- Nat2Z.inj_add, !Nat2Z.id.
  rewrite <- (length_app h img).
  rewrite (overwrite_at (h ++ img) f).
  rewrite skipn_all2 by (rewrite !length_skipn; lia).
  now rewrite app_nil_r, <- app_assoc.
Qed.

(** ** [parseResponse] *)

Lemma parseResponse_run (env : Env) (response : string) (w : World) :
  parseResponse env response w
  = Done tt (log_more (rev (parse_output env response)) w).
Proof.
  unfold parseResponse, parse_output.
  destruct (deserializeJson env response) as [err parsed].
  destruct (is_error err); [reflexivity|].
  destruct (negb _); reflexivity.
Qed.

Lemma parse_output_serial (env : Env) (response : string) :
  forallb is_serial_out (parse_output env response) = true.
Proof.
  unfold parse_output.
  destruct (deserializeJson env response) as [err parsed].
  destruct (is_error err); [reflexivity|].
  destruct (negb _); reflexivity.
Qed.

Lemma member_as_JsonObject (v : option JsonValue) (key : string) :
  member (as_JsonObject v) key = member v key.
Proof. destruct v as [[]|]; reflexivity. Qed.

Lemma or_int_in_range (v : option JsonValue) (z : Z) :
  v = Some (JInt z) -> INT_MIN <= z <= INT_MAX -> or_int v 0 = z.
Proof.
  intros -> Hz. unfold or_int.
  destruct (INT_MIN <=? z) eqn:E1; [|apply Z.leb_gt in E1; lia].
  destruct (z <=? INT_MAX) eqn:E2; [|apply Z.leb_gt in E2; lia].
  reflexivity.
Qed.

(** ** [sendToServer] *)

Lemma sendToServer_run (env : Env) (imageData : list byte) (w : World) :
  strlen bodyStart + Z.of_nat (List.length imageData) + strlen bodyEnd < SIZE_MOD ->
  sendToServer env imageData (Z.of_nat (List.length imageData)) w
  = Done (upload_result (heap_in w 0%nat) (http_in w 0%nat))
         (after_upload
            (upload_output env imageData (heap_in w 0%nat) (http_in w 0%nat)) w).
Proof.
  intros Hfit.
  pose proof (Nat2Z.is_nonneg (List.length imageData)) as Hn.
  assert (Hs : 0 <= strlen bodyStart) by (unfold strlen; lia).
  assert (He : 0 <= strlen bodyEnd) by (unfold strlen; lia).
  unfold sendToServer, upload_output, post_output, reply_output, upload_result,
    after_upload.
  fold server_url.
  assert (Hw : size_t_wrap (strlen bodyStart + Z.of_nat (List.length imageData)
                            + strlen bodyEnd)
               = strlen bodyStart + Z.of_nat (List.length imageData) + strlen bodyEnd)
    by (unfold size_t_wrap; apply Z.mod_small; lia).
  rewrite !Hw. clear Hw.
  set (totalLen := strlen bodyStart + Z.of_nat (List.length imageData) + strlen bodyEnd).
  unfold bind at 1. unfold Serial_printf at 1. unfold emit at 1.
  unfold bind at 1. unfold ps_malloc, bind at 1. unfold next_heap at 1.
  cbn [heap_in log pins clock lastButtonPress serial_rx cam_in http_in wifi_in gpio_in].
  unfold bind at 1, emit at 1, ret at 1.
  cbn [heap_in log pins clock lastButtonPress serial_rx cam_in http_in wifi_in gpio_in].
  destruct (heap_in w 0%nat); [|reflexivity].
  rewrite <- !bytes_strlen.
  rewrite assemble.
  - fold (encode imageData).
    unfold http_POST.
    cbn [bind http_begin http_setTimeout http_addHeader Serial_printf emit next_http
         heap_in log pins clock lastButtonPress serial_rx cam_in http_in wifi_in gpio_in
         ret free reply_code].
    rewrite firstn_all2
      by (apply Nat2Z.inj_le; rewrite Z2Nat.id, length_encode; subst totalLen; lia).
    destruct (reply_code (http_in w 0%nat) =? 200).
    + cbn [bind http_getString http_end emit ret
           heap_in log pins clock lastButtonPress serial_rx cam_in http_in wifi_in gpio_in].
      unfold bind at 1. rewrite parseResponse_run. unfold log_more, ret.
      cbn [heap_in log pins clock lastButtonPress serial_rx cam_in http_in wifi_in gpio_in].
      f_equal. f_equal.
      cbn [rev app]. rewrite <- !app_assoc. reflexivity.
    + destruct (reply_code (http_in w 0%nat) >? 0); reflexivity.
  - rewrite length_map, length_seq, Z2Nat.id, !bytes_strlen; subst totalLen; lia.
  - rewrite length_map, length_seq, Z2Nat.id; subst totalLen; lia.
Qed.

(** ** [captureAndSend] *)

Lemma captureAndSend_run (env : Env) (w : World) :
  returns (captureAndSend env w)
    (fun _ w' =>
       trace w' = trace w ++ capture_output env w /\
       pins w' FLASH_LED_PIN = LOW /\
       serial_rx w' = serial_rx w /\
       lastButtonPress w' = lastButtonPress w).
Proof.
  destruct w as [lg pn ck lb rx cam heap http wifi gpio].
  unfold captureAndSend, capture_output, process_output.
  cbn [log pins cam_in heap_in http_in serial_rx lastButtonPress].
  destruct (cam 0%nat) as [stale|] eqn:E0;
    (destruct (cam 1%nat) as [fb|] eqn:E1;
     [destruct (len fb >? 1000000) eqn:Hbig|]);
    exec; rewrite ?E0; exec; rewrite ?E1; exec; rewrite ?Hbig; exec;
    try (split; [same_trace | repeat split; reflexivity]).
  all: unfold len at 1;
    rewrite sendToServer_run
      by (apply fits_size_t; rewrite Z.gtb_ltb in Hbig; apply Z.ltb_ge in Hbig;
          unfold len in Hbig; lia);
    unfold after_upload; cbn [log pins cam_in heap_in http_in];
    destruct (upload_result (heap 0%nat) (http 0%nat)); exec;
    (split; [same_trace | repeat split; reflexivity]).
Qed.

(** ** Classes of the events the procedures write *)

Lemma forallb_impl {A} (p q : A -> bool) (l : list A) :
  (forall a, p a = true -> q a = true) -> forallb p l = true -> forallb q l = true.
Proof.
  intros Hpq. induction l as [|a l IH]; simpl; [reflexivity|].
  intros H. apply andb_true_iff in H as [Ha Hl].
  now rewrite (Hpq a Ha), (IH Hl).
Qed.

Lemma filter_none {A} (p q : A -> bool) (l : list A) :
  (forall a, q a = true -> p a = false) -> forallb q l = true -> filter p l = [].
Proof.
  intros Hqp. induction l as [|a l IH]; simpl; [reflexivity|].
  intros H. apply andb_true_iff in H as [Ha Hl].
  now rewrite (Hqp a Ha), (IH Hl).
Qed.

Lemma upload_output_class (env : Env) (imageData : list byte) (allocated : bool)
    (reply : HttpReply) :
  forallb (fun e => is_serial_out e || is_upload_event e)
    (upload_output env imageData allocated reply) = true.
Proof.
  unfold upload_output, post_output, reply_output.
  destruct allocated; [|reflexivity].
  cbn [forallb app is_serial_out is_upload_event orb andb].
  destruct (reply_code reply =? 200).
  - cbn [forallb app is_serial_out is_upload_event orb andb].
    apply (forallb_impl is_serial_out); [|apply parse_output_serial].
    intros e ->. reflexivity.
  - destruct (reply_code reply >? 0); reflexivity.
Qed.

Lemma upload_output_no_camera (env : Env) (imageData : list byte)
    (allocated : bool) (reply : HttpReply) :
  forallb (fun e => negb (is_camera_event e))
    (upload_output env imageData allocated reply) = true.
Proof.
  apply (forallb_impl (fun e => is_serial_out e || is_upload_event e));
    [|apply upload_output_class].
  intros [] H; try reflexivity; discriminate H.
Qed.

Lemma upload_output_no_check (env : Env) (imageData : list byte)
    (allocated : bool) (reply : HttpReply) :
  forallb (fun e => negb (is_connectivity_check e))
    (upload_output env imageData allocated reply) = true.
Proof.
  apply (forallb_impl (fun e => is_serial_out e || is_upload_event e));
    [|apply upload_output_class].
  intros [] H; try reflexivity; discriminate H.
Qed.

Lemma acquisitions_app (a b : list Event) :
  acquisitions (a ++ b) = (acquisitions a + acquisitions b)%nat.
Proof. unfold acquisitions. now rewrite filter_app, length_app. Qed.

Lemma releases_app (a b : list Event) :
  releases (a ++ b) = (releases a + releases b)%nat.
Proof. unfold releases. now rewrite filter_app, length_app. Qed.

Lemma acquisitions_cons (e : Event) (l : list Event) :
  acquisitions (e :: l)
  = ((if is_acquisition e then 1 else 0) + acquisitions l)%nat.
Proof. unfold acquisitions. simpl. now destruct (is_acquisition e). Qed.

Lemma releases_cons (e : Event) (l : list Event) :
  releases (e :: l) = ((if is_release e then 1 else 0) + releases l)%nat.
Proof. unfold releases. simpl. now destruct (is_release e). Qed.

Lemma no_camera_counts (tr : list Event) :
  forallb (fun e => negb (is_camera_event e)) tr = true ->
  acquisitions tr = 0%nat /\ releases tr = 0%nat.
Proof.
  intros H. unfold acquisitions, releases.
  rewrite (filter_none is_acquisition (fun e => negb (is_camera_event e)) tr) by
    (try exact H; intros [] Ha; solve [reflexivity | discriminate Ha]).
  rewrite (filter_none is_release (fun e => negb (is_camera_event e)) tr) by
    (try exact H; intros [] Ha; solve [reflexivity | discriminate Ha]).
  split; reflexivity.
Qed.

Lemma capture_output_balanced (env : Env) (w : World) :
  acquisitions (capture_output env w) = releases (capture_output env w).
Proof.
  unfold capture_output, process_output.
  destruct (no_camera_counts _
              (upload_output_no_camera env
                 match cam_in w 1%nat with Some fb => buf fb | None => [] end
                 (heap_in w 0%nat) (http_in w 0%nat))) as [Ha Hr].
  destruct (cam_in w 0%nat) as [stale|];
    (destruct (cam_in w 1%nat) as [fb|];
     [destruct (len fb >? 1000000);
      [| destruct (upload_result (heap_in w 0%nat) (http_in w 0%nat))] |]);
    cbn [app discard_output];
    rewrite ?acquisitions_cons, ?releases_cons, ?acquisitions_app, ?releases_app,
      ?acquisitions_cons, ?releases_cons, ?Ha, ?Hr;
    reflexivity.
Qed.

(* ================================================================== *)
(** * The capture pipeline *)
(* ================================================================== *)

(** C1. Every run of [captureAndSend] returns, and among the events of the
    run as many frames are obtained from [esp_camera_fb_get] as are handed
    back with [esp_camera_fb_return]: whether the sensor fails, the frame is
    too large, the allocation in [sendToServer] fails, the transport fails
    or the upload succeeds. *)
Theorem captureAndSend_releases_every_frame (env : Env) (w : World) :
  exists w' tr,
    captureAndSend env w = Done tt w' /\
    trace w' = trace w ++ tr /\
    acquisitions tr = releases tr.
Proof.
  pose proof (captureAndSend_run env w) as H.
  apply returns_ex in H as ([] & w' & Hrun & Htr & _).
  exists w', (capture_output env w).
  repeat split; [exact Hrun | exact Htr | apply capture_output_balanced].
Qed.

Lemma blink_output_no_upload (n : nat) :
  forallb (fun e => negb (is_upload_event e)) (blink_output n) = true.
Proof. induction n as [|n IH]; [reflexivity | exact IH]. Qed.

(** C2. When the frame of the second acquisition is longer than 1,000,000
    bytes, the run writes no event of the upload (no allocation, no HTTP
    call), and ends by logging the size limit, releasing the frame and
    blinking the status LED four times. *)
Theorem oversized_frame_is_not_uploaded (env : Env) (w : World) (fb : camera_fb_t) :
  cam_in w 1%nat = Some fb ->
  1000000 < len fb ->
  exists w' tr,
    captureAndSend env w = Done tt w' /\
    trace w' = trace w ++ tr /\
    forallb (fun e => negb (is_upload_event e)) tr = true /\
    exists before,
      tr = before
           ++ [ ESerialPrintln "[Camera] Image exceeds 1MB server limit!";
                EFbReturn fb ]
           ++ blink_output 4.
Proof.
  intros Hfresh Hlen.
  pose proof (captureAndSend_run env w) as H.
  apply returns_ex in H as ([] & w' & Hrun & Htr & _).
  exists w', (capture_output env w).
  split; [exact Hrun|]. split; [exact Htr|].
  unfold capture_output, process_output. rewrite Hfresh.
  replace (len fb >? 1000000) with true
    by (symmetry; rewrite Z.gtb_ltb; apply Z.ltb_lt; exact Hlen).
  split.
  - destruct (cam_in w 0%nat); reflexivity.
  - exists ([ ESerialPrintln (nl +s+ "---------- CAPTURE ----------");
               EDigitalWrite FLASH_LED_PIN HIGH;
               EDelay FLASH_WARMUP_MS;
               EFbGet (cam_in w 0%nat) ]
             ++ discard_output (cam_in w 0%nat)
             ++ [ EFbGet (Some fb); EDigitalWrite FLASH_LED_PIN LOW;
                  ESerialPrintf ("[Camera] %u bytes (%ux%u)" +s+ nl)
                    [ANum (len fb); ANum (width fb); ANum (height fb)] ]).
    rewrite <- !app_assoc. reflexivity.
Qed.

Lemma in_parse_output_serial (env : Env) (response : string) (e : Event) :
  In e (parse_output env response) -> is_serial_out e = true.
Proof.
  intros H. pose proof (parse_output_serial env response) as Hall.
  rewrite forallb_forall in Hall. now apply Hall.
Qed.

Lemma upload_output_posts (env : Env) (imageData : list byte) (allocated : bool)
    (reply : HttpReply) (body : list byte) (code : Z) :
  In (EHttpPost body code) (upload_output env imageData allocated reply) ->
  body = encode imageData /\ code = reply_code reply.
Proof.
  unfold upload_output, post_output, reply_output.
  destruct allocated; cbn [In app].
  - intros [H|[H|[H|[H|[H|[H|[H|[H|H]]]]]]]]; try discriminate H.
    + injection H as <- <-. split; reflexivity.
    + destruct (reply_code reply =? 200).
      * cbn [In app] in H. destruct H as [H|[H|H]]; try discriminate H.
        apply in_parse_output_serial in H. discriminate H.
      * destruct (reply_code reply >? 0); cbn [In] in H;
          repeat (destruct H as [H|H]; try discriminate H); destruct H.
  - intros [H|[H|[H|H]]]; try discriminate H. destruct H.
Qed.

Lemma in_blink_output (n : nat) (e : Event) :
  In e (blink_output n) -> In e blink_cycle.
Proof.
  induction n as [|n IH]; cbn [blink_output]; [intros []|].
  intros H. apply in_app_or in H as [H|H]; [exact H | exact (IH H)].
Qed.

Lemma process_output_posts (env : Env) (w : World) (fresh : option camera_fb_t)
    (body : list byte) (code : Z) :
  In (EHttpPost body code) (process_output env w fresh) ->
  exists fb, fresh = Some fb /\ body = encode (buf fb).
Proof.
  unfold process_output. destruct fresh as [fb|].
  - intros [H|H]; [discriminate H|]. exists fb. split; [reflexivity|].
    destruct (len fb >? 1000000).
    + cbn [In app] in H. destruct H as [H|[H|H]]; try discriminate H.
      apply in_blink_output in H. cbn [In blink_cycle] in H.
      repeat (destruct H as [H|H]; try discriminate H). destruct H.
    + apply in_app_or in H as [H|H]; [now apply upload_output_posts in H|].
      cbn [In app] in H. destruct H as [H|H]; [discriminate H|].
      destruct (upload_result _ _).
      * cbn [In success_flashes] in H.
        repeat (destruct H as [H|H]; try discriminate H). destruct H.
      * apply in_blink_output in H. cbn [In blink_cycle] in H.
        repeat (destruct H as [H|H]; try discriminate H). destruct H.
  - intros [H|H]; [discriminate H|].
    apply in_blink_output in H. cbn [In blink_cycle] in H.
    repeat (destruct H as [H|H]; try discriminate H). destruct H.
Qed.

(** C3. Every run of [captureAndSend] starts, after its banner line, with:
    flash on; the warm-up delay; a first acquisition, whose frame (if the
    sensor gave one) is released at once; a second acquisition; flash off.
    Everything else comes after that, and whatever is posted is the frame of
    the second acquisition. *)
Theorem capture_sequence (env : Env) (w : World) :
  exists w' rest,
    captureAndSend env w = Done tt w' /\
    trace w' = trace w
               ++ [ ESerialPrintln (nl +s+ "---------- CAPTURE ----------");
                    EDigitalWrite FLASH_LED_PIN HIGH;
                    EDelay FLASH_WARMUP_MS;
                    EFbGet (cam_in w 0%nat) ]
               ++ match cam_in w 0%nat with
                  | Some stale => [EFbReturn stale]
                  | None => []
                  end
               ++ [ EFbGet (cam_in w 1%nat); EDigitalWrite FLASH_LED_PIN LOW ]
               ++ rest /\
    forall body code,
      In (EHttpPost body code) rest ->
      exists fb, cam_in w 1%nat = Some fb /\ body = encode (buf fb).
Proof.
  pose proof (captureAndSend_run env w) as H.
  apply returns_ex in H as ([] & w' & Hrun & Htr & _).
  exists w', (process_output env w (cam_in w 1%nat)).
  split; [exact Hrun|]. split; [exact Htr|].
  intros body code. apply process_output_posts.
Qed.

(** C10. The flash LED is off whenever [captureAndSend] returns, and it
    always returns. *)
Theorem flash_is_off_after_capture (env : Env) (w : World) :
  exists w', captureAndSend env w = Done tt w' /\ pins w' FLASH_LED_PIN = LOW.
Proof.
  pose proof (captureAndSend_run env w) as H.
  apply returns_ex in H as ([] & w' & Hrun & _ & Hpin & _).
  exists w'. split; assumption.
Qed.

Lemma oversized_frame_is_not_uploaded_witness :
  cam_in oversized_world 1%nat = Some oversized_frame /\
  1000000 < len oversized_frame /\
  exists w' tr,
    captureAndSend sample_env oversized_world = Done tt w' /\
    trace w' = trace oversized_world ++ tr /\
    forallb (fun e => negb (is_upload_event e)) tr = true /\
    exists before,
      tr = before
           ++ [ ESerialPrintln "[Camera] Image exceeds 1MB server limit!";
                EFbReturn oversized_frame ]
           ++ blink_output 4.
Proof.
  split; [reflexivity|]. split; [vm_compute; reflexivity|].
  apply (oversized_frame_is_not_uploaded sample_env oversized_world oversized_frame);
    [reflexivity | vm_compute; reflexivity].
Defined.

(* ================================================================== *)
(** * Encoding and upload *)
(* ================================================================== *)

(** C4. The body [sendToServer] allocates and posts is the header, the
    image bytes as they are, and the closing boundary, and nothing else: its
    length is the sum of the three lengths, for an image of any length the
    32-bit size arithmetic can hold; the block is allocated with exactly
    that size. *)
Theorem multipart_body_is_header_image_footer
    (env : Env) (imageData : list byte) (w : World) :
  strlen bodyStart + Z.of_nat (List.length imageData) + strlen bodyEnd < SIZE_MOD ->
  heap_in w 0%nat = true ->
  let body := list_byte_of_string bodyStart ++ imageData
              ++ list_byte_of_string bodyEnd in
  let totalLen := strlen bodyStart + Z.of_nat (List.length imageData)
                  + strlen bodyEnd in
  exists ok w' before rest,
    sendToServer env imageData (Z.of_nat (List.length imageData)) w = Done ok w' /\
    trace w' = trace w ++ before
               ++ EHttpPost body (reply_code (http_in w 0%nat)) :: rest /\
    In (EPsMalloc totalLen true) before /\
    Z.of_nat (List.length body) = totalLen /\
    (forall other code, In (EHttpPost other code) (before ++ rest) -> False).
Proof.
  intros Hfit Halloc body totalLen.
  exists (upload_result (heap_in w 0%nat) (http_in w 0%nat)).
  eexists.
  exists [ ESerialPrintf ("[HTTP] Body: %u bytes (image: %u)" +s+ nl)
             [ANum totalLen; ANum (Z.of_nat (List.length imageData))];
           EPsMalloc totalLen true;
           EHttpBegin server_url;
           EHttpSetTimeout HTTP_TIMEOUT_MS;
           EHttpAddHeader "Content-Type"
             ("multipart/form-data; boundary=" +s+ boundary);
           ESerialPrintf ("[HTTP] POST %s" +s+ nl) [AStr server_url] ].
  exists (EFree :: reply_output env (http_in w 0%nat)).
  split; [apply (sendToServer_run env imageData w Hfit)|].
  split; [|split; [|split]].
  - unfold after_upload, trace. cbn [log]. rewrite rev_app_distr, rev_involutive.
    unfold upload_output, post_output. rewrite Halloc. reflexivity.
  - cbn [In]. auto.
  - apply length_encode.
  - intros other code H. cbn [In app] in H.
    repeat (destruct H as [H|H]; try discriminate H).
    unfold reply_output in H.
    destruct (reply_code (http_in w 0%nat) =? 200).
    + cbn [In app] in H. destruct H as [H|[H|H]]; try discriminate H.
      apply in_parse_output_serial in H. discriminate H.
    + destruct (reply_code (http_in w 0%nat) >? 0); cbn [In] in H;
        repeat (destruct H as [H|H]; try discriminate H); destruct H.
Qed.

Lemma multipart_body_is_header_image_footer_witness :
  exists ok w' before rest,
    sendToServer sample_env (buf sample_frame) 4 start_world = Done ok w' /\
    trace w' = trace start_world ++ before
               ++ EHttpPost (list_byte_of_string bodyStart ++ [xff; xd8; xff; xd9]
                             ++ list_byte_of_string bodyEnd) 200 :: rest /\
    In (EPsMalloc 162 true) before /\
    Z.of_nat (List.length (list_byte_of_string bodyStart ++ [xff; xd8; xff; xd9]
                           ++ list_byte_of_string bodyEnd)) = 162 /\
    (forall other code, In (EHttpPost other code) (before ++ rest) -> False).
Proof.
  apply (multipart_body_is_header_image_footer sample_env (buf sample_frame)
           start_world); [vm_compute; reflexivity | reflexivity].
Defined.

(** C6, as the code has it.  When the request completes with a status other
    than 200, [sendToServer] reads the body and writes status and body on
    the serial log, in a line of its own kind; when the request fails, it
    writes the client's error text instead.  In both cases the caller gets
    [false] and nothing else. *)
Theorem http_error_status_is_logged
    (env : Env) (imageData : list byte) (w : World) :
  strlen bodyStart + Z.of_nat (List.length imageData) + strlen bodyEnd < SIZE_MOD ->
  heap_in w 0%nat = true ->
  reply_code (http_in w 0%nat) <> 200 ->
  let code := reply_code (http_in w 0%nat) in
  let payload := reply_payload (http_in w 0%nat) in
  exists w' before,
    sendToServer env imageData (Z.of_nat (List.length imageData)) w = Done false w' /\
    trace w' = trace w ++ before
               ++ EHttpPost (encode imageData) code :: EFree
               :: (if code >? 0 then
                     [ EHttpGetString payload;
                       ESerialPrintf ("[HTTP] Server returned %d: %s" +s+ nl)
                         [ANum code; AStr payload];
                       EHttpEnd ]
                   else
                     [ ESerialPrintf ("[HTTP] Request failed: %s" +s+ nl)
                         [AStr (errorToString env code)];
                       EHttpEnd ]).
Proof.
  intros Hfit Halloc Hcode code payload.
  eexists.
  exists [ ESerialPrintf ("[HTTP] Body: %u bytes (image: %u)" +s+ nl)
             [ANum (strlen bodyStart + Z.of_nat (List.length imageData)
                    + strlen bodyEnd);
              ANum (Z.of_nat (List.length imageData))];
           EPsMalloc (strlen bodyStart + Z.of_nat (List.length imageData)
                      + strlen bodyEnd) true;
           EHttpBegin server_url;
           EHttpSetTimeout HTTP_TIMEOUT_MS;
           EHttpAddHeader "Content-Type"
             ("multipart/form-data; boundary=" +s+ boundary);
           ESerialPrintf ("[HTTP] POST %s" +s+ nl) [AStr server_url] ].
  rewrite (sendToServer_run env imageData w Hfit).
  assert (Hne : (reply_code (http_in w 0%nat) =? 200) = false)
    by (apply Z.eqb_neq; exact Hcode).
  split.
  - unfold upload_result. rewrite Halloc, Hne. reflexivity.
  - unfold after_upload, trace. cbn [log]. rewrite rev_app_distr, rev_involutive.
    unfold upload_output, post_output, reply_output. rewrite ?Halloc, Hne.
    subst code payload.
    destruct (reply_code (http_in w 0%nat) >? 0); reflexivity.
Qed.

Lemma http_error_status_is_logged_witness :
  exists w' before,
    sendToServer sample_env (buf sample_frame) 4 http_error_world = Done false w' /\
    trace w' = trace http_error_world ++ before
               ++ [ EHttpPost (encode (buf sample_frame)) 500; EFree;
                    EHttpGetString "Internal Server Error";
                    ESerialPrintf ("[HTTP] Server returned %d: %s" +s+ nl)
                      [ANum 500; AStr "Internal Server Error"];
                    EHttpEnd ].
Proof.
  apply (http_error_status_is_logged sample_env (buf sample_frame) http_error_world);
    [vm_compute; reflexivity | reflexivity | discriminate].
Defined.

(** C6, as the claim has it, fails: a 500 answer and a refused connection
    come back to the caller as the same value. *)
Lemma http_error_returns_like_transport_failure :
  returned (sendToServer sample_env (buf sample_frame) 4 http_error_world)
  = returned (sendToServer sample_env (buf sample_frame) 4 refused_world).
Proof. vm_compute. reflexivity. Qed.

(* ================================================================== *)
(** * Interpreting the response *)
(* ================================================================== *)

(** C5. [parseResponse] always returns.  When the text does not parse, it
    logs the parser's error and the raw text.  When it parses and the
    top-level [success] is [false] or missing, it logs the server's [error]
    text, or [Unknown] when there is none.  When [success] is [true], it
    logs a detection whose label, category, minimum price, maximum price and
    confidence are the members of [detection], each replaced by [Unknown] or
    0 when it is missing. *)
Theorem parseResponse_outcomes (env : Env) (response : string) (w : World) :
  exists w',
    parseResponse env response w = Done tt w' /\
    let err := fst (deserializeJson env response) in
    let doc := Some (snd (deserializeJson env response)) in
    let det := member doc "detection" in
    (err <> DeserOk ->
       trace w' = trace w ++ parse_failure_report err response) /\
    (err = DeserOk ->
     member doc "success" = None \/ member doc "success" = Some (JBool false) ->
       exists message,
         trace w' = trace w ++ server_error_report message /\
         (member doc "error" = None -> message = "Unknown"%string) /\
         (forall s, member doc "error" = Some (JString s) -> message = s)) /\
    (err = DeserOk ->
     member doc "success" = Some (JBool true) ->
       exists label category minPrice maxPrice confidence,
         trace w' = trace w
                    ++ detection_report label category minPrice maxPrice confidence /\
         (member det "label" = None -> label = "Unknown"%string) /\
         (forall s, member det "label" = Some (JString s) -> label = s) /\
         (member det "category" = None -> category = "Unknown"%string) /\
         (forall s, member det "category" = Some (JString s) -> category = s) /\
         (member det "minPrice" = None -> minPrice = 0) /\
         (forall z, member det "minPrice" = Some (JInt z) ->
                    INT_MIN <= z <= INT_MAX -> minPrice = z) /\
         (member det "maxPrice" = None -> maxPrice = 0) /\
         (forall z, member det "maxPrice" = Some (JInt z) ->
                    INT_MIN <= z <= INT_MAX -> maxPrice = z) /\
         (member det "confidence" = None -> confidence = 0) /\
         (forall z, member det "confidence" = Some (JInt z) ->
                    INT_MIN <= z <= INT_MAX -> confidence = z)).
Proof.
  eexists. split; [apply parseResponse_run|].
  rewrite trace_log_more, rev_involutive.
  unfold parse_output.
  destruct (deserializeJson env response) as [err parsed]; cbn [fst snd].
  cbv zeta. split; [|split].
  - intros Herr. destruct err; [congruence| reflexivity ..].
  - intros -> Hs. cbn [is_error].
    exists (or_cstr (member (Some parsed) "error") "Unknown").
    split; [|split].
    + destruct Hs as [-> | ->]; reflexivity.
    + intros ->. reflexivity.
    + intros s ->. reflexivity.
  - intros -> Hs. cbn [is_error]. rewrite Hs. cbn [or_bool negb].
    do 5 eexists. split; [reflexivity|].
    rewrite !member_as_JsonObject.
    repeat split; try (intros ->; reflexivity); try (intros s ->; reflexivity);
      try (intros z Hz Hr; apply (or_int_in_range _ _ Hz Hr)).
Qed.

(** The example of the specification: the mug. *)
Lemma parseResponse_outcomes_witness :
  exists w',
    parseResponse sample_env "mug" start_world = Done tt w' /\
    trace w' = trace start_world ++ detection_report "Mug" "Kitchenware" 5 15 92.
Proof.
  destruct (parseResponse_outcomes sample_env "mug" start_world)
    as (w' & Hrun & _ & _ & Hdet).
  exists w'. split; [exact Hrun|].
  destruct (Hdet eq_refl eq_refl)
    as (l & c & lo & hi & conf & Htr & _ & Hl & _ & Hc & _ & Hlo & _ & Hhi & _ & Hconf).
  rewrite Htr.
  rewrite (Hl "Mug"%string eq_refl), (Hc "Kitchenware"%string eq_refl).
  rewrite (Hlo 5 eq_refl), (Hhi 15 eq_refl), (Hconf 92 eq_refl);
    try (unfold INT_MIN, INT_MAX; lia).
  reflexivity.
Defined.

(** C9. When the text parses and [success] is [true] but there is no
    [detection] member at all, [parseResponse] still returns and logs the
    detection made of the defaults. *)
Theorem parseResponse_without_detection
    (env : Env) (response : string) (w : World) (parsed : JsonValue) :
  deserializeJson env response = (DeserOk, parsed) ->
  member (Some parsed) "success" = Some (JBool true) ->
  member (Some parsed) "detection" = None ->
  exists w',
    parseResponse env response w = Done tt w' /\
    trace w' = trace w ++ detection_report "Unknown" "Unknown" 0 0 0.
Proof.
  intros Hdoc Hs Hd.
  eexists. split; [apply parseResponse_run|].
  rewrite trace_log_more, rev_involutive.
  unfold parse_output. rewrite Hdoc. cbn [is_error].
  rewrite Hs, Hd. reflexivity.
Qed.

Lemma parseResponse_without_detection_witness :
  exists w',
    parseResponse sample_env "bare" start_world = Done tt w' /\
    trace w' = trace start_world ++ detection_report "Unknown" "Unknown" 0 0 0.
Proof.
  apply (parseResponse_without_detection sample_env "bare" start_world
           bare_success_document); reflexivity.
Defined.

(* ================================================================== *)
(** * Wi-Fi, setup and loop *)
(* ================================================================== *)

Lemma connectWiFi_wait_S (fuel : nat) (start : Z) :
  connectWiFi_wait (S fuel) start
  = (st <- WiFi_status ;;
     if is_connected st then ret true
     else
       now <- millis ;;
       if ulong_sub now start >? WIFI_TIMEOUT_MS then
         Serial_println (nl +s+ "[WiFi] Connection timed out!") ;;
         Serial_println "[WiFi] Check SSID/password. ESP32 only supports 2.4GHz WiFi." ;;
         blinkError 3 ;;
         ret false
       else
         delay 500 ;;
         Serial_print "." ;;
         connectWiFi_wait fuel start).
Proof. reflexivity. Qed.

Lemma while_do_S (fuel : nat) (cond : M bool) (body : M unit) :
  while_do (S fuel) cond body
  = (c <- cond ;; if c then body ;; while_do fuel cond body else ret tt).
Proof. reflexivity. Qed.

Lemma elapsed_step (c start k : Z) :
  0 <= k -> 500 * (k + 1) < SIZE_MOD ->
  ulong_sub (c mod SIZE_MOD) start = 500 * k ->
  ulong_sub ((c + 500) mod SIZE_MOD) start = 500 * (k + 1).
Proof.
  unfold ulong_sub, SIZE_MOD. intros Hk Hlt H.
  rewrite Zminus_mod_idemp_l in *.
  replace (c + 500 - start) with ((c - start) + 500) by lia.
  rewrite <- Zplus_mod_idemp_l, H.
  rewrite Z.mod_small; lia.
Qed.

Lemma elapsed_start (c : Z) :
  ulong_sub (c mod SIZE_MOD) (c mod SIZE_MOD) = 500 * 0.
Proof. unfold ulong_sub. rewrite Z.sub_diag. reflexivity. Qed.

(** Carry a fact [trace w1 = trace w0 ++ tr] over the events written since. *)
Ltac chain_trace H :=
  unfold trace in *; cbn [log] in *; cbn [rev]; rewrite H; cbn [rev];
  rewrite <- ?app_assoc; cbn [app]; reflexivity.

(** The wait loop of [connectWiFi] ends within 32 polls; [k] polls have
    been made so far, each followed by a delay of 500 ms. *)
Lemma connectWiFi_wait_run (fuel : nat) :
  forall (k : Z) (start : Z) (w : World),
    0 <= k ->
    ulong_sub (clock w mod SIZE_MOD) start = 500 * k ->
    (1 <= fuel)%nat -> 32 <= Z.of_nat fuel + k ->
    returns (connectWiFi_wait fuel start w)
      (fun _ w' => exists tr,
         trace w' = trace w ++ tr /\ forallb is_wifi_phase_event tr = true).
Proof.
  induction fuel as [|fuel IH]; intros k start w Hk Hclock Hfuel Hsum; [lia|].
  rewrite connectWiFi_wait_S.
  destruct w as [lg pn ck lb rx cam heap http wifi gpio].
  cbn [clock] in Hclock.
  exec.
  destruct (wifi 0%nat) eqn:Est; exec;
    try solve [ cbn [returns]; eexists; split; [same_trace | reflexivity] ].
  all: rewrite Hclock.
  all: destruct (500 * k >? WIFI_TIMEOUT_MS) eqn:Hto; exec;
    try solve [ cbn [returns]; eexists; split; [same_trace | reflexivity] ].
  all: rewrite Z.gtb_ltb in Hto; apply Z.ltb_ge in Hto; unfold WIFI_TIMEOUT_MS in Hto.
  all: eapply returns_weaken;
    [ apply (IH (k + 1)); cbn [clock];
      [ lia | apply elapsed_step; [lia | unfold SIZE_MOD; lia | exact Hclock]
      | lia | lia ] | ].
  all: intros _ w' (tr & Htr & Hev); destruct w'.
  all: eexists; split;
    [ chain_trace Htr | cbn [forallb is_wifi_phase_event andb]; exact Hev ].
Qed.

Lemma connectWiFi_run (env : Env) (fuel : nat) (w : World) :
  (32 <= fuel)%nat ->
  returns (connectWiFi env fuel w)
    (fun _ w' => exists tr,
       trace w' = trace w ++ tr /\ forallb is_wifi_phase_event tr = true).
Proof.
  intros Hfuel. unfold connectWiFi.
  destruct w as [lg pn ck lb rx cam heap http wifi gpio].
  exec. apply returns_seq.
  eapply returns_weaken;
    [ apply (connectWiFi_wait_run fuel 0); cbn [clock];
      [ lia | apply elapsed_start | lia | lia ] | ].
  intros connected w' (tr & Htr & Hev). destruct w'.
  destruct connected; exec; cbn [returns].
  - exists ([ ESerialPrint "[WiFi] Connecting to "; ESerialPrintln WIFI_SSID;
              EWiFiMode; EWiFiBegin WIFI_SSID WIFI_PASSWORD;
              EMillis (ck mod SIZE_MOD) ]
            ++ tr
            ++ [ ESerialPrintln EmptyString; ESerialPrint "[WiFi] Connected! IP: ";
                 ESerialPrintln (localIP env) ]).
    split; [chain_trace Htr|].
    rewrite !forallb_app, Hev. reflexivity.
  - exists ([ ESerialPrint "[WiFi] Connecting to "; ESerialPrintln WIFI_SSID;
              EWiFiMode; EWiFiBegin WIFI_SSID WIFI_PASSWORD;
              EMillis (ck mod SIZE_MOD) ]
            ++ tr).
    split; [chain_trace Htr|].
    rewrite !forallb_app, Hev. reflexivity.
Qed.

(** The halting loop of [setup] never ends: with any fuel it is still
    blinking when the fuel is gone. *)
Lemma halt_run (fuel : nat) :
  forall w : World,
    exists w',
      while_do fuel (ret true) (blinkError 3 ;; delay 2000) w = Diverge w' /\
      trace w' = trace w ++ halt_signal fuel.
Proof.
  induction fuel as [|fuel IH]; intros w.
  - exists w. split; [reflexivity|]. cbn [halt_signal]. now rewrite app_nil_r.
  - rewrite while_do_S.
    destruct w as [lg pn ck lb rx cam heap http wifi gpio].
    match goal with
    | |- exists w', ?lhs = _ /\ _ =>
        let r := eval lazy -[rev app Z.add while_do] in lhs in change lhs with r
    end.
    match goal with
    | |- exists w', while_do fuel _ _ ?W = _ /\ _ =>
        destruct (IH W) as (w' & Hrun & Htr)
    end.
    exists w'. split; [exact Hrun|].
    rewrite Htr. same_trace.
Qed.

Lemma returns_bind {A B} (m : M A) (k : A -> M B) (w : World)
    (Q : B -> World -> Prop) :
  returns (m w) (fun a w1 => returns (k a w1) Q) -> returns (bind m k w) Q.
Proof. unfold bind. destruct (m w); simpl; tauto. Qed.

Lemma is_connected_true (st : wl_status_t) :
  is_connected st = true -> st = WL_CONNECTED.
Proof. destruct st; simpl; congruence. Qed.

Lemma wifi_phase_no_camera (tr : list Event) :
  forallb is_wifi_phase_event tr = true ->
  forallb (fun e => negb (is_camera_event e)) tr = true.
Proof.
  apply forallb_impl. intros [] H; try reflexivity; discriminate H.
Qed.

Lemma blink_output_no_check (n : nat) :
  forallb (fun e => negb (is_connectivity_check e)) (blink_output n) = true.
Proof. induction n as [|n IH]; [reflexivity | exact IH]. Qed.

Lemma blink_output_no_camera (n : nat) :
  existsb is_camera_event (blink_output n) = false.
Proof. induction n as [|n IH]; [reflexivity | exact IH]. Qed.

Lemma capture_output_no_check (env : Env) (w : World) :
  forallb (fun e => negb (is_connectivity_check e)) (capture_output env w) = true.
Proof.
  unfold capture_output, process_output.
  rewrite !forallb_app.
  destruct (cam_in w 0%nat) as [stale|]; cbn [discard_output forallb
    is_connectivity_check negb andb];
    (destruct (cam_in w 1%nat) as [fb|]; [|reflexivity]);
    cbn [forallb is_connectivity_check negb andb];
    (destruct (len fb >? 1000000); [reflexivity|]);
    rewrite !forallb_app, upload_output_no_check;
    destruct (upload_result _ _); reflexivity.
Qed.

(** C7, as the claim has it, fails: in a triggered round with the Wi-Fi up,
    the camera is used and the connectivity is checked, but no camera event
    comes before a connectivity check; the checks come before the camera. *)
Lemma capture_does_not_precede_connectivity_check :
  let tr := trace (world_of (loop sample_env 32 pressed_world)) in
  existsb is_camera_event tr = true /\
  existsb is_connectivity_check tr = true /\
  occurs_before is_camera_event is_connectivity_check tr = false /\
  occurs_before is_connectivity_check is_camera_event tr = true.
Proof. vm_compute. repeat split. Qed.

Lemma forallb_halt_signal (p : Event -> bool) (n : nat) :
  forallb p blink_cycle = true -> p (EDelay 2000) = true ->
  forallb p (halt_signal n) = true.
Proof.
  intros Hb Hd. induction n as [|n IH]; [reflexivity|].
  cbn [halt_signal blink_output]. rewrite !forallb_app, Hb, IH.
  cbn [forallb]. now rewrite Hd.
Qed.

Lemma initCamera_fails (env : Env) (w : World) :
  (forall cfg, esp_camera_init env cfg <> ESP_OK) ->
  returns (initCamera env w)
    (fun ready w' =>
       ready = false /\
       exists init,
         trace w' = trace w ++ init /\ forallb pipeline_idle init = true).
Proof.
  intros Hinit.
  assert (Hne : forall cfg, (esp_camera_init env cfg =? ESP_OK) = false)
    by (intros cfg; apply Z.eqb_neq, Hinit).
  destruct w as [lg pn ck lb rx cam heap http wifi gpio].
  unfold initCamera.
  apply returns_bind. exec. cbn [returns]. cbv beta.
  apply returns_bind.
  destruct (psramFound env); exec; cbn [returns]; cbv beta;
    apply returns_bind; exec; cbn [returns]; cbv beta;
    rewrite Hne; exec; cbn [returns];
    (split; [reflexivity|]); eexists; (split; [same_trace | reflexivity]).
Qed.

Lemma setup_halts (env : Env) (fuel : nat) (w : World) :
  (forall cfg, esp_camera_init env cfg <> ESP_OK) ->
  exists w' init,
    setup env fuel w = Diverge w' /\
    trace w' = trace w ++ boot_output ++ init
               ++ ESerialPrintln "[FATAL] Camera init failed. Halting."
               :: halt_signal fuel /\
    forallb pipeline_idle init = true.
Proof.
  intros Hinit.
  destruct w as [lg pn ck lb rx cam heap http wifi gpio].
  unfold setup.
  match goal with
  | |- exists w' init, ?lhs = _ /\ _ =>
      let r := eval lazy -[rev app String.append Z.of_nat Z.gtb Z.eqb
                           Z.modulo Z.add ulong_sub SIZE_MOD initCamera
                           connectWiFi while_do]
               in lhs in change lhs with r
  end.
  match goal with
  | |- exists w' init, match initCamera env ?W with _ => _ end = _ /\ _ =>
      pose proof (initCamera_fails env W Hinit) as H;
      destruct (initCamera env W) as [ready w1|w1|w1]; cbn [returns] in H;
      try contradiction
  end.
  destruct H as (-> & init & Hinit_tr & Hidle).
  destruct w1 as [lg1 pn1 ck1 lb1 rx1 cam1 heap1 http1 wifi1 gpio1].
  match goal with
  | |- exists w' init, ?lhs = _ /\ _ =>
      let r := eval lazy -[rev app String.append Z.of_nat Z.gtb Z.eqb
                           Z.modulo Z.add ulong_sub SIZE_MOD initCamera
                           connectWiFi while_do blinkError delay]
               in lhs in change lhs with r
  end.
  match goal with
  | |- exists w' init, match while_do ?f ?c ?b ?W with _ => _ end = _ /\ _ =>
      destruct (halt_run f W) as (w' & Hrun & Htr);
      change (while_do f c b W) with
        (while_do f (ret true) (blinkError 3 ;; delay 2000) W);
      rewrite Hrun
  end.
  exists w', init. split; [reflexivity|]. split; [|exact Hidle].
  rewrite Htr. unfold trace in *. cbn [log rev boot_output] in *.
  rewrite Hinit_tr. cbn [rev].
  repeat first [rewrite <- app_assoc | progress cbn [app]]. reflexivity.
Qed.

(** C8. When the camera does not initialise, the sketch never comes back
    from [setup]: whatever the fuel, the run is still inside the halting
    loop, blinking the status LED in threes, one round per unit of fuel.
    Nothing that was written touches the camera's frames, the upload, the
    trigger inputs or the Wi-Fi; [loop] is never entered. *)
Theorem camera_init_failure_halts (env : Env) (fuel : nat) (w : World) :
  (forall cfg, esp_camera_init env cfg <> ESP_OK) ->
  exists w' before,
    sketch env fuel w = Diverge w' /\
    trace w' = trace w ++ before ++ halt_signal fuel /\
    forallb pipeline_idle (before ++ halt_signal fuel) = true.
Proof.
  intros Hinit.
  destruct (setup_halts env fuel w Hinit) as (w' & init & Hrun & Htr & Hidle).
  exists w',
    (boot_output ++ init ++ [ESerialPrintln "[FATAL] Camera init failed. Halting."]).
  split; [unfold sketch, bind; now rewrite Hrun|].
  split; [rewrite Htr; now rewrite <- !app_assoc|].
  rewrite !forallb_app, Hidle.
  rewrite (forallb_halt_signal pipeline_idle fuel) by reflexivity.
  reflexivity.
Qed.

Lemma camera_init_failure_halts_witness :
  exists w' before,
    sketch dead_camera_env 5 start_world = Diverge w' /\
    trace w' = trace start_world ++ before ++ halt_signal 5 /\
    forallb pipeline_idle (before ++ halt_signal 5) = true.
Proof.
  apply (camera_init_failure_halts dead_camera_env 5 start_world).
  intros cfg. discriminate.
Defined.

(* ================================================================== *)
(** * The LED helpers *)
(* ================================================================== *)

Lemma returns_and {A} (r : Res A) (P Q : A -> World -> Prop) :
  returns r P -> returns r Q -> returns r (fun a w' => P a w' /\ Q a w').
Proof. destruct r; simpl; tauto. Qed.

Lemma for_upto_S (n : nat) (i : Z) (body : Z -> M unit) :
  for_upto (S n) i body = (body i ;; for_upto n (i + 1) body).
Proof. reflexivity. Qed.

Lemma blink_rounds (n : nat) :
  forall (i : Z) (w : World),
    returns
      (for_upto n i
         (fun _ =>
            digitalWrite STATUS_LED_PIN LOW ;;
            delay 150 ;;
            digitalWrite STATUS_LED_PIN HIGH ;;
            delay 150) w)
      (fun _ w' =>
         trace w' = trace w ++ blink_output n /\
         clock w' = clock w + 300 * Z.of_nat n /\
         (forall p, p <> STATUS_LED_PIN -> pins w' p = pins w p) /\
         pins w' STATUS_LED_PIN
         = match n with O => pins w STATUS_LED_PIN | S _ => HIGH end /\
         same_inputs w w').
Proof.
  induction n as [|n IH]; intros i w.
  - cbn [for_upto ret returns blink_output]. rewrite app_nil_r.
    unfold same_inputs. repeat split; try reflexivity; lia.
  - rewrite for_upto_S.
    destruct w as [lg pn ck lb rx cam heap http wifi gpio].
    apply returns_bind. exec. cbn [returns]. cbv beta.
    eapply returns_weaken; [apply IH|].
    intros _ [lg' pn' ck' lb' rx' cam' heap' http' wifi' gpio'].
    unfold same_inputs, trace.
    cbn [log clock pins lastButtonPress serial_rx cam_in heap_in http_in
         wifi_in gpio_in].
    intros (Htr & Hck & Hpins & Hst & Hin).
    split; [rewrite Htr; cbn [rev blink_output blink_cycle];
            repeat first [rewrite <- app_assoc | progress cbn [app]]; reflexivity|].
    split; [rewrite Hck; lia|].
    split.
    { intros p Hp. rewrite (Hpins p Hp).
      apply Z.eqb_neq in Hp. unfold STATUS_LED_PIN in *. now rewrite !Hp. }
    split; [|exact Hin].
    rewrite Hst. destruct n; reflexivity.
Qed.

(** X1. [blinkError times] blinks the status LED [times] times and takes
    300 ms for each; it leaves the LED off (the pin high) if it blinked at
    all, touches no other pin and reads no input.  With [times <= 0] it does
    nothing. *)
Theorem blinkError_blinks (times : Z) (w : World) :
  exists w',
    blinkError times w = Done tt w' /\
    trace w' = trace w ++ blink_output (Z.to_nat times) /\
    clock w' = clock w + 300 * Z.max 0 times /\
    (forall p, p <> STATUS_LED_PIN -> pins w' p = pins w p) /\
    same_inputs w w' /\
    (0 < times -> pins w' STATUS_LED_PIN = HIGH) /\
    (times <= 0 -> w' = w).
Proof.
  pose proof (blink_rounds (Z.to_nat times) 0 w) as H.
  apply returns_ex in H as ([] & w' & Hrun & Htr & Hck & Hpins & Hst & Hin).
  exists w'. split; [exact Hrun|]. split; [exact Htr|].
  split; [rewrite Hck; lia|]. split; [exact Hpins|]. split; [exact Hin|]. split.
  - intros Hpos. rewrite Hst.
    destruct (Z.to_nat times) eqn:E; [lia | reflexivity].
  - intros Hneg.
    assert (Hnop : blinkError times w = Done tt w).
    { unfold blinkError, for_int.
      replace (Z.to_nat times) with 0%nat by lia. reflexivity. }
    change (blinkError times w = Done tt w') in Hrun.
    rewrite Hnop in Hrun. now injection Hrun.
Qed.

Lemma blinkError_blinks_witness :
  exists w',
    blinkError 3 start_world = Done tt w' /\
    trace w' = trace start_world ++ blink_output (Z.to_nat 3) /\
    clock w' = clock start_world + 300 * Z.max 0 3 /\
    (forall p, p <> STATUS_LED_PIN -> pins w' p = pins start_world p) /\
    same_inputs start_world w' /\
    (0 < 3 -> pins w' STATUS_LED_PIN = HIGH) /\
    (3 <= 0 -> w' = start_world).
Proof.
  apply (blinkError_blinks 3 start_world).
Defined.

Lemma flash_rounds (n : nat) :
  forall (i times d : Z) (w : World),
    i + Z.of_nat n = times ->
    returns
      (for_upto n i
         (fun i =>
            digitalWrite FLASH_LED_PIN HIGH ;;
            delay d ;;
            digitalWrite FLASH_LED_PIN LOW ;;
            if i <? times - 1 then delay d else ret tt) w)
      (fun _ w' =>
         trace w' = trace w ++ flash_output n d /\
         clock w' = clock w + d * Z.max 0 (2 * Z.of_nat n - 1) /\
         (forall p, p <> FLASH_LED_PIN -> pins w' p = pins w p) /\
         pins w' FLASH_LED_PIN
         = match n with O => pins w FLASH_LED_PIN | S _ => LOW end /\
         same_inputs w w').
Proof.
  induction n as [|n IH]; intros i times d w Hi.
  - cbn [for_upto ret returns flash_output]. rewrite app_nil_r.
    unfold same_inputs. repeat split; try reflexivity; lia.
  - rewrite for_upto_S. cbv beta.
    destruct w as [lg pn ck lb rx cam heap http wifi gpio].
    apply returns_bind.
    destruct n as [|n].
    + replace (i <? times - 1) with false by (symmetry; apply Z.ltb_ge; lia).
      exec. cbn [returns for_upto ret flash_output].
      unfold same_inputs, trace.
      cbn [log clock pins lastButtonPress serial_rx cam_in heap_in http_in
           wifi_in gpio_in rev app].
      split; [repeat first [rewrite <- app_assoc | progress cbn [app]]; reflexivity|].
      split; [lia|].
      split.
      { intros p Hp. apply Z.eqb_neq in Hp. unfold FLASH_LED_PIN in *.
        now rewrite !Hp. }
      repeat split; reflexivity.
    + replace (i <? times - 1) with true by (symmetry; apply Z.ltb_lt; lia).
      exec. cbn [returns]. cbv beta.
      eapply returns_weaken; [apply (IH (i + 1) times d); lia|].
      intros _ [lg' pn' ck' lb' rx' cam' heap' http' wifi' gpio'].
      unfold same_inputs, trace.
      cbn [log clock pins lastButtonPress serial_rx cam_in heap_in http_in
           wifi_in gpio_in].
      intros (Htr & Hck & Hpins & Hst & Hin).
      split; [rewrite Htr; cbn [rev];
              change (flash_output (S (S n)) d)
                with ([ EDigitalWrite FLASH_LED_PIN HIGH; EDelay d;
                        EDigitalWrite FLASH_LED_PIN LOW; EDelay d ]
                      ++ flash_output (S n) d);
              repeat first [rewrite <- app_assoc | progress cbn [app]]; reflexivity|].
      split; [rewrite Hck; lia|].
      split.
      { intros p Hp. rewrite (Hpins p Hp).
        apply Z.eqb_neq in Hp. unfold FLASH_LED_PIN in *. now rewrite !Hp. }
      split; [exact Hst | exact Hin].
Qed.

(** X2. [flashLED times durationMs] pulses the flash LED [times] times, pausing
    between two pulses but not after the last, which takes
    [(2 * times - 1) * durationMs]; it leaves the LED off if it pulsed at
    all, touches no other pin and reads no input.  With [times <= 0] it does
    nothing. *)
Theorem flashLED_pulses (times durationMs : Z) (w : World) :
  0 <= durationMs ->
  exists w',
    flashLED times durationMs w = Done tt w' /\
    trace w' = trace w ++ flash_output (Z.to_nat times) durationMs /\
    clock w' = clock w + durationMs * Z.max 0 (2 * times - 1) /\
    (forall p, p <> FLASH_LED_PIN -> pins w' p = pins w p) /\
    same_inputs w w' /\
    (0 < times -> pins w' FLASH_LED_PIN = LOW) /\
    (times <= 0 -> w' = w).
Proof.
  intros _.
  assert (H : returns (flashLED times durationMs w)
                (fun _ w' =>
                   trace w' = trace w ++ flash_output (Z.to_nat times) durationMs /\
                   clock w' = clock w
                              + durationMs * Z.max 0 (2 * Z.of_nat (Z.to_nat times) - 1) /\
                   (forall p, p <> FLASH_LED_PIN -> pins w' p = pins w p) /\
                   pins w' FLASH_LED_PIN
                   = match Z.to_nat times with
                     | O => pins w FLASH_LED_PIN
                     | S _ => LOW
                     end /\
                   same_inputs w w')).
  { unfold flashLED, for_int.
    destruct (Z_le_gt_dec times 0) as [Hle|Hgt].
    - replace (Z.to_nat times) with 0%nat by lia.
      cbn [for_upto ret returns flash_output]. rewrite app_nil_r.
      unfold same_inputs. repeat split; try reflexivity; lia.
    - apply flash_rounds. lia. }
  apply returns_ex in H as ([] & w' & Hrun & Htr & Hck & Hpins & Hst & Hin).
  exists w'. split; [exact Hrun|]. split; [exact Htr|].
  split; [rewrite Hck; f_equal; f_equal; lia|]. split; [exact Hpins|].
  split; [exact Hin|]. split.
  - intros Hpos. rewrite Hst.
    destruct (Z.to_nat times) eqn:E; [lia | reflexivity].
  - intros Hneg.
    assert (Hnop : flashLED times durationMs w = Done tt w).
    { unfold flashLED, for_int.
      replace (Z.to_nat times) with 0%nat by lia. reflexivity. }
    rewrite Hnop in Hrun. now injection Hrun.
Qed.

Lemma flashLED_pulses_witness :
  exists w',
    flashLED 2 100 start_world = Done tt w' /\
    trace w' = trace start_world ++ flash_output (Z.to_nat 2) 100 /\
    clock w' = clock start_world + 100 * Z.max 0 (2 * 2 - 1) /\
    (forall p, p <> FLASH_LED_PIN -> pins w' p = pins start_world p) /\
    same_inputs start_world w' /\
    (0 < 2 -> pins w' FLASH_LED_PIN = LOW) /\
    (2 <= 0 -> w' = start_world).
Proof.
  apply (flashLED_pulses 2 100 start_world). lia.
Defined.

(* ================================================================== *)
(** * Connecting to the Wi-Fi *)
(* ================================================================== *)

Lemma polls_app (a b : list Event) : polls (a ++ b) = (polls a + polls b)%nat.
Proof. unfold polls. now rewrite filter_app, length_app. Qed.

Lemma connectWiFi_wait_full (fuel : nat) :
  forall (k : Z) (start : Z) (w : World),
    0 <= k ->
    ulong_sub (clock w mod SIZE_MOD) start = 500 * k ->
    (1 <= fuel)%nat -> 32 <= Z.of_nat fuel + k ->
    returns (connectWiFi_wait fuel start w)
      (fun connected w' => exists tr n,
         trace w' = trace w ++ tr /\
         (1 <= n)%nat /\ Z.of_nat n <= Z.max 1 (32 - k) /\
         polls tr = n /\
         (forall i, wifi_in w' i = wifi_in w (n + i)%nat) /\
         (forall i, (i < n - 1)%nat -> is_connected (wifi_in w i) = false) /\
         is_connected (wifi_in w (n - 1)%nat) = connected /\
         wait_outcome connected n k tr w w' /\
         same_inputs_but_wifi w w').
Proof.
  induction fuel as [|fuel IH]; intros k start w Hk Hclock Hfuel Hsum; [lia|].
  rewrite connectWiFi_wait_S.
  destruct w as [lg pn ck lb rx cam heap http wifi gpio].
  cbn [clock] in Hclock.
  apply returns_bind. exec. cbn [returns]. cbv beta.
  destruct (is_connected (wifi 0%nat)) eqn:Ec.
  - (* connected on this poll *)
    exec. cbn [returns].
    exists [EWiFiStatus (wifi 0%nat)], 1%nat.
    unfold wait_outcome, same_inputs_but_wifi, trace.
    cbn [log clock pins lastButtonPress serial_rx cam_in heap_in http_in
         wifi_in gpio_in rev app].
    split; [reflexivity|]. split; [lia|]. split; [lia|]. split; [reflexivity|].
    split; [intros i; reflexivity|]. split; [intros i Hi; lia|].
    split; [exact Ec|].
    split; [|repeat split; reflexivity].
    split; [lia|]. split; [reflexivity|].
    exists []. now rewrite (is_connected_true _ Ec).
  - apply returns_bind. exec. cbn [returns]. cbv beta.
    rewrite Hclock.
    destruct (500 * k >? WIFI_TIMEOUT_MS) eqn:Hto.
    + (* timed out *)
      rewrite Z.gtb_ltb in Hto. apply Z.ltb_lt in Hto. unfold WIFI_TIMEOUT_MS in Hto.
      exec. cbn [returns].
      exists ([EWiFiStatus (wifi 0%nat); EMillis (ck mod SIZE_MOD)]
              ++ timeout_report ++ blink_output 3), 1%nat.
      unfold wait_outcome, same_inputs_but_wifi, trace.
      cbn [log clock pins lastButtonPress serial_rx cam_in heap_in http_in
           wifi_in gpio_in].
      split; [same_trace|]. split; [lia|]. split; [lia|]. split; [reflexivity|].
      split; [intros i; reflexivity|]. split; [intros i Hi; lia|].
      split; [exact Ec|].
      split; [|repeat split; reflexivity].
      split; [lia|]. split; [lia|].
      split.
      { intros p Hp. apply Z.eqb_neq in Hp. unfold STATUS_LED_PIN in *.
        now rewrite !Hp. }
      split; [reflexivity|].
      exists [EWiFiStatus (wifi 0%nat); EMillis (ck mod SIZE_MOD)]. reflexivity.
    + (* wait and poll again *)
      rewrite Z.gtb_ltb in Hto. apply Z.ltb_ge in Hto. unfold WIFI_TIMEOUT_MS in Hto.
      exec.
      eapply returns_weaken;
        [ apply (IH (k + 1)); cbn [clock];
          [ lia | apply elapsed_step; [lia | unfold SIZE_MOD; lia | exact Hclock]
          | lia | lia ] | ].
      intros connected [lg' pn' ck' lb' rx' cam' heap' http' wifi' gpio']
             (tr & n & Htr & Hn1 & Hn2 & Hpolls & Htape & Hdown & Hlast & Hout & Hin).
      exists ([EWiFiStatus (wifi 0%nat); EMillis (ck mod SIZE_MOD); EDelay 500;
               ESerialPrint "."] ++ tr), (S n).
      unfold same_inputs_but_wifi, trace in *.
      cbn [log clock pins lastButtonPress serial_rx cam_in heap_in http_in
           wifi_in gpio_in] in *.
      split; [rewrite Htr; cbn [rev];
              repeat first [rewrite <- app_assoc | progress cbn [app]]; reflexivity|].
      split; [lia|]. split; [lia|].
      split; [rewrite polls_app, Hpolls; reflexivity|].
      split; [intros i; rewrite Htape; f_equal; lia|].
      split.
      { intros i Hi. destruct i as [|i]; [exact Ec|].
        rewrite <- (Hdown i) by lia. reflexivity. }
      split.
      { rewrite <- Hlast. f_equal. replace (S n - 1)%nat with (S (n - 1)) by lia.
        reflexivity. }
      split; [|exact Hin].
      unfold wait_outcome in *. cbn [clock pins] in *.
      destruct connected.
      * destruct Hout as (Hck & Hpins & before & ->).
        split; [lia|]. split; [exact Hpins|].
        exists ([EWiFiStatus (wifi 0%nat); EMillis (ck mod SIZE_MOD); EDelay 500;
                 ESerialPrint "."] ++ before).
        now rewrite <- app_assoc.
      * destruct Hout as (Hcount & Hck & Hpins & Hst & before & ->).
        split; [lia|]. split; [lia|]. split; [exact Hpins|]. split; [exact Hst|].
        exists ([EWiFiStatus (wifi 0%nat); EMillis (ck mod SIZE_MOD); EDelay 500;
                 ESerialPrint "."] ++ before).
        now rewrite <- app_assoc.
Qed.

Lemma connectWiFi_full (env : Env) (fuel : nat) (w : World) :
  (32 <= fuel)%nat ->
  returns (connectWiFi env fuel w)
    (fun _ w' => exists (connected : bool) (tr : list Event) (n : nat),
       trace w' = trace w ++ connect_preamble (clock w mod SIZE_MOD) ++ tr
                  ++ (if connected then connected_report env else []) /\
       (1 <= n <= 32)%nat /\
       polls tr = n /\
       (forall i, wifi_in w' i = wifi_in w (n + i)%nat) /\
       (forall i, (i < n - 1)%nat -> is_connected (wifi_in w i) = false) /\
       is_connected (wifi_in w (n - 1)%nat) = connected /\
       wait_outcome connected n 0 tr w w' /\
       same_inputs_but_wifi w w').
Proof.
  intros Hfuel. unfold connectWiFi.
  destruct w as [lg pn ck lb rx cam heap http wifi gpio].
  exec. apply returns_seq.
  eapply returns_weaken;
    [ apply (connectWiFi_wait_full fuel 0); cbn [clock];
      [ lia | apply elapsed_start | lia | lia ] | ].
  intros connected [lg' pn' ck' lb' rx' cam' heap' http' wifi' gpio']
         (tr & n & Htr & Hn1 & Hn2 & Hpolls & Htape & Hdown & Hlast & Hout & Hin).
  unfold same_inputs_but_wifi, wait_outcome, trace in *.
  cbn [log clock pins lastButtonPress serial_rx cam_in heap_in http_in
       wifi_in gpio_in] in *.
  destruct connected; exec; cbn [returns];
    [exists true, tr, n | exists false, tr, n];
    unfold same_inputs_but_wifi, wait_outcome, trace;
    cbn [log clock pins lastButtonPress serial_rx cam_in heap_in http_in
         wifi_in gpio_in];
    (split;
     [ cbn [rev]; rewrite Htr; cbn [rev connect_preamble connected_report];
       repeat first [rewrite <- app_assoc | progress cbn [app]];
       rewrite ?app_nil_r; reflexivity |]);
    (split; [lia|]); (split; [exact Hpolls|]); (split; [exact Htape|]);
    (split; [exact Hdown|]); (split; [exact Hlast|]);
    (split; [exact Hout | exact Hin]).
Qed.

(** X3. [connectWiFi] always comes back: it polls the Wi-Fi at most 32 times
    and takes at most 16.4 s (31 waits of 500 ms, and 900 ms of blinking
    when it gives up).  It writes to the serial line, the Wi-Fi and the
    status LED only, and leaves every input but the Wi-Fi's where it was. *)
Theorem connectWiFi_is_bounded (env : Env) (fuel : nat) (w : World) :
  (32 <= fuel)%nat ->
  exists w' tr,
    connectWiFi env fuel w = Done tt w' /\
    trace w' = trace w ++ tr /\
    (polls tr <= 32)%nat /\
    clock w <= clock w' <= clock w + 16400 /\
    forallb is_wifi_phase_event tr = true /\
    (forall p, p <> STATUS_LED_PIN -> pins w' p = pins w p) /\
    same_inputs_but_wifi w w'.
Proof.
  intros Hfuel.
  pose proof (connectWiFi_full env fuel w Hfuel) as H.
  apply returns_ex in H
    as ([] & w' & Hrun & connected & tr & n & Htr & Hn & Hpolls & _ & _ & _ & Hout & Hin).
  pose proof (connectWiFi_run env fuel w Hfuel) as H2.
  apply returns_ex in H2 as ([] & w2 & Hrun2 & tr2 & Htr2 & Hev).
  rewrite Hrun in Hrun2. injection Hrun2 as <-.
  exists w', tr2. split; [exact Hrun|]. split; [exact Htr2|].
  rewrite Htr in Htr2. apply app_inv_head in Htr2. subst tr2.
  split.
  { rewrite !polls_app, Hpolls.
    replace (polls (connect_preamble _)) with 0%nat by reflexivity.
    destruct connected; cbn; lia. }
  unfold wait_outcome in Hout.
  destruct connected.
  - destruct Hout as (Hck & Hpins & _).
    split; [lia|]. split; [exact Hev|]. split; [|exact Hin].
    intros p _. apply Hpins.
  - destruct Hout as (Hcount & Hck & Hpins & _).
    split; [lia|]. split; [exact Hev|]. split; [exact Hpins | exact Hin].
Qed.

Lemma connectWiFi_is_bounded_witness :
  exists w' tr,
    connectWiFi sample_env 32 offline_world = Done tt w' /\
    trace w' = trace offline_world ++ tr /\
    (polls tr <= 32)%nat /\
    clock offline_world <= clock w' <= clock offline_world + 16400 /\
    forallb is_wifi_phase_event tr = true /\
    (forall p, p <> STATUS_LED_PIN -> pins w' p = pins offline_world p) /\
    same_inputs_but_wifi offline_world w'.
Proof.
  apply (connectWiFi_is_bounded sample_env 32 offline_world). lia.
Defined.

(** X4. When the Wi-Fi never comes up, [connectWiFi] gives up: after at least
    one and at most 32 polls, and more than 15.9 s after it was called (the
    time-out of 15 s must have passed, and the blinking takes 900 ms), it
    has written its two time-out lines, blinked the status LED three times
    and left it off. *)
Theorem connectWiFi_gives_up (env : Env) (fuel : nat) (w : World) :
  (32 <= fuel)%nat ->
  (forall i, wifi_in w i <> WL_CONNECTED) ->
  exists w' before,
    connectWiFi env fuel w = Done tt w' /\
    trace w' = trace w ++ before ++ timeout_report ++ blink_output 3 /\
    (1 <= polls before <= 32)%nat /\
    clock w + 15900 < clock w' /\
    pins w' STATUS_LED_PIN = HIGH.
Proof.
  intros Hfuel Hdown.
  pose proof (connectWiFi_full env fuel w Hfuel) as H.
  apply returns_ex in H
    as ([] & w' & Hrun & connected & tr & n & Htr & Hn & Hpolls & _ & _ & Hlast
        & Hout & _).
  destruct connected.
  { apply is_connected_true in Hlast. now apply Hdown in Hlast. }
  unfold wait_outcome in Hout.
  destruct Hout as (Hcount & Hck & _ & Hst & before & ->).
  exists w', (connect_preamble (clock w mod SIZE_MOD) ++ before).
  split; [exact Hrun|].
  split; [rewrite Htr, app_nil_r; now rewrite <- !app_assoc|].
  split.
  { rewrite !polls_app in Hpolls.
    replace (polls timeout_report) with 0%nat in Hpolls by reflexivity.
    replace (polls (blink_output 3)) with 0%nat in Hpolls by reflexivity.
    rewrite polls_app.
    change (polls (connect_preamble (clock w mod SIZE_MOD))) with 0%nat. lia. }
  split; [lia | exact Hst].
Qed.

Lemma connectWiFi_gives_up_witness :
  exists w' before,
    connectWiFi sample_env 32 offline_world = Done tt w' /\
    trace w' = trace offline_world ++ before ++ timeout_report ++ blink_output 3 /\
    (1 <= polls before <= 32)%nat /\
    clock offline_world + 15900 < clock w' /\
    pins w' STATUS_LED_PIN = HIGH.
Proof.
  apply (connectWiFi_gives_up sample_env 32 offline_world); [lia|].
  intros i. discriminate.
Defined.

(** X5. When the Wi-Fi first reports itself up on poll [m] (counting from 0,
    [m <= 31]), [connectWiFi] returns after [m] waits of 500 ms, announces
    the address, and has changed no pin. *)
Theorem connectWiFi_connects (env : Env) (fuel : nat) (w : World) (m : nat) :
  (32 <= fuel)%nat ->
  (m <= 31)%nat ->
  (forall i, (i < m)%nat -> wifi_in w i <> WL_CONNECTED) ->
  wifi_in w m = WL_CONNECTED ->
  exists w' before,
    connectWiFi env fuel w = Done tt w' /\
    trace w' = trace w ++ before
               ++ EWiFiStatus WL_CONNECTED :: connected_report env /\
    polls before = m /\
    clock w' = clock w + 500 * Z.of_nat m /\
    (forall p, pins w' p = pins w p) /\
    (forall i, wifi_in w' i = wifi_in w (S m + i)%nat).
Proof.
  intros Hfuel Hm Hdown Hup.
  pose proof (connectWiFi_full env fuel w Hfuel) as H.
  apply returns_ex in H
    as ([] & w' & Hrun & connected & tr & n & Htr & Hn & Hpolls & Htape & Hnot
        & Hlast & Hout & _).
  assert (Hnm : n = S m).
  { destruct (Nat.lt_trichotomy (n - 1) m) as [Hlt|[Heq|Hgt]].
    - exfalso. destruct connected.
      + apply is_connected_true in Hlast. exact (Hdown _ Hlt Hlast).
      + unfold wait_outcome in Hout. lia.
    - lia.
    - exfalso. specialize (Hnot m Hgt). rewrite Hup in Hnot. discriminate Hnot. }
  rewrite Hnm in Hlast, Htape, Hpolls, Hout. clear Hnm Hnot Hn.
  replace (S m - 1)%nat with m in Hlast by lia.
  rewrite Hup in Hlast. cbn in Hlast. subst connected.
  unfold wait_outcome in Hout. destruct Hout as (Hck & Hpins & before & ->).
  exists w', (connect_preamble (clock w mod SIZE_MOD) ++ before).
  split; [exact Hrun|].
  split; [rewrite Htr; repeat first [rewrite <- app_assoc | progress cbn [app]];
          reflexivity|].
  split.
  { rewrite polls_app in Hpolls. cbn in Hpolls.
    rewrite polls_app.
    replace (polls (connect_preamble _)) with 0%nat by reflexivity.
    change (polls [EWiFiStatus WL_CONNECTED]) with 1%nat in Hpolls. lia. }
  split; [lia|]. split; [exact Hpins | exact Htape].
Qed.

Lemma connectWiFi_connects_witness :
  exists w' before,
    connectWiFi sample_env 32 waking_world = Done tt w' /\
    trace w' = trace waking_world ++ before
               ++ EWiFiStatus WL_CONNECTED :: connected_report sample_env /\
    polls before = 3%nat /\
    clock w' = clock waking_world + 500 * Z.of_nat 3 /\
    (forall p, pins w' p = pins waking_world p) /\
    (forall i, wifi_in w' i = wifi_in waking_world (4 + i)%nat).
Proof.
  apply (connectWiFi_connects sample_env 32 waking_world 3); [lia | lia | |reflexivity].
  intros i Hi. destruct i as [|[|[|i]]]; try discriminate. lia.
Defined.

(* ================================================================== *)
(** * Memory, connection and signals of an upload *)
(* ================================================================== *)

Lemma sendToServer_without_memory (env : Env) (imageData : list byte)
    (imageLen : Z) (w : World) :
  heap_in w 0%nat = false ->
  returns (sendToServer env imageData imageLen w)
    (fun ok w' =>
       ok = false /\
       trace w' = trace w ++ allocation_output imageLen false
                  ++ [ ESerialPrintln "[HTTP] Memory allocation failed!" ] /\
       http_in w' = http_in w /\ cam_in w' = cam_in w /\
       pins w' = pins w /\ clock w' = clock w).
Proof.
  intros Hheap.
  destruct w as [lg pn ck lb rx cam heap http wifi gpio].
  cbn [heap_in] in Hheap.
  unfold sendToServer.
  apply returns_bind. exec. cbn [returns]. cbv beta.
  apply returns_bind. unfold ps_malloc.
  apply returns_bind. exec. cbn [returns]. cbv beta.
  rewrite Hheap. exec. cbn [returns]. cbv beta. exec. cbn [returns].
  split; [reflexivity|]. split; [|repeat split; reflexivity].
  unfold allocation_output. same_trace.
Qed.

(** X6. When [ps_malloc] gives no block, [sendToServer] logs it and answers
    [false] at once, whatever the image and its length: no request is set
    up, and the answer the server would have given is not consumed. *)
Theorem allocation_failure_skips_request (env : Env) (imageData : list byte)
    (imageLen : Z) (w : World) :
  0 <= imageLen < SIZE_MOD ->
  heap_in w 0%nat = false ->
  exists w',
    sendToServer env imageData imageLen w = Done false w' /\
    trace w' = trace w ++ allocation_output imageLen false
               ++ [ ESerialPrintln "[HTTP] Memory allocation failed!" ] /\
    http_in w' = http_in w.
Proof.
  intros _ Hheap.
  pose proof (sendToServer_without_memory env imageData imageLen w Hheap) as H.
  apply returns_ex in H as (ok & w' & Hrun & -> & Htr & Hhttp & _).
  exists w'. repeat split; assumption.
Qed.

Lemma allocation_failure_skips_request_witness :
  exists w',
    sendToServer sample_env (buf sample_frame) 4 exhausted_world = Done false w' /\
    trace w' = trace exhausted_world ++ allocation_output 4 false
               ++ [ ESerialPrintln "[HTTP] Memory allocation failed!" ] /\
    http_in w' = http_in exhausted_world.
Proof.
  apply (allocation_failure_skips_request sample_env (buf sample_frame) 4
           exhausted_world).
  - unfold SIZE_MOD. lia.
  - reflexivity.
Defined.

Lemma occurrences_app (p : Event -> bool) (a b : list Event) :
  occurrences p (a ++ b) = (occurrences p a + occurrences p b)%nat.
Proof. unfold occurrences. now rewrite filter_app, length_app. Qed.

Lemma occurrences_cons (p : Event -> bool) (e : Event) (l : list Event) :
  occurrences p (e :: l) = ((if p e then 1 else 0) + occurrences p l)%nat.
Proof. unfold occurrences. simpl. now destruct (p e). Qed.

Lemma occurrences_none (p q : Event -> bool) (l : list Event) :
  (forall e, q e = true -> p e = false) ->
  forallb q l = true -> occurrences p l = 0%nat.
Proof.
  intros Hqp Hl. unfold occurrences. now rewrite (filter_none p q l Hqp Hl).
Qed.

Lemma occurrences_blink_output (p : Event -> bool) (n : nat) :
  forallb (fun e => negb (p e)) blink_cycle = true ->
  occurrences p (blink_output n) = 0%nat.
Proof.
  intros Hp. induction n as [|n IH]; [reflexivity|].
  cbn [blink_output]. rewrite occurrences_app, IH.
  rewrite (occurrences_none p (fun e => negb (p e))); [reflexivity | | exact Hp].
  intros e He. now destruct (p e).
Qed.

Lemma occurrences_parse_output (p : Event -> bool) (env : Env) (response : string) :
  (forall e, is_serial_out e = true -> p e = false) ->
  occurrences p (parse_output env response) = 0%nat.
Proof.
  intros Hp. apply (occurrences_none p is_serial_out _ Hp), parse_output_serial.
Qed.

(** One class of events of the upload in [upload_output]: counted by
    running through the list, the report of the parser apart. *)
Ltac count_upload :=
  unfold upload_output, post_output, reply_output;
  repeat match goal with
         | |- context [if ?b then _ else _] => destruct b
         end;
  cbn [app];
  repeat first [ rewrite occurrences_cons
               | rewrite occurrences_app
               | rewrite occurrences_parse_output
                   by (intros [] He; solve [reflexivity | discriminate He]) ];
  reflexivity.

Lemma upload_output_frees (env : Env) (imageData : list byte) (allocated : bool)
    (reply : HttpReply) :
  occurrences is_allocation (upload_output env imageData allocated reply)
  = occurrences is_free (upload_output env imageData allocated reply).
Proof. count_upload. Qed.

Lemma upload_output_ends (env : Env) (imageData : list byte) (allocated : bool)
    (reply : HttpReply) :
  occurrences is_http_begin (upload_output env imageData allocated reply)
  = occurrences is_http_end (upload_output env imageData allocated reply).
Proof. count_upload. Qed.

Lemma upload_output_posts_once (env : Env) (imageData : list byte)
    (allocated : bool) (reply : HttpReply) :
  occurrences is_post (upload_output env imageData allocated reply)
  = if allocated then 1%nat else 0%nat.
Proof. count_upload. Qed.

(** The same counts over a whole capture. *)
Ltac count_capture :=
  unfold capture_output, process_output, discard_output, success_flashes;
  repeat match goal with
         | |- context [match ?o with Some _ => _ | None => _ end] =>
             destruct o
         | |- context [if ?b then _ else _] =>
             lazymatch b with
             | context [upload_output] => fail
             | _ => destruct b
             end
         end;
  cbn [app discard_output success_flashes];
  repeat first [ rewrite occurrences_cons
               | rewrite occurrences_app
               | rewrite occurrences_blink_output by reflexivity ].

Lemma capture_output_frees (env : Env) (w : World) :
  occurrences is_allocation (capture_output env w)
  = occurrences is_free (capture_output env w).
Proof. count_capture; rewrite ?upload_output_frees; reflexivity. Qed.

Lemma capture_output_ends (env : Env) (w : World) :
  occurrences is_http_begin (capture_output env w)
  = occurrences is_http_end (capture_output env w).
Proof. count_capture; rewrite ?upload_output_ends; reflexivity. Qed.

Lemma capture_output_posts_once (env : Env) (w : World) :
  (occurrences is_post (capture_output env w) <= 1)%nat.
Proof.
  count_capture; rewrite ?upload_output_posts_once;
    cbn [is_post Nat.add]; try lia.
  all: destruct (heap_in w 0%nat); change (occurrences is_post []) with 0%nat; lia.
Qed.

(** X7. A capture gives back what it takes: every block it got from
    [ps_malloc] is freed, every HTTP session it began is ended, and it posts
    at most once, on every path through [captureAndSend] and
    [sendToServer]. *)
Theorem captureAndSend_frees_what_it_allocates (env : Env) (w : World) :
  exists w' tr,
    captureAndSend env w = Done tt w' /\
    trace w' = trace w ++ tr /\
    occurrences is_allocation tr = occurrences is_free tr /\
    occurrences is_http_begin tr = occurrences is_http_end tr /\
    (occurrences is_post tr <= 1)%nat.
Proof.
  pose proof (captureAndSend_run env w) as H.
  apply returns_ex in H as ([] & w' & Hrun & Htr & _).
  exists w', (capture_output env w).
  split; [exact Hrun|]. split; [exact Htr|].
  split; [apply capture_output_frees|].
  split; [apply capture_output_ends | apply capture_output_posts_once].
Qed.

(** What a capture leaves alone. *)
Lemma captureAndSend_frame (env : Env) (w : World) :
  returns (captureAndSend env w)
    (fun _ w' =>
       (forall p, p <> FLASH_LED_PIN -> p <> STATUS_LED_PIN ->
                  pins w' p = pins w p) /\
       (pins w' STATUS_LED_PIN = HIGH
        \/ pins w' STATUS_LED_PIN = pins w STATUS_LED_PIN) /\
       wifi_in w' = wifi_in w /\ gpio_in w' = gpio_in w /\
       (match cam_in w 1%nat with
        | Some fb => len fb >? 1000000
        | None => true
        end = true ->
        heap_in w' = heap_in w /\ http_in w' = http_in w) /\
       clock w + 450 <= clock w' <= clock w + 1650).
Proof.
  destruct w as [lg pn ck lb rx cam heap http wifi gpio].
  unfold captureAndSend.
  cbn [log pins cam_in heap_in http_in wifi_in gpio_in].
  assert (Hother : forall (p : Z) (v : PinLevel) (f : Z -> PinLevel),
             p <> 4 -> p <> 33 ->
             ((if p =? 4 then v else f p) = f p)
             /\ ((if p =? 33 then v else f p) = f p)).
  { intros p v f H4 H33.
    rewrite (proj2 (Z.eqb_neq p 4) H4), (proj2 (Z.eqb_neq p 33) H33).
    split; reflexivity. }
  destruct (cam 0%nat) as [stale|] eqn:E0;
    (destruct (cam 1%nat) as [fb|] eqn:E1;
     [destruct (len fb >? 1000000) eqn:Hbig|]);
    exec; rewrite ?E0; exec; rewrite ?E1; exec; rewrite ?Hbig; exec.
  all: try (unfold len at 1;
    rewrite sendToServer_run
      by (apply fits_size_t; rewrite Z.gtb_ltb in Hbig; apply Z.ltb_ge in Hbig;
          unfold len in Hbig; lia);
    unfold after_upload; cbn [log pins cam_in heap_in http_in wifi_in gpio_in];
    destruct (upload_result (heap 0%nat) (http 0%nat)); exec).
  all: cbn [returns pins clock wifi_in gpio_in heap_in http_in].
  all: unfold FLASH_LED_PIN, STATUS_LED_PIN.
  all: split;
    [ intros p H4 H33; cbn [pins]; cbv beta;
      repeat first [ rewrite (proj1 (Hother p _ _ H4 H33))
                   | rewrite (proj2 (Hother p _ _ H4 H33)) ];
      reflexivity |].
  all: split; [cbn; tauto|].
  all: split; [reflexivity|]. all: split; [reflexivity|].
  all: split; [|cbn [clock]; lia].
  all: first [ intros Hno; discriminate Hno | intros _; split; reflexivity ].
Qed.

(** X8. What the LEDs show after an upload is decided by the allocation
    and the HTTP status alone: two flashes of the flash LED when the block
    was allocated and the status is 200, whatever the body of the answer
    says; five blinks of the status LED otherwise.  The frame is released
    before the signal. *)
Theorem upload_result_is_signalled (env : Env) (w : World) (fb : camera_fb_t) :
  cam_in w 1%nat = Some fb ->
  len fb <= 1000000 ->
  exists w' before,
    captureAndSend env w = Done tt w' /\
    trace w' = trace w ++ before
               ++ EFbReturn fb
               :: (if heap_in w 0%nat && (reply_code (http_in w 0%nat) =? 200)
                   then flash_output 2 100 else blink_output 5).
Proof.
  intros Hfresh Hlen.
  pose proof (captureAndSend_run env w) as H.
  apply returns_ex in H as ([] & w' & Hrun & Htr & _).
  assert (Hbig : (len fb >? 1000000) = false)
    by (rewrite Z.gtb_ltb; apply Z.ltb_ge; exact Hlen).
  exists w'.
  exists ([ ESerialPrintln (nl +s+ "---------- CAPTURE ----------");
            EDigitalWrite FLASH_LED_PIN HIGH;
            EDelay FLASH_WARMUP_MS;
            EFbGet (cam_in w 0%nat) ]
          ++ discard_output (cam_in w 0%nat)
          ++ [ EFbGet (Some fb); EDigitalWrite FLASH_LED_PIN LOW;
               ESerialPrintf ("[Camera] %u bytes (%ux%u)" +s+ nl)
                 [ANum (len fb); ANum (width fb); ANum (height fb)] ]
          ++ upload_output env (buf fb) (heap_in w 0%nat) (http_in w 0%nat)).
  split; [exact Hrun|].
  rewrite Htr. f_equal.
  unfold capture_output, process_output. rewrite Hfresh, Hbig.
  unfold upload_result.
  change (flash_output 2 100) with success_flashes.
  repeat first [rewrite <- app_assoc | progress cbn [app]]. reflexivity.
Qed.

Lemma upload_result_is_signalled_witness :
  exists w' before,
    captureAndSend sample_env rejecting_world = Done tt w' /\
    trace w' = trace rejecting_world ++ before
               ++ EFbReturn sample_frame
               :: (if heap_in rejecting_world 0%nat
                      && (reply_code (http_in rejecting_world 0%nat) =? 200)
                   then flash_output 2 100 else blink_output 5).
Proof.
  apply (upload_result_is_signalled sample_env rejecting_world sample_frame).
  - reflexivity.
  - vm_compute. discriminate.
Defined.

(** X9. When the second acquisition gives no frame, the capture ends with
    the failure line and five blinks of the status LED; no event of the
    upload happens, and nothing is asked of the heap or of the server. *)
Theorem failed_capture_skips_upload (env : Env) (w : World) :
  cam_in w 1%nat = None ->
  exists w' tr,
    captureAndSend env w = Done tt w' /\
    trace w' = trace w ++ tr /\
    forallb (fun e => negb (is_upload_event e)) tr = true /\
    (exists before,
       tr = before
            ++ [ EFbGet None; EDigitalWrite FLASH_LED_PIN LOW;
                 ESerialPrintln "[Camera] Capture failed!" ]
            ++ blink_output 5) /\
    heap_in w' = heap_in w /\ http_in w' = http_in w.
Proof.
  intros Hfresh.
  pose proof (captureAndSend_run env w) as H.
  apply returns_ex in H as ([] & w' & Hrun & Htr & _).
  pose proof (captureAndSend_frame env w) as H2.
  apply returns_ex in H2 as ([] & w2 & Hrun2 & _ & _ & _ & _ & Hkeep & _).
  rewrite Hrun in Hrun2. injection Hrun2 as <-.
  rewrite Hfresh in Hkeep. destruct (Hkeep eq_refl) as [Hheap Hhttp].
  exists w', (capture_output env w).
  split; [exact Hrun|]. split; [exact Htr|].
  unfold capture_output, process_output. rewrite Hfresh.
  split; [destruct (cam_in w 0%nat); reflexivity|].
  split; [|split; assumption].
  exists ([ ESerialPrintln (nl +s+ "---------- CAPTURE ----------");
            EDigitalWrite FLASH_LED_PIN HIGH;
            EDelay FLASH_WARMUP_MS;
            EFbGet (cam_in w 0%nat) ]
          ++ discard_output (cam_in w 0%nat)).
  repeat first [rewrite <- app_assoc | progress cbn [app]]. reflexivity.
Qed.

Lemma failed_capture_skips_upload_witness :
  exists w' tr,
    captureAndSend sample_env blind_world = Done tt w' /\
    trace w' = trace blind_world ++ tr /\
    forallb (fun e => negb (is_upload_event e)) tr = true /\
    (exists before,
       tr = before
            ++ [ EFbGet None; EDigitalWrite FLASH_LED_PIN LOW;
                 ESerialPrintln "[Camera] Capture failed!" ]
            ++ blink_output 5) /\
    heap_in w' = heap_in blind_world /\ http_in w' = http_in blind_world.
Proof.
  apply (failed_capture_skips_upload sample_env blind_world).
  reflexivity.
Defined.

(** X10. A capture drives no pin but the flash LED and the status LED, and
    it leaves the status LED off (HIGH, active low) or as it found it; the
    answers of the Wi-Fi and of the button are not consumed. *)
Theorem captureAndSend_drives_only_the_leds (env : Env) (w : World) :
  exists w',
    captureAndSend env w = Done tt w' /\
    (forall p, p <> FLASH_LED_PIN -> p <> STATUS_LED_PIN ->
               pins w' p = pins w p) /\
    (pins w' STATUS_LED_PIN = HIGH
     \/ pins w' STATUS_LED_PIN = pins w STATUS_LED_PIN) /\
    wifi_in w' = wifi_in w /\ gpio_in w' = gpio_in w.
Proof.
  pose proof (captureAndSend_frame env w) as H.
  apply returns_ex in H as ([] & w' & Hrun & Hpins & Hstatus & Hwifi & Hgpio & _).
  exists w'. repeat split; assumption.
Qed.

(** X11. On status 200 [sendToServer] frees the body, reads the answer,
    ends the session and only then hands the answer to [parseResponse]; it
    answers [true] whatever the parser makes of it. *)
Theorem status_200_is_parsed (env : Env) (imageData : list byte) (w : World) :
  strlen bodyStart + Z.of_nat (List.length imageData) + strlen bodyEnd < SIZE_MOD ->
  heap_in w 0%nat = true ->
  reply_code (http_in w 0%nat) = 200 ->
  let payload := reply_payload (http_in w 0%nat) in
  exists w1 w' before,
    sendToServer env imageData (Z.of_nat (List.length imageData)) w = Done true w' /\
    trace w1 = trace w ++ before
               ++ [ EHttpPost (encode imageData) 200; EFree;
                    EHttpGetString payload; EHttpEnd ] /\
    parseResponse env payload w1 = Done tt w'.
Proof.
  intros Hfit Hheap Hcode payload.
  pose proof (sendToServer_run env imageData w Hfit) as Hrun.
  unfold upload_result, upload_output, reply_output, post_output in Hrun.
  rewrite Hheap, Hcode in Hrun. cbn [andb Z.eqb Pos.eqb] in Hrun.
  set (totalLen := strlen bodyStart + Z.of_nat (List.length imageData)
                   + strlen bodyEnd) in *.
  set (before :=
         [ ESerialPrintf ("[HTTP] Body: %u bytes (image: %u)" +s+ nl)
             [ANum totalLen; ANum (Z.of_nat (List.length imageData))];
           EPsMalloc totalLen true;
           EHttpBegin server_url;
           EHttpSetTimeout HTTP_TIMEOUT_MS;
           EHttpAddHeader "Content-Type"
             ("multipart/form-data; boundary=" +s+ boundary);
           ESerialPrintf ("[HTTP] POST %s" +s+ nl) [AStr server_url] ]).
  set (tail := [ EHttpPost (encode imageData) 200; EFree;
                 EHttpGetString payload; EHttpEnd ]).
  exists (after_upload (before ++ tail) w).
  eexists. exists before.
  split; [exact Hrun|].
  split.
  { unfold trace, after_upload. cbn [log].
    now rewrite rev_app_distr, rev_involutive. }
  rewrite parseResponse_run. f_equal.
  unfold log_more, after_upload. cbn [log pins clock lastButtonPress serial_rx
    cam_in heap_in http_in wifi_in gpio_in].
  f_equal. rewrite app_assoc, <- rev_app_distr. f_equal.
Qed.

Lemma status_200_is_parsed_witness :
  exists w1 w' before,
    sendToServer sample_env (buf sample_frame)
      (Z.of_nat (List.length (buf sample_frame))) rejecting_world
    = Done true w' /\
    trace w1 = trace rejecting_world ++ before
               ++ [ EHttpPost (encode (buf sample_frame)) 200; EFree;
                    EHttpGetString (reply_payload (http_in rejecting_world 0%nat));
                    EHttpEnd ] /\
    parseResponse sample_env (reply_payload (http_in rejecting_world 0%nat)) w1
    = Done tt w'.
Proof.
  apply (status_200_is_parsed sample_env (buf sample_frame) rejecting_world).
  - vm_compute. reflexivity.
  - reflexivity.
  - reflexivity.
Defined.

(* ================================================================== *)
(** * The trigger *)
(* ================================================================== *)

Lemma handle_trigger_state (env : Env) (fuel : nat) (trigger : bool) (w : World) :
  (32 <= fuel)%nat ->
  returns (handle_trigger env fuel trigger w)
    (fun _ w' => exists tr,
       trace w' = trace w ++ tr /\
       existsb is_connectivity_check tr = trigger /\
       serial_rx w' = serial_rx w /\
       lastButtonPress w' = lastButtonPress w /\
       gpio_in w' = gpio_in w /\
       (trigger = false -> w' = w) /\
       (trigger = true -> clock w + 450 <= clock w' <= clock w + 18050)).
Proof.
  intros Hfuel. unfold handle_trigger.
  destruct trigger.
  2:{ cbn [ret returns]. exists []. split; [now rewrite app_nil_r|].
      repeat split; try reflexivity; discriminate. }
  destruct w as [lg pn ck lb rx cam heap http wifi gpio].
  apply returns_bind. exec. cbn [returns]. cbv beta.
  apply returns_bind.
  assert (Htail : forall w1 : World,
    returns
      ((st <- WiFi_status ;;
        if is_connected st then captureAndSend env
        else
          Serial_println "[Error] No WiFi — cannot send image" ;;
          blinkError 3) w1)
      (fun _ w' => exists tr,
         trace w' = trace w1 ++ tr /\
         serial_rx w' = serial_rx w1 /\
         lastButtonPress w' = lastButtonPress w1 /\
         gpio_in w' = gpio_in w1 /\
         clock w1 + 450 <= clock w' <= clock w1 + 1650)).
  { intros [lg1 pn1 ck1 lb1 rx1 cam1 heap1 http1 wifi1 gpio1].
    apply returns_bind. exec. cbn [returns]. cbv beta.
    destruct (is_connected (wifi1 0%nat)).
    - eapply returns_weaken;
        [apply returns_and; [apply captureAndSend_run | apply captureAndSend_frame]|].
      intros _ [lg' pn' ck' lb' rx' cam' heap' http' wifi' gpio']
             [(Htr & _ & Hrx & Hlb) (_ & _ & _ & Hgpio & _ & Hck)].
      eexists. split; [chain_trace Htr|].
      split; [assumption|]. split; [assumption|]. split; assumption.
    - exec. cbn [returns]. eexists. split; [same_trace|].
      split; [reflexivity|]. split; [reflexivity|]. split; [reflexivity|].
      cbn [clock]. lia. }
  destruct (is_connected (wifi 0%nat)); cbn [negb].
  - exec. cbn [returns]. cbv beta.
    eapply returns_weaken; [apply Htail|].
    intros _ [lg' pn' ck' lb' rx' cam' heap' http' wifi' gpio']
           (tr & Htr & Hrx & Hlb & Hgpio & Hck).
    exists (EWiFiStatus (wifi 0%nat) :: tr).
    split; [chain_trace Htr|]. split; [reflexivity|].
    split; [exact Hrx|]. split; [exact Hlb|]. split; [exact Hgpio|].
    split; [discriminate|]. intros _. cbn [clock] in *. lia.
  - apply returns_bind. exec. cbn [returns]. cbv beta.
    eapply returns_weaken; [apply (connectWiFi_full env fuel _ Hfuel)|].
    intros _ [lg1 pn1 ck1 lb1 rx1 cam1 heap1 http1 wifi1 gpio1]
           (connected & tr1 & n & Htr1 & Hn & _ & _ & _ & _ & Hout & Hin).
    unfold same_inputs_but_wifi in Hin.
    cbn [lastButtonPress serial_rx cam_in heap_in http_in gpio_in] in Hin.
    destruct Hin as (Hlb1 & Hrx1 & _ & _ & _ & Hgpio1).
    assert (Hck1 : ck <= ck1 <= ck + 16400).
    { unfold wait_outcome in Hout. cbn [clock] in Hout.
      destruct connected; [destruct Hout as (Hck & _) | destruct Hout as (Hc & Hck & _)];
        lia. }
    cbn [returns]. cbv beta.
    eapply returns_weaken; [apply Htail|].
    intros _ [lg' pn' ck' lb' rx' cam' heap' http' wifi' gpio']
           (tr & Htr & Hrx & Hlb & Hgpio & Hck).
    cbn [serial_rx lastButtonPress gpio_in clock] in *.
    eexists (EWiFiStatus (wifi 0%nat) :: _).
    split.
    { unfold trace in *. cbn [log rev] in *. rewrite Htr, Htr1. cbn [rev].
      repeat first [rewrite <- app_assoc | progress cbn [app]]. reflexivity. }
    split; [reflexivity|].
    split; [congruence|]. split; [congruence|]. split; [congruence|].
    split; [discriminate|]. intros _. lia.
Qed.

Lemma serial_reads_app (a b : list Event) :
  serial_reads (a ++ b) = serial_reads a ++ serial_reads b.
Proof.
  induction a as [|e a IH]; [reflexivity|].
  destruct e; cbn [app serial_reads]; try exact IH.
  destruct c; cbn [app]; now rewrite ?IH.
Qed.

(** The drain loop reads everything that waits, and changes nothing but the
    serial buffer. *)
Lemma drain_state (fuel : nat) :
  forall w : World,
    (List.length (serial_rx w) < fuel)%nat ->
    returns (while_do fuel Serial_available (Serial_read ;; ret tt) w)
      (fun _ w' => exists tr,
         trace w' = trace w ++ tr /\
         forallb is_trigger_poll tr = true /\
         List.length tr = (2 * List.length (serial_rx w) + 1)%nat /\
         serial_reads tr = serial_rx w /\
         w' = mk_world (log w') (pins w) (clock w) (lastButtonPress w) []
                (cam_in w) (heap_in w) (http_in w) (wifi_in w) (gpio_in w)).
Proof.
  induction fuel as [|fuel IH]; intros w Hfuel; [lia|].
  rewrite while_do_S.
  destruct w as [lg pn ck lb rx cam heap http wifi gpio].
  cbn [serial_rx] in Hfuel.
  destruct rx as [|c rx]; exec.
  - cbn [returns]. exists [ESerialAvailable false].
    repeat split; reflexivity.
  - eapply returns_weaken; [apply IH; cbn [serial_rx List.length] in *; lia|].
    intros _ [lg' pn' ck' lb' rx' cam' heap' http' wifi' gpio']
           (tr & Htr & Hev & Hlen & Hrd & Hw).
    cbn [log pins clock lastButtonPress serial_rx cam_in heap_in http_in wifi_in
         gpio_in] in *.
    exists ([ESerialAvailable true; ESerialRead (Some c)] ++ tr).
    split; [chain_trace Htr|].
    split; [cbn [forallb app is_trigger_poll andb]; exact Hev|].
    split; [cbn [List.length app]; lia|].
    split; [cbn [serial_reads app]; now rewrite Hrd | exact Hw].
Qed.

Lemma loop_finish_state (env : Env) (fuel : nat) (trigger : bool) (w : World)
    (past seen : list Event) :
  (32 <= fuel)%nat ->
  trace w = past ++ seen ->
  existsb is_connectivity_check seen = false ->
  (trigger = false -> forallb is_idle_event seen = true) ->
  serial_rx w = [] ->
  returns (bind (handle_trigger env fuel trigger) (fun _ => delay 50) w)
    (fun _ w' => exists tr,
       trace w' = past ++ tr /\
       existsb is_connectivity_check tr = trigger /\
       serial_rx w' = [] /\
       lastButtonPress w' = lastButtonPress w /\
       (trigger = false ->
        forallb is_idle_event tr = true /\ pins w' = pins w /\
        clock w' = clock w + 50) /\
       gpio_in w' = gpio_in w /\
       (trigger = true -> clock w + 500 <= clock w' <= clock w + 18100)).
Proof.
  intros Hfuel Hpast Hquiet Hseen Hrx.
  apply returns_bind.
  eapply returns_weaken; [apply (handle_trigger_state env fuel trigger w Hfuel)|].
  intros _ [lg' pn' ck' lb' rx' cam' heap' http' wifi' gpio']
         (tr & Htr & Hcheck & Hrx' & Hlb & Hgpio & Hsame & Hlong).
  exec. cbn [returns].
  exists (seen ++ tr ++ [EDelay 50]).
  cbn [serial_rx lastButtonPress pins clock gpio_in] in *.
  split.
  { unfold trace in *. cbn [log rev] in *. rewrite Htr, Hpast.
    now rewrite <- !app_assoc. }
  split.
  { rewrite !existsb_app, Hquiet, Hcheck. cbn. now rewrite orb_false_r. }
  split; [congruence|]. split; [exact Hlb|].
  split; [|split; [exact Hgpio | intros Ht; specialize (Hlong Ht); lia]].
  intros ->. specialize (Hsame eq_refl). subst w. cbn [pins clock].
  split; [|split; reflexivity].
  rewrite forallb_app, (Hseen eq_refl).
  destruct tr as [|e tr]; [reflexivity|].
  exfalso. unfold trace in Htr. cbn [log] in Htr.
  apply (f_equal (@List.length Event)) in Htr.
  rewrite length_app in Htr. cbn [List.length] in Htr. lia.
Qed.

Lemma trigger_poll_idle (tr : list Event) :
  forallb is_trigger_poll tr = true -> forallb is_idle_event tr = true.
Proof. apply forallb_impl. intros [] H; try reflexivity; discriminate H. Qed.

Lemma trigger_poll_unchecked (tr : list Event) :
  forallb is_trigger_poll tr = true -> existsb is_connectivity_check tr = false.
Proof.
  intros H. induction tr as [|e tr IH]; [reflexivity|].
  cbn [forallb existsb] in *. apply andb_true_iff in H as [He Hs].
  rewrite (IH Hs). destruct e; try discriminate He; reflexivity.
Qed.

Ltac finish_state env fuel lg Hfuel t Htrd Hq Hi :=
  eapply returns_weaken;
  [ eapply (loop_finish_state env fuel t _ (rev lg) _ Hfuel);
    [ unfold trace in *; cbn [log rev] in *; rewrite ?Htrd; cbn [rev];
      repeat first [rewrite <- app_assoc | progress cbn [app]]; reflexivity
    | cbn [existsb is_connectivity_check orb];
      rewrite ?existsb_app, ?Hq; reflexivity
    | first [ intros Hno; discriminate Hno
            | intros _; cbn [forallb is_idle_event andb];
              rewrite ?forallb_app, ?Hi; reflexivity ]
    | cbn [serial_rx] in *; first [reflexivity | assumption] ]
  | cbn [lastButtonPress pins clock gpio_in];
    intros _ w' (tr & Htr & Hcheck & Hrx' & Hlb & Hidle & Hgpio & Hlong);
    exists tr; cbn [orb andb];
    (split; [exact Htr|]); (split; [exact Hcheck|]); (split; [exact Hrx'|]);
    (split; [exact Hlb|]);
    (split;
     [ first [ intros Hno; discriminate Hno | intros _; exact (Hidle eq_refl) ] |]);
    (split; [exact Hgpio|]);
    first [ intros Hno; discriminate Hno | intros _; exact (Hlong eq_refl) ] ].


Ltac serial_state env fuel lg Hfuel Hrx t0 :=
  apply returns_bind; exec; cbn [returns]; cbv beta;
  apply returns_bind;
  match goal with
  | |- context [match ?rx with [] => false | _ :: _ => true end] =>
      let c := fresh "c" in let rx' := fresh "rx" in
      destruct rx as [|c rx']; cbn [hd_error]
  end;
  [ exec; cbn [returns]; cbv beta;
    change (is_capture_command None) with false;
    finish_state env fuel lg Hfuel t0 Hfuel Hfuel Hfuel
  | apply returns_bind; exec; cbn [returns]; cbv beta;
    apply returns_bind;
    (eapply returns_weaken;
     [ apply drain_state; cbn [serial_rx List.length] in *; lia |]);
    intros _ [lg1 pn1 ck1 lb1 rx1 cam1 heap1 http1 wifi1 gpio1]
           (trd & Htrd & Hevd & _ & _ & Hw1);
    cbn [returns]; cbv beta;
    pose proof (trigger_poll_unchecked _ Hevd) as Hq1;
    pose proof (trigger_poll_idle _ Hevd) as Hi1;
    cbn [log pins clock lastButtonPress serial_rx cam_in heap_in http_in wifi_in
         gpio_in] in Hw1;
    injection Hw1 as -> -> -> -> -> -> -> -> ->;
    match goal with
    | |- context [is_capture_command ?cmd] => destruct (is_capture_command cmd)
    end;
    exec; cbn [returns]; cbv beta;
    [ finish_state env fuel lg Hfuel true Htrd Hq1 Hi1
    | finish_state env fuel lg Hfuel t0 Htrd Hq1 Hi1 ] ].

Lemma loop_state (env : Env) (fuel : nat) (w : World) :
  (32 <= fuel)%nat ->
  (List.length (serial_rx w) <= fuel)%nat ->
  returns (loop env fuel w)
    (fun _ w' => exists tr,
       trace w' = trace w ++ tr /\
       existsb is_connectivity_check tr = press_accepted w || command_given w /\
       serial_rx w' = [] /\
       lastButtonPress w'
       = (if press_accepted w then clock w mod SIZE_MOD else lastButtonPress w) /\
       (press_accepted w || command_given w = false ->
        forallb is_idle_event tr = true /\ pins w' = pins w /\
        clock w' = clock w + 50) /\
       gpio_in w' = shift (gpio_in w) /\
       (press_accepted w || command_given w = true ->
        clock w + 500 <= clock w' <= clock w + 18100)).
Proof.
  intros Hfuel Hrx. unfold loop. fold (handle_trigger env fuel).
  unfold press_accepted, command_given.
  destruct w as [lg pn ck lb rx cam heap http wifi gpio].
  cbn [serial_rx gpio_in clock lastButtonPress pins] in *.
  apply returns_bind. exec. cbn [returns]. cbv beta.
  apply returns_bind.
  destruct (gpio 0%nat); cbn [level_eqb andb].
  - apply returns_bind. exec. cbn [returns]. cbv beta.
    apply returns_bind. exec. cbn [returns]. cbv beta.
    destruct (ulong_sub (ck mod SIZE_MOD) lb >? DEBOUNCE_MS);
      exec; cbn [returns]; cbv beta;
      [ serial_state env fuel lg Hfuel Hrx true
      | serial_state env fuel lg Hfuel Hrx false ].
  - exec. cbn [returns]. cbv beta.
    serial_state env fuel lg Hfuel Hrx false.
Qed.

Lemma trigger_poll_phase (tr : list Event) :
  forallb is_trigger_poll tr = true -> forallb is_trigger_phase_event tr = true.
Proof. apply forallb_impl. intros [] H; try reflexivity; discriminate H. Qed.

(** Hand the world after the polling to the rest of [loop]. *)
Ltac hand_over H Htrd Hph Hrd :=
  eapply H;
  [ unfold trace in *; cbn [log rev] in *; rewrite ?Htrd; cbn [rev];
    repeat first [rewrite <- app_assoc | progress cbn [app]]; reflexivity
  | cbn [forallb is_trigger_phase_event andb];
    rewrite ?forallb_app, ?Hph; reflexivity
  | cbn [serial_reads app]; rewrite ?serial_reads_app, ?Hrd;
    cbn [serial_reads app]; rewrite ?app_nil_r; reflexivity
  | first [ intros Hno; discriminate Hno
          | intros _; cbn [In app]; repeat first [left; reflexivity | right] ]
  | cbn [log pins clock lastButtonPress serial_rx cam_in heap_in http_in
         wifi_in gpio_in];
    reflexivity ].

Ltac serial_phase H fuel Hrx :=
  apply returns_bind; exec; cbn [returns]; cbv beta;
  apply returns_bind;
  match goal with
  | |- context [match ?rx with [] => false | _ :: _ => true end] =>
      let c := fresh "c" in let rx' := fresh "rx" in
      destruct rx as [|c rx']; cbn [hd_error] in H
  end;
  [ change (is_capture_command None) with false in H; cbn [orb] in H;
    exec; cbn [returns]; cbv beta; hand_over H H H H
  | apply returns_bind; exec; cbn [returns]; cbv beta;
    apply returns_bind;
    (eapply returns_weaken;
     [ apply drain_state; cbn [serial_rx List.length] in *; lia |]);
    intros _ [lg1 pn1 ck1 lb1 rx1 cam1 heap1 http1 wifi1 gpio1]
           (trd & Htrd & Hevd & _ & Hrd & Hw1);
    cbn [returns]; cbv beta;
    pose proof (trigger_poll_phase _ Hevd) as Hph;
    cbn [log pins clock lastButtonPress serial_rx cam_in heap_in http_in wifi_in
         gpio_in] in Hw1;
    injection Hw1 as -> -> -> -> -> -> -> -> ->;
    match goal with
    | |- context [is_capture_command ?cmd] =>
        let Ec := fresh "Ec" in
        destruct (is_capture_command cmd) eqn:Ec; rewrite ?Ec in H;
        cbn [orb] in H
    end;
    exec; cbn [returns]; cbv beta;
    hand_over H Htrd Hph Hrd ].

(** A round of [loop] is the polling of the triggers, which only reads
    (everything that waits on the serial line, and the clock when the
    button is down), followed by the handling of the trigger and the 50 ms
    pause. *)
Lemma loop_phases (env : Env) (fuel : nat) (w : World)
    (Q : unit -> World -> Prop) :
  (List.length (serial_rx w) <= fuel)%nat ->
  (forall (w1 : World) (seen : list Event),
     trace w1 = trace w ++ seen ->
     forallb is_trigger_phase_event seen = true ->
     serial_reads seen = serial_rx w ->
     (press_accepted w = true -> In (EMillis (clock w mod SIZE_MOD)) seen) ->
     polled w w1 ->
     returns (bind (handle_trigger env fuel (press_accepted w || command_given w))
                (fun _ => delay 50) w1) Q) ->
  returns (loop env fuel w) Q.
Proof.
  intros Hrx H. unfold loop. fold (handle_trigger env fuel).
  unfold polled, press_accepted, command_given in H.
  destruct w as [lg pn ck lb rx cam heap http wifi gpio].
  cbn [serial_rx gpio_in clock lastButtonPress pins cam_in heap_in http_in
       wifi_in] in *.
  apply returns_bind. exec. cbn [returns]. cbv beta.
  apply returns_bind.
  destruct (gpio 0%nat); cbn [level_eqb andb] in *.
  - apply returns_bind. exec. cbn [returns]. cbv beta.
    apply returns_bind. exec. cbn [returns]. cbv beta.
    destruct (ulong_sub (ck mod SIZE_MOD) lb >? DEBOUNCE_MS);
      cbn [orb] in H; exec; cbn [returns]; cbv beta;
      serial_phase H fuel Hrx.
  - cbn [orb] in H. exec. cbn [returns]. cbv beta.
    serial_phase H fuel Hrx.
Qed.

(** X12. A round of [loop] asks for the Wi-Fi status exactly when it was
    triggered: the button reads pressed more than the debounce time after
    the last accepted press, or the first character waiting on the serial
    line is [c] or [C].  The round always returns. *)
Theorem loop_checks_wifi_iff_triggered (env : Env) (fuel : nat) (w : World) :
  (32 <= fuel)%nat ->
  (List.length (serial_rx w) <= fuel)%nat ->
  exists w' tr,
    loop env fuel w = Done tt w' /\
    trace w' = trace w ++ tr /\
    existsb is_connectivity_check tr = press_accepted w || command_given w.
Proof.
  intros Hfuel Hrx.
  pose proof (loop_state env fuel w Hfuel Hrx) as H.
  apply returns_ex in H as ([] & w' & Hrun & tr & Htr & Hcheck & _).
  exists w', tr. repeat split; assumption.
Qed.

Lemma loop_checks_wifi_iff_triggered_witness :
  exists w' tr,
    loop sample_env 32 typed_world = Done tt w' /\
    trace w' = trace typed_world ++ tr /\
    existsb is_connectivity_check tr
    = press_accepted typed_world || command_given typed_world.
Proof.
  apply (loop_checks_wifi_iff_triggered sample_env 32 typed_world).
  - lia.
  - cbn. lia.
Defined.

(** X13. A round of [loop] that is not triggered only reads its inputs and
    the clock and waits: it writes nothing on the serial line, touches no
    pin, and ends 50 ms later. *)
Theorem untriggered_loop_is_idle (env : Env) (fuel : nat) (w : World) :
  (32 <= fuel)%nat ->
  (List.length (serial_rx w) <= fuel)%nat ->
  press_accepted w = false ->
  command_given w = false ->
  exists w' tr,
    loop env fuel w = Done tt w' /\
    trace w' = trace w ++ tr /\
    forallb is_idle_event tr = true /\
    pins w' = pins w /\
    clock w' = clock w + 50 /\
    lastButtonPress w' = lastButtonPress w.
Proof.
  intros Hfuel Hrx Hpress Hcmd.
  pose proof (loop_state env fuel w Hfuel Hrx) as H.
  apply returns_ex in H as ([] & w' & Hrun & tr & Htr & _ & _ & Hlb & Hidle & _).
  rewrite Hpress, Hcmd in Hidle. rewrite Hpress in Hlb.
  destruct (Hidle eq_refl) as (Hev & Hpins & Hck).
  exists w', tr. repeat split; assumption.
Qed.

Lemma untriggered_loop_is_idle_witness :
  exists w' tr,
    loop sample_env 32 bouncing_world = Done tt w' /\
    trace w' = trace bouncing_world ++ tr /\
    forallb is_idle_event tr = true /\
    pins w' = pins bouncing_world /\
    clock w' = clock bouncing_world + 50 /\
    lastButtonPress w' = lastButtonPress bouncing_world.
Proof.
  apply (untriggered_loop_is_idle sample_env 32 bouncing_world).
  - lia.
  - cbn. lia.
  - reflexivity.
  - reflexivity.
Defined.

Lemma loop_reads (env : Env) (fuel : nat) (w : World) :
  (32 <= fuel)%nat ->
  (List.length (serial_rx w) <= fuel)%nat ->
  returns (loop env fuel w)
    (fun _ w' => exists polling rest,
       trace w' = trace w ++ polling ++ rest /\
       forallb is_trigger_phase_event polling = true /\
       serial_reads polling = serial_rx w /\
       (press_accepted w = false -> lastButtonPress w' = lastButtonPress w) /\
       (press_accepted w = true -> In (EMillis (lastButtonPress w')) polling)).
Proof.
  intros Hfuel Hrx.
  apply loop_phases; [exact Hrx|].
  intros w1 seen Hseen Hphase Hreads Hmillis Hpolled.
  assert (Hlb1 : lastButtonPress w1
                 = (if press_accepted w then clock w mod SIZE_MOD
                    else lastButtonPress w))
    by (rewrite Hpolled; reflexivity).
  apply returns_bind.
  eapply returns_weaken; [apply (handle_trigger_state env fuel _ w1 Hfuel)|].
  intros _ [lg2 pn2 ck2 lb2 rx2 cam2 heap2 http2 wifi2 gpio2]
         (tr & Htr & _ & _ & Hlb & _).
  cbn [lastButtonPress] in Hlb.
  exec. cbn [returns].
  exists seen, (tr ++ [EDelay 50]).
  split.
  { unfold trace in *. cbn [log rev] in *. rewrite Htr, Hseen.
    now rewrite <- !app_assoc. }
  split; [exact Hphase|]. split; [exact Hreads|].
  cbn [lastButtonPress]. rewrite Hlb, Hlb1.
  split; intros Hpress; rewrite Hpress; [reflexivity | exact (Hmillis Hpress)].
Qed.

(** X14. Every character that waits on the serial line when a round of
    [loop] begins is read in that round, in order, while the triggers are
    polled and before anything is done about them.  The time of the last
    accepted press is left alone unless a press is accepted, and is then a
    reading of the clock taken during that polling. *)
Theorem loop_drains_serial_and_debounces (env : Env) (fuel : nat) (w : World) :
  (32 <= fuel)%nat ->
  (List.length (serial_rx w) <= fuel)%nat ->
  exists w' polling rest,
    loop env fuel w = Done tt w' /\
    trace w' = trace w ++ polling ++ rest /\
    forallb is_trigger_phase_event polling = true /\
    firstn (List.length (serial_rx w)) (serial_reads polling) = serial_rx w /\
    (press_accepted w = false -> lastButtonPress w' = lastButtonPress w) /\
    (press_accepted w = true -> In (EMillis (lastButtonPress w')) polling).
Proof.
  intros Hfuel Hrx.
  destruct (proj1 (returns_ex _ _) (loop_reads env fuel w Hfuel Hrx))
    as ([] & w' & Hrun & polling & rest & Htr & Hphase & Hreads & Hkeep & Hset).
  exists w', polling, rest.
  split; [exact Hrun|]. split; [exact Htr|]. split; [exact Hphase|].
  split; [rewrite Hreads; apply firstn_all|].
  split; [exact Hkeep | exact Hset].
Qed.

Lemma loop_drains_serial_and_debounces_witness :
  exists w' polling rest,
    loop sample_env 32 typed_world = Done tt w' /\
    trace w' = trace typed_world ++ polling ++ rest /\
    forallb is_trigger_phase_event polling = true /\
    firstn (List.length (serial_rx typed_world)) (serial_reads polling)
    = serial_rx typed_world /\
    (press_accepted typed_world = false ->
     lastButtonPress w' = lastButtonPress typed_world) /\
    (press_accepted typed_world = true ->
     In (EMillis (lastButtonPress w')) polling).
Proof.
  apply (loop_drains_serial_and_debounces sample_env 32 typed_world).
  - lia.
  - cbn. lia.
Defined.

Lemma elapsed_since (c c' : Z) :
  0 <= c' - c < SIZE_MOD ->
  ulong_sub (c' mod SIZE_MOD) (c mod SIZE_MOD) = c' - c.
Proof.
  intros H. unfold ulong_sub.
  rewrite Zminus_mod_idemp_l, Zminus_mod_idemp_r.
  now apply Z.mod_small.
Qed.

(** X15. The debounce never holds back the round that follows an accepted
    press: a triggered round lasts at least 500 ms, more than the debounce
    time, so a button that still reads pressed is accepted again.  Holding
    the button down triggers a capture in every round. *)
Theorem held_button_retriggers (env : Env) (fuel : nat) (w : World) :
  (32 <= fuel)%nat ->
  (List.length (serial_rx w) <= fuel)%nat ->
  press_accepted w = true ->
  exists w',
    loop env fuel w = Done tt w' /\
    clock w + 500 <= clock w' /\
    press_accepted w' = level_eqb (gpio_in w 1%nat) LOW.
Proof.
  intros Hfuel Hrx Hpress.
  pose proof (loop_state env fuel w Hfuel Hrx) as H.
  apply returns_ex in H
    as ([] & w' & Hrun & tr & _ & _ & _ & Hlb & _ & Hgpio & Hlong).
  rewrite Hpress in Hlb, Hlong. specialize (Hlong eq_refl).
  exists w'. split; [exact Hrun|]. split; [lia|].
  unfold press_accepted. rewrite Hlb, Hgpio.
  rewrite elapsed_since by (unfold SIZE_MOD; lia).
  unfold shift.
  replace (clock w' - clock w >? DEBOUNCE_MS) with true
    by (symmetry; unfold DEBOUNCE_MS; rewrite Z.gtb_ltb; apply Z.ltb_lt; lia).
  apply andb_true_r.
Qed.

Lemma held_button_retriggers_witness :
  exists w',
    loop sample_env 32 pressed_world = Done tt w' /\
    clock pressed_world + 500 <= clock w' /\
    press_accepted w' = level_eqb (gpio_in pressed_world 1%nat) LOW.
Proof.
  apply (held_button_retriggers sample_env 32 pressed_world).
  - lia.
  - cbn. lia.
  - reflexivity.
Defined.

(* ================================================================== *)
(** * Bringing the board up *)
(* ================================================================== *)

Lemma initCamera_state (env : Env) (w : World) :
  returns (initCamera env w)
    (fun ready w' => exists cfg tr,
       ready = (esp_camera_init env cfg =? ESP_OK) /\
       trace w' = trace w ++ tr /\
       In (ECameraInit cfg (esp_camera_init env cfg)) tr /\
       occurrences is_camera_init tr = 1%nat /\
       frame_size cfg
       = (if psramFound env then FRAMESIZE_VGA else FRAMESIZE_SVGA) /\
       jpeg_quality cfg = (if psramFound env then 12 else 14) /\
       fb_count cfg = (if psramFound env then 2 else 1) /\
       fb_location cfg
       = (if psramFound env then CAMERA_FB_IN_PSRAM else CAMERA_FB_IN_DRAM) /\
       occurrences is_sensor_set tr
       = (if ready && esp_camera_sensor_get env then 6%nat else 0%nat) /\
       forallb pipeline_idle tr = true /\
       w' = log_more (rev tr) w).
Proof.
  destruct w as [lg pn ck lb rx cam heap http wifi gpio].
  destruct env as [psram init sensor parser errstr junk ip].
  unfold initCamera.
  cbn [psramFound esp_camera_init esp_camera_sensor_get].
  apply returns_bind. exec. cbn [returns]. cbv beta.
  apply returns_bind.
  destruct psram; exec; cbn [returns]; cbv beta;
    apply returns_bind; exec; cbn [returns]; cbv beta;
    match goal with
    | |- context [init ?c =? ?z] => destruct (init c =? z) eqn:Hok
    end;
    cbn [negb]; exec;
    try (destruct sensor; exec);
    cbn [returns];
    match type of Hok with
    | (init ?c =? _) = _ => exists c
    end;
    eexists;
    (split; [symmetry; exact Hok|]);
    (split; [same_trace|]);
    (split; [cbn [In]; tauto|]);
    repeat split; reflexivity.
Qed.

(** X16. [initCamera] answers [true] exactly when the driver accepts the
    configuration, which it is given once.  The frame size, JPEG quality,
    number of buffers and their place follow from whether PSRAM was found.
    The six settings of the sensor are written only after the driver
    accepted and when there is a sensor handle; pins and clock are not
    touched. *)
Theorem initCamera_follows_the_driver (env : Env) (w : World) :
  exists cfg w' tr,
    initCamera env w = Done (esp_camera_init env cfg =? ESP_OK) w' /\
    trace w' = trace w ++ tr /\
    In (ECameraInit cfg (esp_camera_init env cfg)) tr /\
    occurrences is_camera_init tr = 1%nat /\
    frame_size cfg = (if psramFound env then FRAMESIZE_VGA else FRAMESIZE_SVGA) /\
    jpeg_quality cfg = (if psramFound env then 12 else 14) /\
    fb_count cfg = (if psramFound env then 2 else 1) /\
    fb_location cfg
    = (if psramFound env then CAMERA_FB_IN_PSRAM else CAMERA_FB_IN_DRAM) /\
    occurrences is_sensor_set tr
    = (if (esp_camera_init env cfg =? ESP_OK) && esp_camera_sensor_get env
       then 6%nat else 0%nat) /\
    pins w' = pins w /\ clock w' = clock w.
Proof.
  pose proof (initCamera_state env w) as H.
  apply returns_ex in H
    as (ready & w' & Hrun & cfg & tr & -> & Htr & Hin & Hone & Hsize & Hq & Hn
        & Hloc & Hset & _ & ->).
  exists cfg, (log_more (rev tr) w), tr.
  repeat split; assumption.
Qed.

Lemma pipeline_idle_outside (tr : list Event) :
  forallb pipeline_idle tr = true -> forallb outside_pipeline tr = true.
Proof.
  apply forallb_impl. intros e. unfold pipeline_idle, outside_pipeline.
  destruct (is_camera_event e), (is_upload_event e), (is_trigger_poll e);
    cbn; congruence.
Qed.

Lemma wifi_phase_outside (tr : list Event) :
  forallb is_wifi_phase_event tr = true -> forallb outside_pipeline tr = true.
Proof. apply forallb_impl. intros [] H; try reflexivity; discriminate H. Qed.

Lemma pipeline_idle_polls (tr : list Event) :
  forallb pipeline_idle tr = true -> polls tr = 0%nat.
Proof.
  intros H. unfold polls.
  rewrite (filter_none is_connectivity_check pipeline_idle tr); [reflexivity | | exact H].
  intros [] He; solve [reflexivity | discriminate He].
Qed.

Lemma setup_state (env : Env) (fuel : nat) (w : World) :
  (forall cfg, esp_camera_init env cfg = ESP_OK) ->
  (32 <= fuel)%nat ->
  returns (setup env fuel w)
    (fun _ w' => exists tr,
       trace w' = trace w ++ boot_output ++ tr
                  ++ [ ESerialPrintln ("[Ready] Waiting for trigger..." +s+ nl) ] /\
       forallb outside_pipeline tr = true /\
       (1 <= polls tr <= 32)%nat /\
       pins w' FLASH_LED_PIN = LOW /\
       pins w' STATUS_LED_PIN = HIGH /\
       clock w + 1000 <= clock w' <= clock w + 1000 + 16400).
Proof.
  intros Hinit Hfuel.
  destruct w as [lg pn ck lb rx cam heap http wifi gpio].
  unfold setup.
  exec. apply returns_seq.
  eapply returns_weaken; [apply initCamera_state|].
  intros ready [lg1 pn1 ck1 lb1 rx1 cam1 heap1 http1 wifi1 gpio1]
         (cfg & init & -> & Htr1 & _ & _ & _ & _ & _ & _ & Hsensor & Hidle1 & Hw1).
  rewrite Hinit in *. change (ESP_OK =? ESP_OK) with true in *.
  unfold log_more in Hw1.
  cbn [log pins clock lastButtonPress serial_rx cam_in heap_in http_in wifi_in
       gpio_in] in Hw1.
  injection Hw1 as Hlg1 -> -> -> -> -> -> -> -> ->.
  exec. apply returns_seq.
  eapply returns_weaken;
    [ apply returns_and;
      [ apply (connectWiFi_full env fuel _ Hfuel)
      | apply (connectWiFi_run env fuel _ Hfuel) ] |].
  intros _ [lg2 pn2 ck2 lb2 rx2 cam2 heap2 http2 wifi2 gpio2]
         [(connected & net & n & Htr2 & Hn & Hpolls & _ & _ & _ & Hout & _)
          (tr2 & Htr2' & Hclass)].
  cbn [clock pins] in *.
  rewrite Htr2 in Htr2'. apply app_inv_head in Htr2'. subst tr2.
  exec. cbn [returns].
  exists (init ++ connect_preamble ((ck + 1000) mod SIZE_MOD) ++ net
          ++ (if connected then connected_report env else [])).
  split.
  { unfold trace in *. cbn [log rev] in *. rewrite Htr2, Htr1.
    cbn [rev boot_output].
    repeat first [rewrite <- app_assoc | progress cbn [app]]. reflexivity. }
  split.
  { rewrite forallb_app, (pipeline_idle_outside _ Hidle1).
    now rewrite (wifi_phase_outside _ Hclass). }
  split.
  { rewrite !polls_app, (pipeline_idle_polls _ Hidle1), Hpolls.
    change (polls (connect_preamble ((ck + 1000) mod SIZE_MOD))) with 0%nat.
    destruct connected; cbn; lia. }
  unfold wait_outcome in Hout. cbn [clock pins] in Hout.
  destruct connected.
  - destruct Hout as (Hck & Hpins & _).
    cbn [pins clock]. rewrite !Hpins.
    split; [reflexivity|]. split; [reflexivity|]. lia.
  - destruct Hout as (Hcount & Hck & Hpins & Hstatus & _).
    cbn [pins clock]. rewrite Hstatus, Hpins by discriminate.
    split; [reflexivity|]. split; [reflexivity|]. lia.
Qed.

(** X17. When the camera initialises, [setup] comes back whether or not the
    Wi-Fi comes up: after at most 32 connectivity checks and 17.4 s it
    announces that it waits for a trigger, with the flash LED and the
    status LED off.  It takes no frame, uploads nothing and reads no
    trigger. *)
Theorem setup_completes_without_wifi (env : Env) (fuel : nat) (w : World) :
  (forall cfg, esp_camera_init env cfg = ESP_OK) ->
  (32 <= fuel)%nat ->
  exists w' tr,
    setup env fuel w = Done tt w' /\
    trace w' = trace w ++ boot_output ++ tr
               ++ [ ESerialPrintln ("[Ready] Waiting for trigger..." +s+ nl) ] /\
    forallb outside_pipeline tr = true /\
    (1 <= polls tr <= 32)%nat /\
    pins w' FLASH_LED_PIN = LOW /\
    pins w' STATUS_LED_PIN = HIGH /\
    clock w + 1000 <= clock w' <= clock w + 17400.
Proof.
  intros Hinit Hfuel.
  destruct (proj1 (returns_ex _ _) (setup_state env fuel w Hinit Hfuel))
    as ([] & w' & Hrun & tr & Htr & Hout & Hpolls & Hflash & Hstatus & Hck).
  exists w', tr.
  split; [exact Hrun|]. split; [exact Htr|]. split; [exact Hout|].
  split; [exact Hpolls|]. split; [exact Hflash|]. split; [exact Hstatus|]. lia.
Qed.

Lemma setup_completes_without_wifi_witness :
  exists w' tr,
    setup sample_env 32 offline_world = Done tt w' /\
    trace w' = trace offline_world ++ boot_output ++ tr
               ++ [ ESerialPrintln ("[Ready] Waiting for trigger..." +s+ nl) ] /\
    forallb outside_pipeline tr = true /\
    (1 <= polls tr <= 32)%nat /\
    pins w' FLASH_LED_PIN = LOW /\
    pins w' STATUS_LED_PIN = HIGH /\
    clock offline_world + 1000 <= clock w' <= clock offline_world + 17400.
Proof.
  apply (setup_completes_without_wifi sample_env 32 offline_world).
  - intros cfg. reflexivity.
  - lia.
Defined.

(* ================================================================== *)
(** * A triggered round *)
(* ================================================================== *)

Lemma polls_cons (e : Event) (l : list Event) :
  polls (e :: l) = ((if is_connectivity_check e then 1 else 0) + polls l)%nat.
Proof. unfold polls. simpl. now destruct (is_connectivity_check e). Qed.

Lemma handle_trigger_offline (env : Env) (fuel : nat) (w : World) :
  (32 <= fuel)%nat ->
  (forall i, is_connected (wifi_in w i) = false) ->
  returns (handle_trigger env fuel true w)
    (fun _ w' => exists tr,
       trace w' = trace w ++ tr /\
       forallb is_wifi_phase_event tr = true /\
       polls tr = 34%nat /\
       (exists before,
          tr = before
               ++ ESerialPrintln "[Error] No WiFi — cannot send image"
               :: blink_output 3) /\
       clock w' = clock w + 17300).
Proof.
  intros Hfuel Hoff. unfold handle_trigger.
  destruct w as [lg pn ck lb rx cam heap http wifi gpio].
  cbn [wifi_in] in Hoff.
  apply returns_bind. exec. cbn [returns]. cbv beta.
  apply returns_bind.
  rewrite (Hoff 0%nat). cbn [negb].
  apply returns_bind. exec. cbn [returns]. cbv beta.
  eapply returns_weaken;
    [ apply returns_and;
      [ apply (connectWiFi_full env fuel _ Hfuel)
      | apply (connectWiFi_run env fuel _ Hfuel) ] |].
  intros _ [lg1 pn1 ck1 lb1 rx1 cam1 heap1 http1 wifi1 gpio1]
         [(connected & net & n & Htr & Hn & Hpolls & Hshift & _ & Hlast & Hout & _)
          (tr2 & Htr2 & Hclass)].
  cbn [clock pins wifi_in] in *.
  rewrite Htr in Htr2. apply app_inv_head in Htr2. subst tr2.
  unfold shift in Hlast. rewrite Hoff in Hlast. subst connected.
  unfold wait_outcome in Hout. cbn [clock pins] in Hout.
  destruct Hout as (Hcount & Hck & _).
  cbn [returns]. cbv beta.
  apply returns_bind. exec. cbn [returns]. cbv beta.
  rewrite (Hshift 0%nat). unfold shift. rewrite Hoff.
  exec. cbn [returns].
  exists (EWiFiStatus (wifi 0%nat)
          :: ESerialPrintln "[WiFi] Reconnecting..."
          :: (connect_preamble (ck mod SIZE_MOD) ++ net ++ [])
          ++ EWiFiStatus (wifi (S (n + 0)))
          :: ESerialPrintln "[Error] No WiFi — cannot send image"
          :: blink_output 3).
  split.
  { unfold trace in *. cbn [log rev] in *. rewrite Htr. cbn [rev blink_output blink_cycle].
    repeat first [rewrite <- app_assoc | progress cbn [app]]. reflexivity. }
  split.
  { cbn [forallb is_wifi_phase_event andb]. rewrite forallb_app, Hclass. reflexivity. }
  split.
  { rewrite !polls_cons, !polls_app, !polls_cons, Hpolls.
    change (polls (connect_preamble (ck mod SIZE_MOD))) with 0%nat.
    change (polls (blink_output 3)) with 0%nat.
    cbn [is_connectivity_check polls filter List.length]. lia. }
  split; [|cbn [clock]; lia].
  eexists (EWiFiStatus (wifi 0%nat) :: ESerialPrintln "[WiFi] Reconnecting..."
           :: (connect_preamble (ck mod SIZE_MOD) ++ net ++ [])
           ++ [EWiFiStatus (wifi (S (n + 0)))]).
  repeat first [rewrite <- app_assoc | progress cbn [app]]. reflexivity.
Qed.

Lemma wifi_phase_no_upload (tr : list Event) :
  forallb is_wifi_phase_event tr = true ->
  forallb (fun e => negb (is_camera_event e || is_upload_event e)) tr = true.
Proof. apply forallb_impl. intros [] H; try reflexivity; discriminate H. Qed.

Lemma trigger_phase_no_upload (tr : list Event) :
  forallb is_trigger_phase_event tr = true ->
  forallb (fun e => negb (is_camera_event e || is_upload_event e)) tr = true.
Proof. apply forallb_impl. intros [] H; try reflexivity; discriminate H. Qed.

Lemma trigger_phase_polls (tr : list Event) :
  forallb is_trigger_phase_event tr = true -> polls tr = 0%nat.
Proof.
  intros H. unfold polls.
  rewrite (filter_none is_connectivity_check is_trigger_phase_event tr);
    [reflexivity | | exact H].
  intros [] He; solve [reflexivity | discriminate He].
Qed.

Lemma loop_offline (env : Env) (fuel : nat) (w : World) :
  (32 <= fuel)%nat ->
  (List.length (serial_rx w) <= fuel)%nat ->
  press_accepted w || command_given w = true ->
  (forall i, is_connected (wifi_in w i) = false) ->
  returns (loop env fuel w)
    (fun _ w' => exists tr,
       trace w' = trace w ++ tr /\
       forallb (fun e => negb (is_camera_event e || is_upload_event e)) tr = true /\
       polls tr = 34%nat /\
       (exists before,
          tr = before
               ++ ESerialPrintln "[Error] No WiFi — cannot send image"
               :: blink_output 3 ++ [EDelay 50]) /\
       clock w' = clock w + 17350).
Proof.
  intros Hfuel Hrx Htrig Hoff.
  apply loop_phases; [exact Hrx|].
  intros w1 seen Hseen Hphase _ _ Hpolled. rewrite Htrig.
  assert (Hwifi : wifi_in w1 = wifi_in w) by (rewrite Hpolled; reflexivity).
  assert (Hck : clock w1 = clock w) by (rewrite Hpolled; reflexivity).
  apply returns_bind.
  eapply returns_weaken;
    [ apply (handle_trigger_offline env fuel w1 Hfuel);
      intros i; rewrite Hwifi; apply Hoff |].
  intros _ [lg2 pn2 ck2 lb2 rx2 cam2 heap2 http2 wifi2 gpio2]
         (tr & Htr & Hclass & Hpolls & (before & Hend) & Hck2).
  cbn [clock] in Hck2.
  exec. cbn [returns].
  exists (seen ++ tr ++ [EDelay 50]).
  split.
  { unfold trace in *. cbn [log rev] in *. rewrite Htr, Hseen.
    now rewrite <- !app_assoc. }
  split.
  { rewrite !forallb_app, (trigger_phase_no_upload _ Hphase),
      (wifi_phase_no_upload _ Hclass). reflexivity. }
  split.
  { rewrite !polls_app, (trigger_phase_polls _ Hphase), Hpolls. reflexivity. }
  split; [|cbn [clock]; lia].
  exists (seen ++ before). rewrite Hend.
  repeat first [rewrite <- app_assoc | progress cbn [app]]. reflexivity.
Qed.

(** X18. A triggered round of [loop] that finds the Wi-Fi down, and cannot
    bring it up, takes no picture: after at least three and at most 34
    connectivity checks (one, those of the reconnection, and one more) it
    reports that there is no Wi-Fi, blinks the status LED three times and
    pauses, more than 16.85 s after the round began; no frame is taken and
    nothing is uploaded. *)
Theorem triggered_loop_without_wifi (env : Env) (fuel : nat) (w : World) :
  (32 <= fuel)%nat ->
  (List.length (serial_rx w) <= fuel)%nat ->
  press_accepted w || command_given w = true ->
  (forall i, wifi_in w i <> WL_CONNECTED) ->
  exists w' tr,
    loop env fuel w = Done tt w' /\
    trace w' = trace w ++ tr /\
    forallb (fun e => negb (is_camera_event e || is_upload_event e)) tr = true /\
    (3 <= polls tr <= 34)%nat /\
    (exists before,
       tr = before
            ++ ESerialPrintln "[Error] No WiFi — cannot send image"
            :: blink_output 3 ++ [EDelay 50]) /\
    clock w + 16850 < clock w'.
Proof.
  intros Hfuel Hrx Htrig Hdown.
  assert (Hoff : forall i, is_connected (wifi_in w i) = false).
  { intros i. destruct (wifi_in w i) eqn:E; try reflexivity.
    exfalso. exact (Hdown i E). }
  destruct (proj1 (returns_ex _ _) (loop_offline env fuel w Hfuel Hrx Htrig Hoff))
    as ([] & w' & Hrun & tr & Htr & Hnone & Hpolls & Hend & Hck).
  exists w', tr.
  split; [exact Hrun|]. split; [exact Htr|]. split; [exact Hnone|].
  split; [lia|]. split; [exact Hend | lia].
Qed.

Lemma triggered_loop_without_wifi_witness :
  exists w' tr,
    loop sample_env 32 pressed_offline_world = Done tt w' /\
    trace w' = trace pressed_offline_world ++ tr /\
    forallb (fun e => negb (is_camera_event e || is_upload_event e)) tr = true /\
    (3 <= polls tr <= 34)%nat /\
    (exists before,
       tr = before
            ++ ESerialPrintln "[Error] No WiFi — cannot send image"
            :: blink_output 3 ++ [EDelay 50]) /\
    clock pressed_offline_world + 16850 < clock w'.
Proof.
  apply (triggered_loop_without_wifi sample_env 32 pressed_offline_world).
  - lia.
  - cbn. lia.
  - reflexivity.
  - intros i. discriminate.
Defined.

Lemma handle_trigger_connected (env : Env) (fuel : nat) (w : World) :
  wifi_in w 0%nat = WL_CONNECTED ->
  wifi_in w 1%nat = WL_CONNECTED ->
  returns (handle_trigger env fuel true w)
    (fun _ w' =>
       trace w' = trace w
                  ++ [EWiFiStatus WL_CONNECTED; EWiFiStatus WL_CONNECTED]
                  ++ capture_output env w).
Proof.
  intros H0 H1. unfold handle_trigger.
  destruct w as [lg pn ck lb rx cam heap http wifi gpio].
  cbn [wifi_in] in H0, H1.
  apply returns_bind. exec. cbn [returns]. cbv beta.
  apply returns_bind.
  rewrite H0. cbn [is_connected negb].
  exec. cbn [returns]. cbv beta.
  apply returns_bind. exec. cbn [returns]. cbv beta.
  rewrite H1. cbn [is_connected].
  eapply returns_weaken; [apply captureAndSend_run|].
  intros _ [lg' pn' ck' lb' rx' cam' heap' http' wifi' gpio'] (Htr & _).
  unfold trace in *. cbn [log rev] in *. rewrite Htr.
  repeat first [rewrite <- app_assoc | progress cbn [app]]. reflexivity.
Qed.

Lemma loop_connected (env : Env) (fuel : nat) (w : World) :
  (List.length (serial_rx w) <= fuel)%nat ->
  press_accepted w || command_given w = true ->
  wifi_in w 0%nat = WL_CONNECTED ->
  wifi_in w 1%nat = WL_CONNECTED ->
  returns (loop env fuel w)
    (fun _ w' => exists polling,
       trace w' = trace w ++ polling
                  ++ [EWiFiStatus WL_CONNECTED; EWiFiStatus WL_CONNECTED]
                  ++ capture_output env w ++ [EDelay 50] /\
       forallb is_trigger_phase_event polling = true).
Proof.
  intros Hrx Htrig H0 H1.
  apply loop_phases; [exact Hrx|].
  intros w1 seen Hseen Hphase _ _ Hpolled. rewrite Htrig.
  assert (Hcap : capture_output env w1 = capture_output env w)
    by (rewrite Hpolled; reflexivity).
  apply returns_bind.
  eapply returns_weaken;
    [ apply (handle_trigger_connected env fuel w1);
      rewrite Hpolled; cbn [wifi_in]; assumption |].
  intros _ [lg2 pn2 ck2 lb2 rx2 cam2 heap2 http2 wifi2 gpio2] Htr.
  exec. cbn [returns].
  exists seen. split; [|exact Hphase].
  unfold trace in *. cbn [log rev] in *. rewrite Htr, Hseen, Hcap.
  repeat first [rewrite <- app_assoc | progress cbn [app]]. reflexivity.
Qed.

(** X19. A triggered round of [loop] that finds the Wi-Fi connected, on the
    first check and on the second, runs one capture: after the polling of
    the triggers come the two connectivity checks, the capture as
    [captureAndSend] runs it from the camera, heap and server as they were
    at the start of the round, and the 50 ms pause. *)
Theorem triggered_loop_captures (env : Env) (fuel : nat) (w : World) :
  (List.length (serial_rx w) <= fuel)%nat ->
  press_accepted w || command_given w = true ->
  wifi_in w 0%nat = WL_CONNECTED ->
  wifi_in w 1%nat = WL_CONNECTED ->
  exists w' polling,
    loop env fuel w = Done tt w' /\
    trace w' = trace w ++ polling
               ++ [EWiFiStatus WL_CONNECTED; EWiFiStatus WL_CONNECTED]
               ++ capture_output env w ++ [EDelay 50] /\
    forallb is_trigger_phase_event polling = true.
Proof.
  intros Hrx Htrig H0 H1.
  destruct (proj1 (returns_ex _ _) (loop_connected env fuel w Hrx Htrig H0 H1))
    as ([] & w' & Hrun & polling & Htr & Hphase).
  exists w', polling.
  split; [exact Hrun|]. split; [exact Htr | exact Hphase].
Qed.

Lemma triggered_loop_captures_witness :
  exists w' polling,
    loop sample_env 4 typed_world = Done tt w' /\
    trace w' = trace typed_world ++ polling
               ++ [EWiFiStatus WL_CONNECTED; EWiFiStatus WL_CONNECTED]
               ++ capture_output sample_env typed_world ++ [EDelay 50] /\
    forallb is_trigger_phase_event polling = true.
Proof.
  apply (triggered_loop_captures sample_env 4 typed_world).
  - cbn. lia.
  - reflexivity.
  - reflexivity.
  - reflexivity.
Defined.

(* ================================================================== *)
(** * Check first, capture after *)
(* ================================================================== *)

(** The wait loop of [connectWiFi] starts no connection of its own. *)
Lemma connectWiFi_wait_class (fuel : nat) :
  forall (k : Z) (start : Z) (w : World),
    0 <= k ->
    ulong_sub (clock w mod SIZE_MOD) start = 500 * k ->
    (1 <= fuel)%nat -> 32 <= Z.of_nat fuel + k ->
    returns (connectWiFi_wait fuel start w)
      (fun _ w' => exists tr,
         trace w' = trace w ++ tr /\ forallb is_wifi_wait_event tr = true).
Proof.
  induction fuel as [|fuel IH]; intros k start w Hk Hclock Hfuel Hsum; [lia|].
  rewrite connectWiFi_wait_S.
  destruct w as [lg pn ck lb rx cam heap http wifi gpio].
  cbn [clock] in Hclock.
  exec.
  destruct (wifi 0%nat) eqn:Est; exec;
    try solve [ cbn [returns]; eexists; split; [same_trace | reflexivity] ].
  all: rewrite Hclock.
  all: destruct (500 * k >? WIFI_TIMEOUT_MS) eqn:Hto; exec;
    try solve [ cbn [returns]; eexists; split; [same_trace | reflexivity] ].
  all: rewrite Z.gtb_ltb in Hto; apply Z.ltb_ge in Hto; unfold WIFI_TIMEOUT_MS in Hto.
  all: eapply returns_weaken;
    [ apply (IH (k + 1)); cbn [clock];
      [ lia | apply elapsed_step; [lia | unfold SIZE_MOD; lia | exact Hclock]
      | lia | lia ] | ].
  all: intros _ w' (tr & Htr & Hev); destruct w'.
  all: eexists; split;
    [ chain_trace Htr | cbn [forallb is_wifi_wait_event andb]; exact Hev ].
Qed.

(** [connectWiFi] calls [WiFi.begin] once, and does not touch the camera. *)
Lemma connectWiFi_begins_once (env : Env) (fuel : nat) (w : World) :
  (32 <= fuel)%nat ->
  returns (connectWiFi env fuel w)
    (fun _ w' => exists tr,
       trace w' = trace w ++ tr /\
       occurrences is_wifi_begin tr = 1%nat).
Proof.
  intros Hfuel. unfold connectWiFi.
  destruct w as [lg pn ck lb rx cam heap http wifi gpio].
  exec. apply returns_seq.
  eapply returns_weaken;
    [ apply (connectWiFi_wait_class fuel 0); cbn [clock];
      [ lia | apply elapsed_start | lia | lia ] | ].
  intros connected w' (tr & Htr & Hev). destruct w'.
  assert (Hnone : occurrences is_wifi_begin tr = 0%nat).
  { apply (occurrences_none is_wifi_begin is_wifi_wait_event); [|exact Hev].
    intros [] He; solve [reflexivity | discriminate He]. }
  destruct connected; exec; cbn [returns].
  - exists (connect_preamble (ck mod SIZE_MOD) ++ tr ++ connected_report env).
    split; [unfold connect_preamble, connected_report; chain_trace Htr|].
    rewrite !occurrences_app, Hnone. reflexivity.
  - exists (connect_preamble (ck mod SIZE_MOD) ++ tr).
    split; [unfold connect_preamble; chain_trace Htr|].
    rewrite !occurrences_app, Hnone. reflexivity.
Qed.

(** What [loop] does about a trigger: it asks for the status; if the Wi-Fi
    is down it tries once to reconnect; it asks again, and captures only if
    that answer is [WL_CONNECTED]. *)
Lemma handle_trigger_shape (env : Env) (fuel : nat) (w : World) :
  (32 <= fuel)%nat ->
  returns (handle_trigger env fuel true w)
    (fun _ w' => exists reconnect st k,
       trace w' = trace w
                  ++ (EWiFiStatus (wifi_in w 0%nat) :: reconnect
                      ++ [EWiFiStatus st])
                  ++ (if is_connected st then capture_output env w
                      else ESerialPrintln "[Error] No WiFi — cannot send image"
                           :: blink_output 3) /\
       st = wifi_in w k /\
       forallb (fun e => negb (is_camera_event e)) reconnect = true /\
       (wifi_in w 0%nat = WL_CONNECTED -> reconnect = []) /\
       (wifi_in w 0%nat <> WL_CONNECTED ->
        exists attempt,
          reconnect = ESerialPrintln "[WiFi] Reconnecting..." :: attempt /\
          occurrences is_wifi_begin attempt = 1%nat)).
Proof.
  intros Hfuel. unfold handle_trigger.
  destruct w as [lg pn ck lb rx cam heap http wifi gpio].
  cbn [wifi_in].
  apply returns_bind. exec. cbn [returns]. cbv beta.
  apply returns_bind.
  assert (Htail : forall w1 : World,
    returns
      ((st <- WiFi_status ;;
        if is_connected st then captureAndSend env
        else
          Serial_println "[Error] No WiFi — cannot send image" ;;
          blinkError 3) w1)
      (fun _ w' =>
         trace w' = trace w1
                    ++ EWiFiStatus (wifi_in w1 0%nat)
                    :: (if is_connected (wifi_in w1 0%nat)
                        then capture_output env w1
                        else ESerialPrintln "[Error] No WiFi — cannot send image"
                             :: blink_output 3))).
  { intros [lg1 pn1 ck1 lb1 rx1 cam1 heap1 http1 wifi1 gpio1].
    cbn [wifi_in].
    apply returns_bind. exec. cbn [returns]. cbv beta.
    destruct (is_connected (wifi1 0%nat)).
    - eapply returns_weaken; [apply captureAndSend_run|].
      intros _ [lg' pn' ck' lb' rx' cam' heap' http' wifi' gpio'] (Htr & _).
      unfold trace in *. cbn [log rev] in *. rewrite Htr.
      repeat first [rewrite <- app_assoc | progress cbn [app]]. reflexivity.
    - exec. cbn [returns]. same_trace. }
  destruct (is_connected (wifi 0%nat)) eqn:E0; cbn [negb].
  - exec. cbn [returns]. cbv beta.
    eapply returns_weaken; [apply Htail|].
    intros _ [lg' pn' ck' lb' rx' cam' heap' http' wifi' gpio'] Htr.
    cbn [wifi_in] in Htr.
    exists [], (wifi 1%nat), 1%nat.
    split.
    { unfold trace in *. cbn [log rev] in *. rewrite Htr.
      repeat first [rewrite <- app_assoc | progress cbn [app]]. reflexivity. }
    split; [reflexivity|]. split; [reflexivity|]. split; [reflexivity|].
    intros Hdown. apply is_connected_true in E0. contradiction.
  - apply returns_bind. exec. cbn [returns]. cbv beta.
    eapply returns_weaken;
      [ apply returns_and;
        [ apply returns_and;
          [ apply (connectWiFi_full env fuel _ Hfuel)
          | apply (connectWiFi_run env fuel _ Hfuel) ]
        | apply (connectWiFi_begins_once env fuel _ Hfuel) ] |].
    intros _ [lg1 pn1 ck1 lb1 rx1 cam1 heap1 http1 wifi1 gpio1]
           [[(connected & net & n & _ & _ & _ & Hshift & _ & _ & _ & Hin)
             (tr2 & Htr2 & Hclass)]
            (attempt & Hattempt & Honce)].
    rewrite Htr2 in Hattempt. apply app_inv_head in Hattempt. subst tr2.
    unfold same_inputs_but_wifi in Hin.
    cbn [lastButtonPress serial_rx cam_in heap_in http_in gpio_in wifi_in] in *.
    destruct Hin as (_ & _ & -> & -> & -> & _).
    cbn [returns]. cbv beta.
    eapply returns_weaken; [apply Htail|].
    intros _ [lg' pn' ck' lb' rx' cam' heap' http' wifi' gpio'] Htr.
    cbn [wifi_in] in Htr.
    exists (ESerialPrintln "[WiFi] Reconnecting..." :: attempt),
      (wifi1 0%nat), (S (n + 0)).
    split.
    { unfold trace in *. cbn [log rev] in *. rewrite Htr, Htr2. cbn [rev].
      repeat first [rewrite <- app_assoc | progress cbn [app]]. reflexivity. }
    split; [apply (Hshift 0%nat)|].
    split; [cbn [forallb is_camera_event negb andb];
            exact (wifi_phase_no_camera _ Hclass)|].
    split.
    { intros Hup. rewrite Hup in E0. discriminate E0. }
    intros _. exists attempt. split; [reflexivity | exact Honce].
Qed.

Lemma none_of_class (p : Event -> bool) (tr : list Event) :
  forallb (fun e => negb (p e)) tr = true -> existsb p tr = false.
Proof.
  induction tr as [|e tr IH]; [reflexivity|].
  cbn [forallb existsb]. intros H. apply andb_true_iff in H as [He Hs].
  rewrite (IH Hs). now destruct (p e).
Qed.

Lemma trigger_phase_no_camera (tr : list Event) :
  forallb is_trigger_phase_event tr = true ->
  forallb (fun e => negb (is_camera_event e)) tr = true.
Proof. apply forallb_impl. intros [] H; try reflexivity; discriminate H. Qed.

Lemma loop_shape (env : Env) (fuel : nat) (w : World) :
  (32 <= fuel)%nat ->
  (List.length (serial_rx w) <= fuel)%nat ->
  returns (loop env fuel w)
    (fun _ w' => exists polling checks rest,
       trace w' = trace w ++ polling ++ checks ++ rest /\
       forallb is_trigger_phase_event polling = true /\
       forallb (fun e => negb (is_camera_event e)) checks = true /\
       forallb (fun e => negb (is_connectivity_check e)) rest = true /\
       (existsb is_camera_event rest = true ->
        exists before, checks = before ++ [EWiFiStatus WL_CONNECTED]) /\
       (press_accepted w || command_given w = false ->
        checks = [] /\ rest = [EDelay 50]) /\
       (press_accepted w || command_given w = true ->
        exists reconnect st,
          checks = EWiFiStatus (wifi_in w 0%nat) :: reconnect
                   ++ [EWiFiStatus st] /\
          (wifi_in w 0%nat = WL_CONNECTED -> reconnect = []) /\
          (wifi_in w 0%nat <> WL_CONNECTED ->
           exists attempt,
             reconnect = ESerialPrintln "[WiFi] Reconnecting..." :: attempt /\
             occurrences is_wifi_begin attempt = 1%nat) /\
          rest = (if is_connected st then capture_output env w
                  else ESerialPrintln "[Error] No WiFi — cannot send image"
                       :: blink_output 3)
                 ++ [EDelay 50]) /\
       ((forall i, wifi_in w i <> WL_CONNECTED) ->
        existsb is_camera_event (polling ++ checks ++ rest) = false)).
Proof.
  intros Hfuel Hrx.
  apply loop_phases; [exact Hrx|].
  intros w1 seen Hseen Hphase _ _ Hpolled.
  assert (Hwifi : wifi_in w1 = wifi_in w) by (rewrite Hpolled; reflexivity).
  assert (Hcap : capture_output env w1 = capture_output env w)
    by (rewrite Hpolled; reflexivity).
  pose proof (trigger_phase_no_camera _ Hphase) as Hquiet.
  destruct (press_accepted w || command_given w).
  - apply returns_bind.
    eapply returns_weaken; [apply (handle_trigger_shape env fuel w1 Hfuel)|].
    intros _ [lg2 pn2 ck2 lb2 rx2 cam2 heap2 http2 wifi2 gpio2]
           (reconnect & st & k & Htr & Hst & Hnocam & Hup & Hdown).
    rewrite Hwifi, Hcap in *.
    exec. cbn [returns].
    exists seen,
      (EWiFiStatus (wifi_in w 0%nat) :: reconnect ++ [EWiFiStatus st]),
      ((if is_connected st then capture_output env w
        else ESerialPrintln "[Error] No WiFi — cannot send image"
             :: blink_output 3) ++ [EDelay 50]).
    assert (Hrest : is_connected st = false ->
              existsb is_camera_event
                ((ESerialPrintln "[Error] No WiFi — cannot send image"
                  :: blink_output 3) ++ [EDelay 50]) = false)
      by (intros _; reflexivity).
    split.
    { unfold trace in *. cbn [log rev] in *. rewrite Htr, Hseen.
      repeat first [rewrite <- app_assoc | progress cbn [app]]. reflexivity. }
    split; [exact Hphase|].
    split.
    { cbn [forallb is_camera_event negb andb]. rewrite forallb_app, Hnocam.
      reflexivity. }
    split.
    { rewrite forallb_app. destruct (is_connected st).
      - now rewrite capture_output_no_check.
      - reflexivity. }
    split.
    { destruct (is_connected st) eqn:E.
      - intros _. apply is_connected_true in E. rewrite E.
        exists (EWiFiStatus (wifi_in w 0%nat) :: reconnect). reflexivity.
      - rewrite (Hrest eq_refl). discriminate. }
    split; [discriminate|].
    split.
    { intros _. exists reconnect, st.
      split; [reflexivity|]. split; [exact Hup|]. split; [exact Hdown|].
      reflexivity. }
    intros Hoff.
    assert (E : is_connected st = false).
    { rewrite Hst. destruct (wifi_in w k) eqn:Ek; try reflexivity.
      exfalso. exact (Hoff k Ek). }
    rewrite E, existsb_app, (none_of_class _ _ Hquiet), existsb_app, (Hrest E).
    cbn [existsb is_camera_event orb].
    rewrite existsb_app, (none_of_class _ _ Hnocam). reflexivity.
  - destruct w1 as [lg1 pn1 ck1 lb1 rx1 cam1 heap1 http1 wifi1 gpio1].
    exec. cbn [returns].
    exists seen, [], [EDelay 50].
    split.
    { unfold trace in *. cbn [log rev] in *. rewrite Hseen.
      repeat first [rewrite <- app_assoc | progress cbn [app]]. reflexivity. }
    split; [exact Hphase|]. split; [reflexivity|]. split; [reflexivity|].
    split; [discriminate|]. split; [intros _; split; reflexivity|].
    split; [discriminate|].
    intros _. rewrite existsb_app, (none_of_class _ _ Hquiet). reflexivity.
Qed.

(** C7, as the code has it.  A round of [loop] with enough fuel returns, and
    its events fall in three parts: the polling of the triggers; the
    connectivity checks, with no camera event among them; and the rest, with
    no connectivity check in it.  A round that is not triggered checks
    nothing and only waits.  A triggered round first asks for the Wi-Fi
    status; when that is not [WL_CONNECTED] it announces and makes one
    attempt to reconnect, with one call of [WiFi.begin], and makes none
    otherwise; then it asks for the status again, and runs the capture
    exactly when this last answer is [WL_CONNECTED], reporting the missing
    Wi-Fi otherwise.  So the camera is used only after a check that found
    the Wi-Fi connected, and not at all when the Wi-Fi stays down. *)
Theorem connectivity_is_checked_before_capture
    (env : Env) (fuel : nat) (w : World) :
  (32 <= fuel)%nat ->
  (List.length (serial_rx w) <= fuel)%nat ->
  exists w' polling checks rest,
    loop env fuel w = Done tt w' /\
    trace w' = trace w ++ polling ++ checks ++ rest /\
    forallb is_trigger_phase_event polling = true /\
    forallb (fun e => negb (is_camera_event e)) checks = true /\
    forallb (fun e => negb (is_connectivity_check e)) rest = true /\
    (existsb is_camera_event rest = true ->
     exists before, checks = before ++ [EWiFiStatus WL_CONNECTED]) /\
    (press_accepted w || command_given w = false ->
     checks = [] /\ rest = [EDelay 50]) /\
    (press_accepted w || command_given w = true ->
     exists reconnect st,
       checks = EWiFiStatus (wifi_in w 0%nat) :: reconnect
                ++ [EWiFiStatus st] /\
       (wifi_in w 0%nat = WL_CONNECTED -> reconnect = []) /\
       (wifi_in w 0%nat <> WL_CONNECTED ->
        exists attempt,
          reconnect = ESerialPrintln "[WiFi] Reconnecting..." :: attempt /\
          occurrences is_wifi_begin attempt = 1%nat) /\
       rest = (if is_connected st then capture_output env w
               else ESerialPrintln "[Error] No WiFi — cannot send image"
                    :: blink_output 3)
              ++ [EDelay 50]) /\
    ((forall i, wifi_in w i <> WL_CONNECTED) ->
     existsb is_camera_event (polling ++ checks ++ rest) = false).
Proof.
  intros Hfuel Hrx.
  destruct (proj1 (returns_ex _ _) (loop_shape env fuel w Hfuel Hrx))
    as ([] & w' & Hrun & polling & checks & rest & Htr & Hphase & Hc & Hr
        & Hlast & Hidle & Htrig & Hoff).
  exists w', polling, checks, rest.
  split; [exact Hrun|]. split; [exact Htr|]. split; [exact Hphase|].
  split; [exact Hc|]. split; [exact Hr|]. split; [exact Hlast|].
  split; [exact Hidle|]. split; [exact Htrig | exact Hoff].
Qed.

Lemma connectivity_is_checked_before_capture_witness :
  exists w' polling checks rest,
    loop sample_env 32 pressed_world = Done tt w' /\
    trace w' = trace pressed_world ++ polling ++ checks ++ rest /\
    forallb is_trigger_phase_event polling = true /\
    forallb (fun e => negb (is_camera_event e)) checks = true /\
    forallb (fun e => negb (is_connectivity_check e)) rest = true /\
    (existsb is_camera_event rest = true ->
     exists before, checks = before ++ [EWiFiStatus WL_CONNECTED]) /\
    (press_accepted pressed_world || command_given pressed_world = false ->
     checks = [] /\ rest = [EDelay 50]) /\
    (press_accepted pressed_world || command_given pressed_world = true ->
     exists reconnect st,
       checks = EWiFiStatus (wifi_in pressed_world 0%nat) :: reconnect
                ++ [EWiFiStatus st] /\
       (wifi_in pressed_world 0%nat = WL_CONNECTED -> reconnect = []) /\
       (wifi_in pressed_world 0%nat <> WL_CONNECTED ->
        exists attempt,
          reconnect = ESerialPrintln "[WiFi] Reconnecting..." :: attempt /\
          occurrences is_wifi_begin attempt = 1%nat) /\
       rest = (if is_connected st then capture_output sample_env pressed_world
               else ESerialPrintln "[Error] No WiFi — cannot send image"
                    :: blink_output 3)
              ++ [EDelay 50]) /\
    ((forall i, wifi_in pressed_world i <> WL_CONNECTED) ->
     existsb is_camera_event (polling ++ checks ++ rest) = false).
Proof.
  apply (connectivity_is_checked_before_capture sample_env 32 pressed_world);
    cbn; lia.
Defined.
